(** * pySimPro: a shallow embedding of [simpro.py] and [simple_bootstrap.py]

    The embedding follows the two Python modules function by function.
    Python values are a small inductive type, dictionaries are [gmap]s keyed
    by strings, exceptions and the network are threaded through an explicit
    state-and-error monad, and objects that the code mutates while the caller
    still holds them (the [columns] list, the [job_attributes] dict) are
    returned next to the result so that the aliasing is visible.  A class
    made by [build_classes] carries the dict it was made from, and every
    member that the code looks up on a class or an instance is looked up
    in that dict first. *)

From Stdlib Require Import ZArith String Ascii List DecimalString Lia.
From Stdlib Require DecimalZ DecimalPos.
From stdpp Require Import base option gmap strings list.

#[local] Set Warnings "-register-all".
#[local] Open Scope Z_scope.

(** ** Python values *)

(** The values that travel through the client: JSON documents, request
    parameters and record attributes.  JSON floats do not occur in the
    attributes the program touches and are left out.  A string is a
    sequence of code points below 256. *)
Inductive value :=
  | VNone
  | VBool (b : bool)
  | VInt (z : Z)
  | VStr (s : string)
  | VList (l : list value)
  | VDict (d : gmap string value).

(** Python's truth value, as used by [if not record_id]. *)
Definition truthy (v : value) : bool :=
  match v with
  | VNone => false
  | VBool b => b
  | VInt z => negb (z =? 0)
  | VStr s => negb (String.eqb s EmptyString)
  | VList l => match l with [] => false | _ => true end
  | VDict d => negb (bool_decide (d = ∅))
  end.

(** [str(n)] for an integer. *)
Definition str_int (z : Z) : string := NilZero.string_of_int (Z.to_int z).

Definition LF : ascii := "010"%char.

(** Code points below 256 for which [str.isspace] holds; [str.split()]
    without arguments separates on runs of these. *)
Definition is_space (c : ascii) : bool :=
  let n := nat_of_ascii c in
  ((9 <=? n) && (n <=? 13) || (28 <=? n) && (n <=? 32)
   || (n =? 133) || (n =? 160))%nat.

(** [s.replace(old, new)] for a one-character [old]. *)
Fixpoint str_replace (old : ascii) (new : string) (s : string) : string :=
  match s with
  | EmptyString => EmptyString
  | String c s' =>
      if Ascii.eqb c old then new +:+ str_replace old new s'
      else String c (str_replace old new s')
  end.

Definition flush (word : string) : list string :=
  match word with EmptyString => [] | _ => [word] end.

Fixpoint split_from (word : string) (s : string) : list string :=
  match s with
  | EmptyString => flush word
  | String c s' =>
      if is_space c then flush word ++ split_from EmptyString s'
      else split_from (word +:+ String c EmptyString) s'
  end.

(** [s.split()]: the maximal runs of non-whitespace characters. *)
Definition str_split (s : string) : list string := split_from EmptyString s.

(** [sep.join(words)]. *)
Definition str_join (sep : string) (words : list string) : string :=
  String.concat sep words.

(** ** Exceptions and results *)

Inductive exn :=
  | HTTPError (status_code : Z)   (* requests.exceptions.HTTPError *)
  | ConnectionError               (* requests.exceptions.ConnectionError *)
  | JSONDecodeError
  | KeyError (key : string)
  | TypeError
  | ValueError
  | AttributeError
  | JobRecordCreationError.       (* simple_bootstrap.JobRecordCreationError *)

(** The exception class, which is what an [except] clause matches on. *)
Inductive exn_class :=
  | ClsHTTPError | ClsConnectionError | ClsJSONDecodeError | ClsKeyError
  | ClsTypeError | ClsValueError | ClsAttributeError
  | ClsJobRecordCreationError.

Definition class_of (e : exn) : exn_class :=
  match e with
  | HTTPError _ => ClsHTTPError
  | ConnectionError => ClsConnectionError
  | JSONDecodeError => ClsJSONDecodeError
  | KeyError _ => ClsKeyError
  | TypeError => ClsTypeError
  | ValueError => ClsValueError
  | AttributeError => ClsAttributeError
  | JobRecordCreationError => ClsJobRecordCreationError
  end.

(** Outcome of running a piece of the program: a value, a raised exception,
    or [Diverge] when the loop budget given to the model ran out. *)
Inductive res (A : Type) :=
  | Ok (a : A)
  | Raise (e : exn)
  | Diverge.
Arguments Ok {A} a.
Arguments Raise {A} e.
Arguments Diverge {A}.

Definition res_bind {A B} (r : res A) (k : A -> res B) : res B :=
  match r with
  | Ok a => k a
  | Raise e => Raise e
  | Diverge => Diverge
  end.

(** ** Classes and instances *)

(** A class of the program: the hand-written [Company], or a class made by
    [type(name, bases, definitions)] in [build_classes], where
    [definitions] becomes the class's own dict.  [SimProObject] is always
    the first base, so its members come before those of any extra base;
    an entry of [definitions], however, comes before them all.  The
    entries are data (a [value] is neither callable nor a descriptor), so
    an entry named after a method of [SimProObject] makes a call of that
    method raise [TypeError], and an entry named [obj_url] is what
    [o.obj_url] evaluates to.  Extra bases are kept by name; members that
    they define themselves, and the descriptors that [type] makes of a
    [__slots__] entry, are outside the model. *)
Inductive PyClass :=
  | Company
  | Generated (name : string) (bases : list string)
              (definitions : gmap string value).

Definition class_name (c : PyClass) : string :=
  match c with
  | Company => "Company"
  | Generated name _ _ => name
  end.

(** The data entry called [member] in the class's own dict.  The body of
    [Company] defines functions, [type_url_suffix] and a [columns] table
    (which holds types and is never read). *)
Definition data_entry (c : PyClass) (member : string) : option value :=
  match c with
  | Company =>
      if String.eqb member "type_url_suffix" then Some (VStr "/companies/")
      else None
  | Generated _ _ definitions => definitions !! member
  end.

(** Whether a data entry of the class hides the member of that name that
    the class would otherwise inherit. *)
Definition shadows (c : PyClass) (member : string) : bool :=
  match data_entry c member with Some _ => true | None => false end.

(** [a + b] on the values of the model: strings and lists concatenate,
    integers and booleans add, every other pair raises [TypeError]. *)
Definition py_add (a b : value) : res value :=
  match a, b with
  | VStr x, VStr y => Ok (VStr (x +:+ y))
  | VList x, VList y => Ok (VList (x ++ y))
  | VInt x, VInt y => Ok (VInt (x + y))
  | VInt x, VBool y => Ok (VInt (x + Z.b2z y))
  | VBool x, VInt y => Ok (VInt (Z.b2z x + y))
  | VBool x, VBool y => Ok (VInt (Z.b2z x + Z.b2z y))
  | _, _ => Raise TypeError
  end.

(** [address + cls.type_url_suffix].  A class without the attribute
    inherits [SimProObject]'s property object, which cannot be added to
    anything. *)
Definition add_type_url_suffix (address : value) (c : PyClass) : res value :=
  match data_entry c "type_url_suffix" with
  | Some suffix => py_add address suffix
  | None => Raise TypeError
  end.

(** [cls.type_url_suffix] as the right operand of [+] after a string: the
    string it contributes, or the [TypeError] of the addition. *)
Definition type_url_suffix (c : PyClass) : res string :=
  match c with
  | Company => Ok "/companies/"
  | Generated _ _ definitions =>
      match definitions !! "type_url_suffix" with
      | Some (VStr s) => Ok s
      | _ => Raise TypeError
      end
  end.

(** A [SimProObject] instance, or the [Parentless] sentinel that ends every
    parent chain. *)
Inductive obj :=
  | Parentless
  | Obj (cls : PyClass) (record_id : value) (parent : obj)
        (attributes : gmap string value).

(** [o.record_id]; the [Parentless] class has no such attribute, and a
    class whose dict holds data under [__getattribute__] cannot be read
    from at all. *)
Definition record_id (o : obj) : res value :=
  match o with
  | Parentless => Raise AttributeError
  | Obj cls i _ _ =>
      if shadows cls "__getattribute__" then Raise TypeError else Ok i
  end.

(** The instance that [SimProObject.__init__] leaves behind, or
    [Company.__init__], which replaces a falsy id by [0]. *)
Definition built (cls : PyClass) (record_id : value) (parent : obj)
    (attributes : gmap string value) : obj :=
  match cls with
  | Company =>
      Obj Company (if truthy record_id then record_id else VInt 0)
          parent attributes
  | _ => Obj cls record_id parent attributes
  end.

(** [cls(record_id, parent, attributes)].  The call looks up [__new__] and
    [__init__] on the class, and the assignments in [__init__] look up
    [__setattr__]; data found under one of these names is called and
    raises [TypeError]. *)
Definition new (cls : PyClass) (record_id : value) (parent : obj)
    (attributes : gmap string value) : res obj :=
  if shadows cls "__new__" || shadows cls "__init__"
     || shadows cls "__setattr__"
  then Raise TypeError
  else Ok (built cls record_id parent attributes).

(** [o.__class__.__name__], which the progress line of [_list_all] prints
    for the parent.  Data under [__class__] is found in place of the
    class, and has no [__name__]. *)
Definition class_name_of (o : obj) : res string :=
  match o with
  | Parentless => Ok "Parentless"
  | Obj cls _ _ _ =>
      if shadows cls "__getattribute__" then Raise TypeError
      else if shadows cls "__class__" then Raise AttributeError
      else Ok (class_name cls)
  end.

Section Client.

(** The environment the module reads at import time, and the parts of the
    Python runtime that the source leaves open. *)
Context (COMPANY_DOMAIN : string).
Context (access_token : string).
(** [str] of a list or a dict. *)
Context (repr_container : value -> string).
(** Iteration order of a [set] of strings (hash dependent). *)
Context (set_order : gset string -> list string).

Definition BASE_URL : string := "https://" +:+ COMPANY_DOMAIN +:+ ".simprosuite.com".
Definition BASE_API_URL : string := BASE_URL +:+ "/api/v1.0".

Definition AUTH_HEADERS : list (string * string) :=
  [("Authorization", "Bearer " +:+ access_token);
   ("Content-Type", "application/json")].

(** [str(v)]. *)
Definition str (v : value) : string :=
  match v with
  | VNone => "None"
  | VBool true => "True"
  | VBool false => "False"
  | VInt z => str_int z
  | VStr s => s
  | _ => repr_container v
  end.

(** [o.obj_url].  [Parentless.obj_url] is the class attribute
    [BASE_API_URL].  On an instance the attribute is looked up on the
    class first: data under [obj_url] in the class's dict is returned as
    it is, otherwise the property of [SimProObject] computes
    [self.parent.obj_url + type(self).type_url_suffix + str(self.record_id)]. *)
Fixpoint obj_url (o : obj) : res value :=
  match o with
  | Parentless => Ok (VStr BASE_API_URL)
  | Obj cls record_id parent _ =>
      if shadows cls "__getattribute__" then Raise TypeError
      else
        match data_entry cls "obj_url" with
        | Some address => Ok address
        | None =>
            res_bind (obj_url parent) (fun parent_url =>
            res_bind (add_type_url_suffix parent_url cls) (fun type_url =>
            py_add type_url (VStr (str record_id))))
        end
  end.

(** ** The network *)

Inductive http_method := GET | POST.

(** One call of [requests.get] or [requests.post]. *)
Record request := {
  method : http_method;
  url : string;
  params : gmap string value;
  json : option (gmap string value);
  headers : list (string * string)
}.

(** What the client reads from a [requests.Response]: the status, the body
    ([None] when it is not JSON) and the relations of its [Link] header. *)
Record response := {
  status_code : Z;
  body : option value;
  links : gset string
}.

(** [response.ok]: [raise_for_status] raises exactly for 4xx and 5xx. *)
Definition ok (r : response) : bool :=
  negb ((400 <=? status_code r) && (status_code r <? 600)).

(** [if not response.ok: response.raise_for_status()]. *)
Definition raise_for_status (r : response) : res unit :=
  if ok r then Ok tt else Raise (HTTPError (status_code r)).

(** [response.json()]. *)
Definition response_json (r : response) : res value :=
  match body r with
  | Some v => Ok v
  | None => Raise JSONDecodeError
  end.

(** The server is any state machine answering requests; [None] is a
    request that gets no response at all. *)
Context {server : Type}.
Context (serve : request -> server -> option response * server).

(** The state the program runs in: the server, and the requests sent so
    far, oldest first. *)
Record world := { srv : server; log : list request }.

Definition M (A : Type) : Type := world -> res A * world.

Definition ret {A} (a : A) : M A := fun w => (Ok a, w).

Definition bind {A B} (m : M A) (k : A -> M B) : M B :=
  fun w =>
    match m w with
    | (Ok a, w') => k a w'
    | (Raise e, w') => (Raise e, w')
    | (Diverge, w') => (Diverge, w')
    end.

Definition lift {A} (r : res A) : M A := fun w => (r, w).

Definition raise {A} (e : exn) : M A := lift (Raise e).

Notation "x <- m ;; k" := (bind m (fun x => k))
  (at level 100, m at next level, right associativity).
Notation "m ;;; k" := (bind m (fun _ => k))
  (at level 100, right associativity).

(** Sending a request: it is logged, the server moves on, and the caller
    gets the response or, when there is none, the exception with which
    [requests] gives up, a [ConnectionError]. *)
Definition sent (w : world) (s : server) (r : request) : world :=
  {| srv := s; log := log w ++ [r] |}.

Definition send (r : request) : M response :=
  fun w =>
    let '(reply, s) := serve r (srv w) in
    match reply with
    | Some resp => (Ok resp, sent w s r)
    | None => (Raise ConnectionError, sent w s r)
    end.

Definition get_request (url : string) (params : gmap string value) : request :=
  {| method := GET; url := url; params := params; json := None;
     headers := AUTH_HEADERS |}.

Definition post_request (url : string) (json : gmap string value) : request :=
  {| method := POST; url := url; params := ∅; json := Some json;
     headers := AUTH_HEADERS |}.

(** [requests.get(url, params=params, headers=AUTH_HEADERS)]. *)
Definition requests_get (url : string) (params : gmap string value) : M response :=
  send (get_request url params).

(** [requests.post(url, json=json, headers=AUTH_HEADERS)]. *)
Definition requests_post (url : string) (json : gmap string value) : M response :=
  send (post_request url json).

(** ** SimProObject *)

(** [_columns_to_params]: returns the [params] string together with the
    list object named [columns] after line 58.  When the argument is not
    [None] that object is the caller's own list. *)
Definition _columns_to_params (columns : option (list string)) : string * list string :=
  let columns := match columns with None => [] | Some l => l end in
  let columns := columns ++ ["ID"] in
  let columns_set : gset string := list_to_set columns in
  (str_join "," (set_order columns_set), columns).

(** [obj_attributes.pop("ID")] on one decoded JSON value. *)
Definition pop_ID (v : value) : res (value * gmap string value) :=
  match v with
  | VDict d =>
      match d !! "ID" with
      | Some i => Ok (i, delete "ID" d)
      | None => Raise (KeyError "ID")
      end
  | VList _ => Raise TypeError
  | _ => Raise AttributeError
  end.

(** The values a [for] loop over a JSON document visits.  A dict yields
    its keys; their order plays no role, [pop_ID] fails on the first. *)
Definition iterate (v : value) : res (list value) :=
  match v with
  | VList l => Ok l
  | VDict d => Ok (VStr <$> (map_to_list d).*1)
  | VStr s => Ok ((fun c => VStr (String c EmptyString)) <$> list_ascii_of_string s)
  | _ => Raise TypeError
  end.

(** [pop] the id and build the instance. *)
Definition decode (cls : PyClass) (parent : obj) (v : value) : res obj :=
  res_bind (pop_ID v) (fun '(record_id, obj_attributes) =>
  new cls record_id parent obj_attributes).

(** The body of the [for] loop of [_list_all], lines 129-132. *)
Fixpoint decode_each (cls : PyClass) (parent : obj) (items : list value)
    (child_objects : list obj) : res (list obj) :=
  match items with
  | [] => Ok child_objects
  | v :: items =>
      res_bind (decode cls parent v) (fun simpro_object =>
      decode_each cls parent items (child_objects ++ [simpro_object]))
  end.

Definition list_params (columns_param : string) (page : Z) : gmap string value :=
  {[ "columns" := VStr columns_param; "pageSize" := VInt 250;
     "page" := VInt page; "orderby" := VStr "ID" ]}.

(** The [while] loop of [_list_all].  [page] is [params["page"]], with
    [None] for Python's [None]; [fuel] bounds the number of iterations.
    The [print] calls write to standard output and are left out; the one
    thing in them that can fail, reading [parent.__class__.__name__], has
    the same outcome in every iteration and is done by
    [SimProObject__list_all] before the loop is entered. *)
Fixpoint list_pages (fuel : nat) (cls : PyClass) (parent : obj)
    (request_url columns_param : string) (page : option Z)
    (child_objects : list obj) : M (list obj) :=
  match page with
  | None => ret child_objects
  | Some p =>
      match fuel with
      | O => lift Diverge
      | S fuel =>
          response <- requests_get request_url (list_params columns_param p) ;;
          lift (raise_for_status response) ;;;
          items <- lift (res_bind (response_json response) iterate) ;;
          child_objects <- lift (decode_each cls parent items child_objects) ;;
          list_pages fuel cls parent request_url columns_param
            (if bool_decide ("next" ∈ links response) then Some (p + 1) else None)
            child_objects
      end
  end.

(** [parent.obj_url + cls.type_url_suffix]. *)
Definition type_url (cls : PyClass) (parent : obj) : res value :=
  res_bind (obj_url parent) (fun parent_url =>
  add_type_url_suffix parent_url cls).

(** The body of [SimProObject._list_all].  The first component is the
    caller's [columns] list after the call.  [requests] reads the address
    it is given with [str]. *)
Definition SimProObject__list_all (fuel : nat) (cls : PyClass) (parent : obj)
    (columns : list string) : list string * M (list obj) :=
  if shadows cls "_columns_to_params" then (columns, raise TypeError)
  else
    let '(columns_param, columns) := _columns_to_params (Some columns) in
    (columns,
     request_url <- lift (type_url cls parent) ;;
     lift (class_name_of parent) ;;;
     list_pages fuel cls parent (str request_url) columns_param (Some 1) []).

(** [cls._list_all(parent, columns)]. *)
Definition _list_all (fuel : nat) (cls : PyClass) (parent : obj)
    (columns : list string) : list string * M (list obj) :=
  if shadows cls "_list_all" then (columns, raise TypeError)
  else SimProObject__list_all fuel cls parent columns.

(** The body of [SimProObject.list_all]. *)
Definition SimProObject_list_all (fuel : nat) (cls : PyClass) (parent : obj)
    (columns : option (list string)) : option (list string) * M (list obj) :=
  let '(after, children) :=
    _list_all fuel cls parent (match columns with None => [] | Some l => l end) in
  (match columns with None => None | Some _ => Some after end, children).

(** The body of [Company.list_all], which puts ["Name"] in front first. *)
Definition Company_list_all (fuel : nat) (parent : obj)
    (columns : option (list string)) : option (list string) * M (list obj) :=
  let '(after, children) :=
    _list_all fuel Company parent
      ("Name" :: match columns with None => [] | Some l => l end) in
  (match columns with None => None | Some _ => Some after end, children).

(** [cls.list_all(parent, columns)]. *)
Definition list_all (fuel : nat) (cls : PyClass) (parent : obj)
    (columns : option (list string)) : option (list string) * M (list obj) :=
  match cls with
  | Company => Company_list_all fuel parent columns
  | _ =>
      if shadows cls "list_all" then (columns, raise TypeError)
      else SimProObject_list_all fuel cls parent columns
  end.

(** The body of [SimProObject._create]. *)
Definition SimProObject__create (cls : PyClass) (parent : obj)
    (attributes : gmap string value) : M obj :=
  request_url <- lift (type_url cls parent) ;;
  response <- requests_post (str request_url) attributes ;;
  lift (raise_for_status response) ;;;
  obj_attributes <- lift (response_json response) ;;
  lift (decode cls parent obj_attributes).

(** [cls._create(parent, attributes)]. *)
Definition _create (cls : PyClass) (parent : obj)
    (attributes : gmap string value) : M obj :=
  if shadows cls "_create" then raise TypeError
  else SimProObject__create cls parent attributes.

(** The body of [SimProObject.create]. *)
Definition SimProObject_create (cls : PyClass) (parent : obj)
    (attributes : option (gmap string value)) : M obj :=
  _create cls parent (match attributes with None => ∅ | Some a => a end).

(** [cls.create(parent, attributes)]. *)
Definition create (cls : PyClass) (parent : obj)
    (attributes : option (gmap string value)) : M obj :=
  if shadows cls "create" then raise TypeError
  else SimProObject_create cls parent attributes.

(** The body of [SimProObject._retrieve].  The first component is the list
    object the caller passed as [columns], after the call. *)
Definition SimProObject__retrieve (cls : PyClass) (record_id : value)
    (parent : obj) (columns : option (list string))
    : option (list string) * M obj :=
  if shadows cls "_columns_to_params" then (columns, raise TypeError)
  else
    let '(columns_param, after) := _columns_to_params columns in
    (match columns with None => None | Some _ => Some after end,
     request_url <- lift (res_bind (type_url cls parent) (fun type_url =>
                          py_add type_url (VStr (str record_id)))) ;;
     response <- requests_get (str request_url)
                   {[ "columns" := VStr columns_param ]} ;;
     lift (raise_for_status response) ;;;
     obj_attributes <- lift (response_json response) ;;
     lift (decode cls parent obj_attributes)).

(** [cls._retrieve(record_id, parent, columns)]. *)
Definition _retrieve (cls : PyClass) (record_id : value) (parent : obj)
    (columns : option (list string)) : option (list string) * M obj :=
  if shadows cls "_retrieve" then (columns, raise TypeError)
  else SimProObject__retrieve cls record_id parent columns.

(** The body of [SimProObject.retrieve]. *)
Definition SimProObject_retrieve (cls : PyClass) (record_id : value)
    (parent : obj) (columns : option (list string))
    : option (list string) * M obj :=
  let '(after, simpro_obj) :=
    _retrieve cls record_id parent
      (Some (match columns with None => [] | Some l => l end)) in
  (match columns with None => None | Some _ => after end, simpro_obj).

(** [cls.retrieve(record_id, parent, columns)]. *)
Definition retrieve (cls : PyClass) (record_id : value) (parent : obj)
    (columns : option (list string)) : option (list string) * M obj :=
  if shadows cls "retrieve" then (columns, raise TypeError)
  else SimProObject_retrieve cls record_id parent columns.

(** ** simple_bootstrap *)

(** The module's own [Site], [Job], [Section] and [JobCostCenter] are
    placeholders (to be replaced by creating classes from
    ClassDescriptions); the functions are embedded over the classes that
    take their place. *)
Context (Site Job Section JobCostCenter : PyClass).

Definition DEFAULT_COST_CENTER : Z := 0.

(** The inner function [set_name] of [create_site]. *)
Definition set_name (site_attributes : gmap string value) : res value :=
  match site_attributes !! "Name" with
  | None =>
      match site_attributes !! "Address" with
      | None | Some VNone => Ok (VStr EmptyString)
      | Some (VDict address) =>
          match address !! "Address" with
          | None | Some VNone => Ok (VStr EmptyString)
          | Some (VStr street_address) =>
              let name := str_replace LF EmptyString street_address in
              Ok (VStr (str_join " " (str_split name)))
          | Some _ => Raise AttributeError
          end
      | Some _ => Raise AttributeError
      end
  | Some name => Ok name
  end.

(** [try: m except HTTPError: handler]. *)
Definition except_HTTPError {A} (m : M A) (handler : M A) : M A :=
  fun w =>
    match m w with
    | (Raise (HTTPError _), w') => handler w'
    | other => other
    end.

(** The [for _ in range(n)] loop of [create_site] with its [else]. *)
Fixpoint create_site_attempts (n : nat) (customer : obj)
    (record_attributes : gmap string value) : M obj :=
  match n with
  | O => raise JobRecordCreationError
  | S n =>
      except_HTTPError
        (create Site customer (Some record_attributes))
        (create_site_attempts n customer record_attributes)
  end.

(** Lines 50-51: [{"Name": set_name()}] updated with [site_attributes]. *)
Definition site_record_attributes (site_attributes : gmap string value)
    : res (gmap string value) :=
  res_bind (set_name site_attributes) (fun name =>
  Ok (site_attributes ∪ {[ "Name" := name ]})).

Definition create_site (customer : obj) (site_attributes : gmap string value) : M obj :=
  record_attributes <- lift (site_record_attributes site_attributes) ;;
  create_site_attempts 3 customer record_attributes.

(** Lines 78-79 of [create_job]. *)
Definition job_record_attributes (customer_id : value)
    (job_attributes : gmap string value) : gmap string value :=
  job_attributes ∪ {[ "Type" := VStr "Service"; "Customer" := customer_id ]}.

(** Lines 80-83: returns the caller's [job_attributes] dict as it is
    afterwards. *)
Definition create_job_site (customer : obj)
    (job_attributes record_attributes : gmap string value) : M (gmap string value) :=
  if bool_decide (record_attributes !! "Site" = None) then
    site <- create_site customer job_attributes ;;
    site_id <- lift (record_id site) ;;
    ret (<["Site" := site_id]> job_attributes)
  else ret job_attributes.

(** Lines 89-94: make sure the job has a section and create one if not. *)
Definition ensure_section (fuel : nat) (job : obj) : M obj :=
  sections <- (list_all fuel Section job None).2 ;;
  match sections with
  | [] => create Section job None
  | section :: _ => ret section
  end.

(** Lines 96-100: check if the section has a cost center and create one
    if not. *)
Definition ensure_cost_center (fuel : nat) (section : obj) : M unit :=
  job_cost_centers <- (list_all fuel JobCostCenter section None).2 ;;
  match job_cost_centers with
  | [] =>
      let job_cost_center_details : gmap string value :=
        {[ "CostCenter" := VInt DEFAULT_COST_CENTER; "Name" := VStr "BOQ" ]} in
      create JobCostCenter section (Some job_cost_center_details) ;;;
      ret tt
  | _ => ret tt
  end.

(** Lines 89-100. *)
Definition ensure_default_children (fuel : nat) (job : obj) : M unit :=
  section <- ensure_section fuel job ;;
  ensure_cost_center fuel section.

(** Lines 84-102. *)
Definition create_job_record (fuel : nat) (company : obj)
    (record_attributes : gmap string value) : M obj :=
  job <- create Job company (Some record_attributes) ;;
  ensure_default_children fuel job ;;;
  ret job.

(** [create_job].  The result comes with the caller's [job_attributes]
    dict as the call leaves it. *)
Definition create_job (fuel : nat) (company customer : obj)
    (job_attributes : gmap string value)
    : world -> res obj * gmap string value * world :=
  fun w =>
    let prepare :=
      customer_id <- lift (record_id customer) ;;
      let record_attributes := job_record_attributes customer_id job_attributes in
      after <- create_job_site customer job_attributes record_attributes ;;
      ret (record_attributes, after) in
    match prepare w with
    | (Ok (record_attributes, after), w1) =>
        let '(r, w2) := create_job_record fuel company record_attributes w1 in
        (r, after, w2)
    | (Raise e, w1) => (Raise e, job_attributes, w1)
    | (Diverge, w1) => (Diverge, job_attributes, w1)
    end.

End Client.

(** ** Authentication *)

Section Authenticate.

Context (repr_container : value -> string).
Context {server : Type}.
Context (serve : request -> server -> option response * server).

(** [CLIENT_CREDENTIALS], with the two values read from the environment. *)
Definition CLIENT_CREDENTIALS (client_id client_secret : string)
    : gmap string value :=
  {[ "grant_type" := VStr "client_credentials";
     "client_id" := VStr client_id;
     "client_secret" := VStr client_secret ]}.

(** [v[key]] for a string key: only a dict can be indexed by a string. *)
Definition subscript (v : value) (key : string) : res value :=
  match v with
  | VDict d =>
      match d !! key with
      | Some x => Ok x
      | None => Raise (KeyError key)
      end
  | _ => Raise TypeError
  end.

(** The request of [authenticate]: [requests.post(token_url,
    json=credentials)], without [headers]. *)
Definition token_request (base_url : string) (credentials : gmap string value)
    : request :=
  {| method := POST; url := base_url +:+ "/oauth2/token"; params := ∅;
     json := Some credentials; headers := [] |}.

(** [authenticate]. *)
Definition authenticate (base_url : string) (credentials : gmap string value)
    : M (list (string * string)) :=
  bind (send serve (token_request base_url credentials)) (fun response =>
  bind (lift (raise_for_status response)) (fun _ =>
  bind (lift (res_bind (response_json response)
                (fun document => subscript document "access_token")))
    (fun access_token =>
  ret [("Authorization", "Bearer " +:+ str repr_container access_token);
       ("Content-Type", "application/json")]))).

End Authenticate.

(** ** The class factory *)

Module ClassDescription.

Record t := {
  name : string;
  bases : option (list string);
  type_url_suffix : string;
  docstring : option string;
  attributes : option (list string);
  definitions : option (gmap string value)
}.

Section Factory.

(** The exception, if any, with which Python's
    [type(name, (SimProObject, *bases), definitions)] refuses to make the
    class.  It looks at all three arguments: a name with a NUL character
    is a [ValueError]; bases that are repeated or have no consistent
    method resolution order, and a [__qualname__], [__slots__] or
    [__classcell__] entry of the wrong kind, are [TypeError]s. *)
Context (type_error : string -> list string -> gmap string value -> option exn).

Definition py_type (name : string) (bases : list string)
    (definitions : gmap string value) : res PyClass :=
  match type_error name bases definitions with
  | None => Ok (Generated name bases definitions)
  | Some e => Raise e
  end.

(** The bases after [SimProObject]: [if cls.bases: bases.extend(cls.bases)]. *)
Definition extra_bases (cls : t) : list string :=
  match bases cls with Some (b :: l) => b :: l | _ => [] end.

(** The body of the loop of [build_classes] for one description. *)
Definition build_class (cls : t) : res PyClass :=
  let bases := extra_bases cls in
  let definitions : gmap string value :=
    {[ "type_url_suffix" := VStr (type_url_suffix cls) ]} in
  let definitions :=
    match docstring cls with
    | Some (String c d) => <["__doc__" := VStr (String c d)]> definitions
    | _ => definitions
    end in
  let definitions :=
    match attributes cls with
    | Some (a :: l) => <["attributes" := VList (VStr <$> a :: l)]> definitions
    | _ => definitions
    end in
  let definitions :=
    match ClassDescription.definitions cls with
    | Some d => d ∪ definitions
    | None => definitions
    end in
  py_type (name cls) bases definitions.

Fixpoint build_classes_from (class_descriptions : list t)
    (classes : list PyClass) : res (list PyClass) :=
  match class_descriptions with
  | [] => Ok classes
  | cls :: class_descriptions =>
      res_bind (build_class cls) (fun new_class =>
      build_classes_from class_descriptions (classes ++ [new_class]))
  end.

Definition build_classes (class_descriptions : list t) : res (list PyClass) :=
  build_classes_from class_descriptions [].

End Factory.

Definition describe (name : string) (type_url_suffix docstring : string) : t :=
  {| name := name; bases := None; type_url_suffix := type_url_suffix;
     docstring := Some docstring; attributes := None; definitions := None |}.

Definition describe_with (name : string) (type_url_suffix docstring : string)
    (attributes : list string) : t :=
  {| name := name; bases := None; type_url_suffix := type_url_suffix;
     docstring := Some docstring; attributes := Some attributes;
     definitions := None |}.

End ClassDescription.

(** The descriptions of [simpro.py] that are not commented out.  In the
    attribute list of [Job] the source has no comma between
    ["AdditionalContacts"] and ["Site"], which makes them one string. *)
Definition CLASS_DESCRIPTIONS : list ClassDescription.t :=
  let d := ClassDescription.describe in
  [ d "Company" "/companies/" "A Parentless SimPRO Type representing a company.";
    d "Contact" "/contacts/" "Child of Company.";
    d "Contractor" "/contractors/" "Child of Company.";
    d "CompanyCustomer" "/customers/companies/" "Child of Company.";
    d "Employee" "/employees/" "Child of Company.";
    ClassDescription.describe_with "Site" "/sites/" "Child of Company."
      ["Address"; "City"; "State"; "PostalCode"; "Country"];
    d "Staff" "/staff/" "Child of Company.";
    d "Vendor" "/vendors/" "Child of Company.";
    ClassDescription.describe_with "Job" "/jobs/" "Child of Company."
      ["Type"; "Customer"; "CustomerContact"; "AdditionalContactsSite";
       "SiteContact"; "OrderNo"; "RequestNo"; "Name"; "Description"; "Notes";
       "DateIssued"; "DueDate"; "DueTime"; "Tags"; "Salesperson";
       "ProjectManager"; "Technician"; "Stage"; "Status"; "ResponseTime";
       "IsVariation"; "LinkedVariations"; "ConvertedFromQuote";
       "DateModified"; "Total"; "Totals"];
    d "JobSection" "/sections/" "Child of Job.";
    d "JobCostCenter" "/costCenters/" "Child of Section.";
    d "Quote" "/quotes/" "Child of Company.";
    d "QuoteSection" "/sections/" "Child of Quote.";
    d "JobTimeline" "/timelines/" "Child of Job.";
    d "Catalog" "/catalogs/" "Child of Company.";
    d "Prebuild" "/prebuilds/" "Child of CostCenter.";
    d "SetPricePrebuild" "/prebuilds/setPrice/" "Child of Company.";
    d "CustomerInvoice" "/customerInvoices/" "Child of Company.";
    d "CostCenter" "/setup/accounts/costCenters/" "Child of Company.";
    d "UnitsOfMeasurement" "/setup/materials/uoms/" "Child of Company.";
    d "ProjectTag" "/setup/tags/projects/" "Child of Company.";
    d "Company" "/companies/" "Child of Parentless." ].

(** ** Servers to run the client against *)

(** A server that replays a fixed script of replies, one per request, and
    stops answering when the script is over. *)
Definition scripted_serve (r : request) (script : list (option response))
    : option response * list (option response) :=
  match script with
  | [] => (None, [])
  | reply :: script => (reply, script)
  end.

Definition http_reply (status : Z) (body : option value) : option response :=
  Some {| status_code := status; body := body; links := ∅ |}.

(** An in-memory SimPRO: the records of every collection by URL, in
    ascending id order, and the id the next created record gets. *)
Record simulated := {
  collections : gmap string (list (gmap string value));
  next_id : Z
}.

Definition records_at (s : simulated) (url : string) : list (gmap string value) :=
  default [] (collections s !! url).

(** The server after one more record was stored in a collection. *)
Definition stored (s : simulated) (url : string) (record : gmap string value)
    : simulated :=
  {| collections := <[url := records_at s url ++ [record]]> (collections s);
     next_id := next_id s + 1 |}.

(** A list request returns the requested page and a [next] link when
    records remain after it; a create request stores the attributes under
    a fresh id and returns the stored record. *)
Definition simulated_serve (r : request) (s : simulated)
    : option response * simulated :=
  match method r with
  | GET =>
      match params r !! "page", params r !! "pageSize" with
      | Some (VInt page), Some (VInt size) =>
          if (1 <=? page) && (1 <=? size) then
            let records := records_at s (url r) in
            let shown := take (Z.to_nat size)
                           (drop (Z.to_nat ((page - 1) * size)) records) in
            (Some {| status_code := 200;
                     body := Some (VList (VDict <$> shown));
                     links := if page * size <? Z.of_nat (length records)
                              then {[ "next" ]} else ∅ |}, s)
          else (http_reply 400 None, s)
      | _, _ => (http_reply 400 None, s)
      end
  | POST =>
      match json r with
      | Some attributes =>
          let record := <["ID" := VInt (next_id s)]> attributes in
          (http_reply 201 (Some (VDict record)), stored s (url r) record)
      | None => (http_reply 400 None, s)
      end
  end.

(** ** Sample inputs *)

(** The street address of the example: Line1, a line feed, then Extra,
    three spaces and spaces. *)
Definition example_street_address : string :=
  "Line1" +:+ String LF "Extra   spaces".

Definition example_site_attributes : gmap string value :=
  {[ "Address" := VDict {[ "Address" := VStr example_street_address ]} ]}.

(** Two descriptions with one name and different address segments. *)
Definition description_A : ClassDescription.t :=
  ClassDescription.describe "A" "/a/" "First declaration.".

Definition description_A' : ClassDescription.t :=
  ClassDescription.describe "A" "/a-prime/" "Second declaration.".


(** Python's [type] on arguments it finds no fault with. *)
Definition accept_all (name : string) (bases : list string)
    (definitions : gmap string value) : option exn := None.

(** The classes of a list that carry a given name. *)
Definition classes_named (name : string) (classes : list PyClass) : list PyClass :=
  filter (fun c => class_name c = name) classes.

(** Generated classes and instances for the examples. *)
Definition generated (name suffix : string) : PyClass :=
  Generated name [] {[ "type_url_suffix" := VStr suffix ]}.

Definition example_company : obj := Obj Company (VInt 0) Parentless ∅.

Definition example_customer : obj :=
  Obj (generated "CompanyCustomer" "/customers/companies/") (VInt 7)
      example_company ∅.

Definition example_repr (v : value) : string := "<container>".

Definition example_set_order (s : gset string) : list string := elements s.

Definition example_domain : string := "acme".
Definition example_token : string := "token".
Definition example_Site : PyClass := generated "Site" "/sites/".
Definition example_Job : PyClass := generated "Job" "/jobs/".
Definition example_Section : PyClass := generated "Section" "/sections/".
Definition example_JobCostCenter : PyClass :=
  generated "JobCostCenter" "/costCenters/".

(** A record as the server sends it. *)
Definition example_depot_record : gmap string value :=
  {[ "ID" := VInt 5; "Name" := VStr "Depot" ]}.

(** A world whose server replays [script]. *)
Definition scripted_world (script : list (option response))
    : @world (list (option response)) :=
  {| srv := script; log := [] |}.

(** A reply to a create request: status 201 and the stored record. *)
Definition created_reply (id : Z) : option response :=
  http_reply 201 (Some (VDict {[ "ID" := VInt id ]})).

(** A simulated server holding 251 jobs of the example company, and one
    holding none. *)
Definition example_jobs_url : string :=
  "https://acme.simprosuite.com/api/v1.0/companies/0/jobs/".

Definition example_jobs : list (gmap string value) :=
  (fun i : nat => {[ "ID" := VInt (Z.of_nat i) ]}) <$> seq 1 251.

Definition example_store : simulated :=
  {| collections := {[ example_jobs_url := example_jobs ]}; next_id := 252 |}.

Definition empty_store : simulated := {| collections := ∅; next_id := 1 |}.

(** The site that the empty simulated server creates for the example
    customer, and the world it leaves behind. *)
Definition example_sites_url : string :=
  "https://acme.simprosuite.com/api/v1.0/companies/0/customers/companies/7/sites/".

Definition example_site_record : gmap string value :=
  example_site_attributes ∪ {[ "Name" := VStr "Line1Extra spaces" ]}.

Definition example_site : obj :=
  Obj example_Site (VInt 1) example_customer example_site_record.

Definition example_world_with_site : @world simulated :=
  {| srv := {| collections :=
                 {[ example_sites_url := [<["ID" := VInt 1]> example_site_record] ]};
               next_id := 2 |};
     log := [post_request example_token example_sites_url example_site_record] |}.

(** A job of the example company and the addresses below it. *)
Definition example_job : obj := Obj example_Job (VInt 3) example_company ∅.

Definition example_sections_url : string :=
  "https://acme.simprosuite.com/api/v1.0/companies/0/jobs/3/sections/".

Definition example_cost_centers_url : string :=
  "https://acme.simprosuite.com/api/v1.0/companies/0/jobs/3/sections/1/costCenters/".

(** A server that answers every request with an empty page and a [next]
    link. *)
Definition endless_serve (r : request) (s : unit) : option response * unit :=
  (Some {| status_code := 200; body := Some (VList []); links := {[ "next" ]} |},
   s).

(** A first page holding one job and announcing a next page. *)
Definition first_page_reply : response :=
  {| status_code := 200; body := Some (VList [VDict {[ "ID" := VInt 1 ]}]);
     links := {[ "next" ]} |}.

(** Three of the checks of Python's [type]: no NUL character in the name,
    [SimProObject] not a second time among the bases, and a [__qualname__]
    that is a string.  Then a description that repeats the base, and one
    whose definitions hold a number under [__qualname__]. *)
Definition example_type_error (name : string) (bases : list string)
    (definitions : gmap string value) : option exn :=
  if bool_decide ("000"%char ∈ list_ascii_of_string name) then Some ValueError
  else if bool_decide ("SimProObject" ∈ bases) then Some TypeError
  else
    match definitions !! "__qualname__" with
    | Some (VStr _) | None => None
    | Some _ => Some TypeError
    end.

Definition description_with_mixin : ClassDescription.t :=
  {| ClassDescription.name := "Audited";
     ClassDescription.bases := Some ["SimProObject"];
     ClassDescription.type_url_suffix := "/audited/";
     ClassDescription.docstring := None;
     ClassDescription.attributes := None;
     ClassDescription.definitions := None |}.

Definition description_with_qualname : ClassDescription.t :=
  {| ClassDescription.name := "Numbered";
     ClassDescription.bases := None;
     ClassDescription.type_url_suffix := "/numbered/";
     ClassDescription.docstring := None;
     ClassDescription.attributes := None;
     ClassDescription.definitions := Some {[ "__qualname__" := VInt 5 ]} |}.

(** Classes whose definitions hide a member of [SimProObject]. *)
Definition example_without_create : PyClass :=
  Generated "Site" [] {[ "type_url_suffix" := VStr "/sites/"; "create" := VNone ]}.

Definition example_with_obj_url : PyClass :=
  Generated "Pinned" [] {[ "type_url_suffix" := VStr "/pinned/";
                           "obj_url" := VStr "https://elsewhere/" ]}.

(** ** Vocabulary of the statements *)

(** The instance that [_list_all] and [_create] build from a stored record:
    the id popped, the other attributes kept. *)
Definition instance_of (cls : PyClass) (parent : obj)
    (record : gmap string value) : obj :=
  built cls (default VNone (record !! "ID")) parent (delete "ID" record).

(** The number of pages of 250 that [n] records fill, and one page when
    there are none. *)
Definition page_count (n : nat) : nat := Nat.max 1 ((n + 249) / 250).

(** The [count] list requests for the pages [first], [first + 1], ... *)
Definition page_requests (access_token url columns_param : string)
    (first : Z) (count : nat) : list request :=
  (fun i : nat => get_request access_token url
                    (list_params columns_param (first + Z.of_nat i)))
  <$> seq 0 count.

(** The list that [list_all] hands to [_list_all]. *)
Definition listed_columns (cls : PyClass) (columns : option (list string))
    : list string :=
  match cls with
  | Company => "Name" :: match columns with None => [] | Some l => l end
  | _ => match columns with None => [] | Some l => l end
  end.

(** A stored record that carries its id. *)
Definition has_ID (record : gmap string value) : Prop := is_Some (record !! "ID").

(** A computation that only adds requests at the end of the log. *)
Definition appends_to_log {server A : Type} (m : @M server A) : Prop :=
  forall w, exists added, log (m w).2 = log w ++ added.

(** Every record the simulated server stores carries its id. *)
Definition well_formed (s : simulated) : Prop :=
  forall url, Forall has_ID (records_at s url).

(** With [k] more records in any collection, a listing still ends within
    [fuel] pages. *)
Definition has_room (s : simulated) (fuel k : nat) : Prop :=
  forall url, (length (records_at s url) + k <= 250 * fuel)%nat.

(** A request that creates nothing. *)
Definition read_only (r : request) : Prop := method r = GET.

(** The classes on the parent chain of an instance, from the one next to
    the root down to its own. *)
Fixpoint class_chain (o : obj) : list PyClass :=
  match o with
  | Parentless => []
  | Obj cls _ parent _ => class_chain parent ++ [cls]
  end.

(** A key that may be in the dict of a class without the class losing
    anything it gets from [SimProObject] or from [object]: [__doc__], and
    every name that neither starts with an underscore nor is [obj_url],
    [list_all], [create] or [retrieve].  The keys that [build_classes]
    writes itself are of this kind. *)
Definition harmless (key : string) : bool :=
  String.eqb key "__doc__"
  || negb (String.prefix "_" key)
     && negb (bool_decide (key ∈ ["obj_url"; "list_all"; "create"; "retrieve"])).

(** A class that has all its behaviour from [SimProObject]: [Company], or
    a generated class without extra bases and with harmless keys only. *)
Definition plain (c : PyClass) : bool :=
  match c with
  | Company => true
  | Generated _ bases definitions =>
      bool_decide (bases = []) && forallb harmless (map_to_list definitions).*1
  end.

(** An instance of a plain class, or the root sentinel. *)
Definition plain_instance (o : obj) : bool :=
  match o with
  | Parentless => true
  | Obj cls _ _ _ => plain cls
  end.

(** A class whose [type_url_suffix] is a string. *)
Definition has_suffix (cls : PyClass) : Prop :=
  exists suffix, type_url_suffix cls = Ok suffix.

(** A run of characters none of which is whitespace, at least one long. *)
Definition is_word (w : string) : Prop :=
  w <> EmptyString
  /\ Forall (fun c => is_space c = false) (list_ascii_of_string w).

(** * Properties *)

(** ** Strings *)

Lemma string_app_assoc (a b c : string) : (a +:+ b) +:+ c = a +:+ b +:+ c.
Proof.
  induction a as [|x a IH]; [reflexivity |].
  change (String x ((a +:+ b) +:+ c) = String x (a +:+ b +:+ c)).
  now rewrite IH.
Qed.

Lemma string_app_empty_r (a : string) : a +:+ EmptyString = a.
Proof.
  induction a as [|x a IH]; [reflexivity |].
  change (String x (a +:+ EmptyString) = String x a).
  now rewrite IH.
Qed.

(** ** Plain classes *)

Lemma plain_shadows (cls : PyClass) (member : string) :
  plain cls = true -> harmless member = false -> shadows cls member = false.
Proof.
  intros Hp Hm. unfold shadows.
  destruct (data_entry cls member) as [v|] eqn:Hv; [| reflexivity].
  exfalso. destruct cls as [|name bases definitions]; simpl in Hv, Hp.
  - destruct (String.eqb member "type_url_suffix") eqn:He; [| discriminate].
    apply String.eqb_eq in He. subst member. discriminate Hm.
  - apply andb_true_iff in Hp as [_ Hp].
    rewrite forallb_forall in Hp.
    assert (harmless member = true) as Hh.
    { apply Hp. apply list_elem_of_In, list_elem_of_fmap.
      exists (member, v). split; [reflexivity |].
      now apply elem_of_map_to_list. }
    congruence.
Qed.

(** Resolves the lookups of a plain class, given [H : plain cls = true]. *)
Ltac unshadow H := rewrite ?(plain_shadows _ _ H) by reflexivity.

Lemma new_plain cls i parent attributes :
  plain cls = true ->
  new cls i parent attributes = Ok (built cls i parent attributes).
Proof.
  intros Hp. unfold new.
  now rewrite !(plain_shadows cls _ Hp) by reflexivity.
Qed.

Lemma class_name_of_plain (o : obj) :
  plain_instance o = true -> exists name, class_name_of o = Ok name.
Proof.
  destruct o as [|cls i parent a]; simpl; [now eexists |].
  intros Hp. rewrite !(plain_shadows cls _ Hp) by reflexivity. now eexists.
Qed.

(** The classes that [build_classes] makes of descriptions without
    extra bases and without definitions of their own are plain: the keys
    it writes itself are [type_url_suffix], [__doc__] and [attributes]. *)
Lemma build_class_plain
    (type_error : string -> list string -> gmap string value -> option exn)
    (d : ClassDescription.t) (c : PyClass) :
  ClassDescription.extra_bases d = [] ->
  ClassDescription.definitions d = None ->
  ClassDescription.build_class type_error d = Ok c ->
  plain c = true.
Proof.
  unfold ClassDescription.build_class, ClassDescription.py_type.
  intros -> ->. destruct (type_error _ _ _); [discriminate |].
  intros [= <-].
  destruct (ClassDescription.attributes d) as [[|a l]|],
           (ClassDescription.docstring d) as [[|x y]|]; reflexivity.
Qed.

Example class_descriptions_are_plain :
  exists classes,
    ClassDescription.build_classes accept_all CLASS_DESCRIPTIONS = Ok classes
    /\ forallb plain classes = true.
Proof. eexists. split; vm_compute; reflexivity. Qed.

Lemma add_type_url_suffix_str (address : string) (cls : PyClass) :
  add_type_url_suffix (VStr address) cls
  = res_bind (type_url_suffix cls) (fun suffix => Ok (VStr (address +:+ suffix))).
Proof.
  unfold add_type_url_suffix. destruct cls as [|name bases definitions]; simpl.
  - reflexivity.
  - destruct (definitions !! "type_url_suffix") as [[]|]; reflexivity.
Qed.

(** ** Addresses *)

Section Addresses.

Context (COMPANY_DOMAIN : string) (repr_container : value -> string).

Local Abbreviation obj_url := (obj_url COMPANY_DOMAIN repr_container).
Local Abbreviation type_url := (type_url COMPANY_DOMAIN repr_container).
Local Abbreviation BASE_API_URL := (BASE_API_URL COMPANY_DOMAIN).


Lemma obj_url_step cls i parent attributes parent_url suffix :
  plain cls = true ->
  obj_url parent = Ok (VStr parent_url) ->
  type_url_suffix cls = Ok suffix ->
  obj_url (Obj cls i parent attributes)
  = Ok (VStr (parent_url +:+ suffix +:+ str repr_container i)).
Proof.
  intros Hc Hp Hs. simpl.
  rewrite (plain_shadows cls "__getattribute__" Hc) by reflexivity.
  pose proof (plain_shadows cls "obj_url" Hc eq_refl) as Ho.
  unfold shadows in Ho. destruct (data_entry cls "obj_url"); [discriminate |].
  rewrite Hp. simpl. rewrite add_type_url_suffix_str, Hs. simpl.
  now rewrite string_app_assoc.
Qed.

(** C2.  The root sentinel resolves to the base API address; an instance
    of a class that takes [obj_url] from [SimProObject] resolves to its
    parent's address followed by its class's segment and the decimal
    string of its id; hence a grandchild at depth 3 resolves to the base
    address followed by the segment and id of each ancestor from the root
    down, ending with its own. *)
Theorem obj_url_composition :
  obj_url Parentless = Ok (VStr BASE_API_URL)
  /\ (forall cls id parent attributes parent_url suffix,
        plain cls = true ->
        obj_url parent = Ok (VStr parent_url) ->
        type_url_suffix cls = Ok suffix ->
        obj_url (Obj cls (VInt id) parent attributes)
        = Ok (VStr (parent_url +:+ suffix +:+ str_int id)))
  /\ (forall c1 c2 c3 i1 i2 i3 a1 a2 a3 s1 s2 s3,
        plain c1 = true -> plain c2 = true -> plain c3 = true ->
        type_url_suffix c1 = Ok s1 ->
        type_url_suffix c2 = Ok s2 ->
        type_url_suffix c3 = Ok s3 ->
        obj_url (Obj c3 (VInt i3)
                   (Obj c2 (VInt i2) (Obj c1 (VInt i1) Parentless a1) a2) a3)
        = Ok (VStr (BASE_API_URL +:+ s1 +:+ str_int i1 +:+ s2 +:+ str_int i2
                    +:+ s3 +:+ str_int i3))).
Proof.
  split; [reflexivity | split].
  - intros cls id parent attributes parent_url suffix Hc Hp Hs.
    apply (obj_url_step cls (VInt id)); assumption.
  - intros c1 c2 c3 i1 i2 i3 a1 a2 a3 s1 s2 s3 P1 P2 P3 H1 H2 H3.
    rewrite (obj_url_step c3 (VInt i3) _ a3
               (BASE_API_URL +:+ s1 +:+ str_int i1 +:+ s2 +:+ str_int i2) s3);
      [| exact P3 | | exact H3].
    + simpl str. now rewrite !string_app_assoc.
    + rewrite (obj_url_step c2 (VInt i2) _ a2
                 (BASE_API_URL +:+ s1 +:+ str_int i1) s2);
        [| exact P2 | | exact H2].
      * simpl str. now rewrite !string_app_assoc.
      * now apply (obj_url_step c1 (VInt i1)).
Qed.

End Addresses.

Lemma obj_url_composition_witness :
  obj_url example_domain example_repr
    (Obj example_Site (VInt 12) example_customer ∅)
  = Ok (VStr "https://acme.simprosuite.com/api/v1.0/companies/0/customers/companies/7/sites/12").
Proof.
  exact (proj2 (proj2 (obj_url_composition example_domain example_repr))
           Company (generated "CompanyCustomer" "/customers/companies/")
           example_Site 0 7 12 ∅ ∅ ∅
           "/companies/" "/customers/companies/" "/sites/"
           eq_refl eq_refl eq_refl eq_refl eq_refl eq_refl).
Defined.

(** A class built with data under [obj_url] gives every instance that
    data as its address, whatever the parent and the id; a child below
    such an instance continues from it. *)
Example obj_url_of_shadowing_class :
  obj_url example_domain example_repr
    (Obj example_with_obj_url (VInt 1) example_company ∅)
  = Ok (VStr "https://elsewhere/")
  /\ obj_url example_domain example_repr
       (Obj example_with_obj_url (VInt 2) Parentless ∅)
     = Ok (VStr "https://elsewhere/")
  /\ obj_url example_domain example_repr
       (Obj example_Site (VInt 12)
          (Obj example_with_obj_url (VInt 1) example_company ∅) ∅)
     = Ok (VStr "https://elsewhere//sites/12").
Proof. repeat split; reflexivity. Qed.

(** ** Columns *)

Section Columns.

Context (COMPANY_DOMAIN access_token : string).
Context (repr_container : value -> string).
Context (set_order : gset string -> list string).
Context {server : Type}.
Context (serve : request -> server -> option response * server).

Local Abbreviation _list_all :=
  (_list_all COMPANY_DOMAIN access_token repr_container set_order serve).
Local Abbreviation list_all :=
  (list_all COMPANY_DOMAIN access_token repr_container set_order serve).
Local Abbreviation _retrieve :=
  (_retrieve COMPANY_DOMAIN access_token repr_container set_order serve).
Local Abbreviation retrieve :=
  (retrieve COMPANY_DOMAIN access_token repr_container set_order serve).

Lemma _list_all_plain fuel cls parent columns :
  plain cls = true ->
  _list_all fuel cls parent columns
  = (columns ++ ["ID"],
     bind (lift (type_url COMPANY_DOMAIN repr_container cls parent))
       (fun request_url =>
     bind (lift (class_name_of parent)) (fun _ =>
     list_pages access_token serve fuel cls parent
       (str repr_container request_url)
       (_columns_to_params set_order (Some columns)).1 (Some 1) []))).
Proof.
  intros Hp. unfold _list_all, SimProObject__list_all.
  now rewrite !(plain_shadows cls _ Hp) by reflexivity.
Qed.

Lemma list_all_plain fuel cls parent columns :
  plain cls = true ->
  list_all fuel cls parent columns
  = (match columns with
     | None => None
     | Some _ => Some (listed_columns cls columns ++ ["ID"])
     end,
     (_list_all fuel cls parent (listed_columns cls columns)).2).
Proof.
  intros Hp. destruct cls as [|name bases definitions].
  - unfold list_all, Company_list_all.
    rewrite (_list_all_plain fuel Company parent _ Hp). reflexivity.
  - unfold list_all. rewrite (plain_shadows _ "list_all" Hp) by reflexivity.
    unfold SimProObject_list_all, listed_columns.
    rewrite (_list_all_plain fuel _ parent _ Hp). now destruct columns.
Qed.

Lemma _retrieve_plain cls record_id parent columns :
  plain cls = true ->
  _retrieve cls record_id parent columns
  = SimProObject__retrieve COMPANY_DOMAIN access_token repr_container set_order
      serve cls record_id parent columns
  /\ (_retrieve cls record_id parent columns).1
     = match columns with
       | None => None
       | Some l => Some (l ++ ["ID"])
       end.
Proof.
  intros Hp. unfold _retrieve, SimProObject__retrieve.
  rewrite !(plain_shadows cls _ Hp) by reflexivity. now destruct columns.
Qed.

Lemma retrieve_plain cls record_id parent columns :
  plain cls = true ->
  retrieve cls record_id parent columns
  = (match columns with None => None | Some l => Some (l ++ ["ID"]) end,
     (SimProObject__retrieve COMPANY_DOMAIN access_token repr_container
        set_order serve cls record_id parent
        (Some (match columns with None => [] | Some l => l end))).2).
Proof.
  intros Hp. unfold retrieve.
  rewrite (plain_shadows cls "retrieve" Hp) by reflexivity.
  unfold SimProObject_retrieve.
  destruct (_retrieve_plain cls record_id parent
              (Some (match columns with None => [] | Some l => l end)) Hp)
    as [-> _].
  unfold SimProObject__retrieve.
  rewrite (plain_shadows cls "_columns_to_params" Hp) by reflexivity.
  now destruct columns.
Qed.

(** C10.  A list passed as [columns] is changed in place: [_columns_to_params]
    appends ["ID"] to it, and so do [_list_all], [list_all], [_retrieve]
    and [retrieve] of every class that takes these methods from
    [SimProObject]; [Company.list_all] first inserts ["Name"] at the
    front.  The caller's list is longer afterwards, whatever the requests
    then do. *)
Theorem columns_mutated_in_place (columns : list string) :
  (_columns_to_params set_order (Some columns)).2 = columns ++ ["ID"]
  /\ (forall fuel cls parent,
        plain cls = true ->
        (_list_all fuel cls parent columns).1 = columns ++ ["ID"])
  /\ (forall fuel name bases definitions parent,
        plain (Generated name bases definitions) = true ->
        (list_all fuel (Generated name bases definitions) parent (Some columns)).1
        = Some (columns ++ ["ID"]))
  /\ (forall fuel parent,
        (list_all fuel Company parent (Some columns)).1
        = Some ("Name" :: columns ++ ["ID"]))
  /\ (forall cls record_id parent,
        plain cls = true ->
        (_retrieve cls record_id parent (Some columns)).1
        = Some (columns ++ ["ID"]))
  /\ (forall cls record_id parent,
        plain cls = true ->
        (retrieve cls record_id parent (Some columns)).1
        = Some (columns ++ ["ID"]))
  /\ (length columns < length (columns ++ ["ID"])
      /\ length columns < length ("Name" :: columns ++ ["ID"]))%nat.
Proof.
  split; [reflexivity |].
  split; [intros fuel cls parent Hp; now rewrite _list_all_plain |].
  split; [intros fuel name bases definitions parent Hp;
          now rewrite list_all_plain |].
  split; [reflexivity |].
  split; [intros cls record_id parent Hp;
          now destruct (_retrieve_plain cls record_id parent (Some columns) Hp)
            as [_ ->] |].
  split; [intros cls record_id parent Hp; now rewrite retrieve_plain |].
  split.
  - rewrite length_app. simpl. lia.
  - simpl. rewrite length_app. simpl. lia.
Qed.

End Columns.

Lemma columns_mutated_in_place_witness :
  (list_all example_domain example_token example_repr example_set_order
     simulated_serve 1 example_Job example_company (Some ["Name"])).1
  = Some (["Name"] ++ ["ID"]).
Proof.
  apply (proj1 (proj2 (proj2 (columns_mutated_in_place example_domain
                                example_token example_repr example_set_order
                                simulated_serve ["Name"])))).
  reflexivity.
Defined.

(** A class built with data under [_columns_to_params] or [list_all]
    raises [TypeError] when it is asked to list, before the caller's
    list is touched and before anything is sent. *)
Example columns_untouched_by_shadowing_class :
  let cls := Generated "Job" [] {[ "type_url_suffix" := VStr "/jobs/";
                                   "_columns_to_params" := VNone ]} in
  let w := {| srv := example_store; log := [] |} in
  (list_all example_domain example_token example_repr example_set_order
     simulated_serve 1 cls example_company (Some ["Name"])).1 = Some ["Name"]
  /\ (list_all example_domain example_token example_repr example_set_order
        simulated_serve 1 cls example_company (Some ["Name"])).2 w
     = (Raise TypeError, w).
Proof. split; reflexivity. Qed.

(** ** Site names *)

Lemma set_name_explicit (site_attributes : gmap string value) (name : value) :
  site_attributes !! "Name" = Some name ->
  set_name site_attributes = Ok name.
Proof. intros H. unfold set_name. now rewrite H. Qed.

Lemma set_name_street (site_attributes address : gmap string value) (street : string) :
  site_attributes !! "Name" = None ->
  site_attributes !! "Address" = Some (VDict address) ->
  address !! "Address" = Some (VStr street) ->
  set_name site_attributes
  = Ok (VStr (str_join " " (str_split (str_replace LF EmptyString street)))).
Proof. intros H1 H2 H3. unfold set_name. now rewrite H1, H2, H3. Qed.

(** C4, as amended.  Without a ["Name"], a nested street address reading
    Line1, line feed, Extra, three spaces, spaces gives the name
    "Line1Extra spaces": the line feed is deleted, not turned into a space,
    and the remaining runs of whitespace become single spaces.  With a
    ["Name"], the record sent to the server carries the caller's name. *)
Theorem site_name_derivation :
  (forall site_attributes address : gmap string value,
      site_attributes !! "Name" = None ->
      site_attributes !! "Address" = Some (VDict address) ->
      address !! "Address" = Some (VStr example_street_address) ->
      set_name site_attributes = Ok (VStr "Line1Extra spaces")
      /\ exists record_attributes : gmap string value,
           site_record_attributes site_attributes = Ok record_attributes
           /\ record_attributes !! "Name" = Some (VStr "Line1Extra spaces"))
  /\ (forall (site_attributes : gmap string value) (name : value),
        site_attributes !! "Name" = Some name ->
        exists record_attributes : gmap string value,
          site_record_attributes site_attributes = Ok record_attributes
          /\ record_attributes !! "Name" = Some name
          /\ record_attributes = site_attributes).
Proof.
  split.
  - intros site_attributes address H1 H2 H3.
    pose proof (set_name_street _ _ _ H1 H2 H3) as Hn.
    change (str_join " " (str_split (str_replace LF EmptyString example_street_address)))
      with "Line1Extra spaces"%string in Hn.
    split; [exact Hn |].
    unfold site_record_attributes. rewrite Hn. simpl.
    eexists; split; [reflexivity |].
    apply lookup_union_Some_raw. right. split; [exact H1 |].
    apply lookup_singleton_eq.
  - intros site_attributes name H.
    unfold site_record_attributes. rewrite (set_name_explicit _ _ H). simpl.
    eexists; split; [reflexivity |]. split.
    + apply lookup_union_Some_raw. now left.
    + apply map_eq. intros k. destruct (decide (k = "Name")) as [->|Hk].
      * rewrite H. apply lookup_union_Some_raw. now left.
      * rewrite lookup_union_l; [reflexivity |].
        now apply lookup_singleton_ne.
Qed.

Lemma site_name_derivation_witness :
  set_name example_site_attributes = Ok (VStr "Line1Extra spaces")
  /\ exists record_attributes : gmap string value,
       site_record_attributes example_site_attributes = Ok record_attributes
       /\ record_attributes !! "Name" = Some (VStr "Line1Extra spaces").
Proof.
  apply (proj1 site_name_derivation example_site_attributes
           {[ "Address" := VStr example_street_address ]});
    reflexivity.
Defined.

(** The name with a space where the line feed was is not the one the
    code derives. *)
Lemma site_name_keeps_no_space :
  example_site_attributes !! "Name" = None
  /\ set_name example_site_attributes <> Ok (VStr "Line1 Extra spaces").
Proof.
  split; [reflexivity |].
  change (set_name example_site_attributes) with (Ok (VStr "Line1Extra spaces")).
  intros H. inversion H.
Qed.

(** ** The class factory *)

Section FactoryFacts.

Context (type_error : string -> list string -> gmap string value -> option exn).

Local Abbreviation build_class := (ClassDescription.build_class type_error).
Local Abbreviation build_classes_from := (ClassDescription.build_classes_from type_error).
Local Abbreviation build_classes := (ClassDescription.build_classes type_error).

Lemma build_class_inv (d : ClassDescription.t) (c : PyClass) :
  build_class d = Ok c ->
  class_name c = ClassDescription.name d
  /\ exists bases definitions,
       c = Generated (ClassDescription.name d) bases definitions
       /\ (ClassDescription.definitions d = None ->
           definitions !! "type_url_suffix" = Some (VStr (ClassDescription.type_url_suffix d))).
Proof.
  unfold ClassDescription.build_class, ClassDescription.py_type.
  destruct (type_error _ _ _); [discriminate |].
  intros [= <-]. split; [reflexivity |].
  eexists _, _. split; [reflexivity |].
  intros ->.
  destruct (ClassDescription.attributes d) as [[|a l]|], (ClassDescription.docstring d) as [[|x y]|];
    repeat (rewrite lookup_insert_ne by discriminate);
    apply lookup_singleton_eq.
Qed.

Lemma build_classes_from_inv (ds : list ClassDescription.t) (acc classes : list PyClass) :
  build_classes_from ds acc = Ok classes ->
  exists built, classes = acc ++ built
                /\ Forall2 (fun d c => build_class d = Ok c) ds built.
Proof.
  revert acc. induction ds as [|d ds IH]; intros acc; simpl.
  - intros [= <-]. exists []. split; [now rewrite app_nil_r | constructor].
  - destruct (build_class d) as [c| |] eqn:Hd; simpl; try discriminate.
    intros H. destruct (IH _ H) as (built & -> & HF).
    exists (c :: built). split; [now rewrite <- app_assoc | now constructor].
Qed.

(** C5, as amended.  [build_classes] returns a list with one class per
    description, in the order of the descriptions, each carrying its own
    description's name and, when the description overrides nothing, its own
    address segment.  Nothing is keyed by name: two descriptions A and A'
    with one name give two classes with that name, the first with the
    segment of A and the second with that of A'. *)
Theorem build_classes_one_per_description (ds : list ClassDescription.t) (classes : list PyClass) :
  build_classes ds = Ok classes ->
  length classes = length ds
  /\ class_name <$> classes = ClassDescription.name <$> ds
  /\ Forall2 (fun d c =>
                ClassDescription.definitions d = None ->
                type_url_suffix c = Ok (ClassDescription.type_url_suffix d))
       ds classes.
Proof.
  intros H. apply build_classes_from_inv in H as (built & -> & HF). simpl.
  induction HF as [|d c ds built Hd HF IH]; [repeat split; constructor |].
  destruct IH as (IH1 & IH2 & IH3).
  destruct (build_class_inv _ _ Hd) as (Hn & bases & defs & -> & Hs).
  repeat split.
  - simpl. now rewrite IH1.
  - simpl. f_equal. exact IH2.
  - constructor; [| exact IH3].
    intros Hnone. simpl. now rewrite (Hs Hnone).
Qed.

End FactoryFacts.

Lemma build_classes_one_per_description_witness :
  let classes :=
    [ Generated "A" [] {[ "type_url_suffix" := VStr "/a/";
                          "__doc__" := VStr "First declaration." ]};
      Generated "A" [] {[ "type_url_suffix" := VStr "/a-prime/";
                          "__doc__" := VStr "Second declaration." ]} ] in
  length classes = length [description_A; description_A']
  /\ class_name <$> classes = ClassDescription.name <$> [description_A; description_A']
  /\ Forall2 (fun d c =>
                ClassDescription.definitions d = None ->
                type_url_suffix c = Ok (ClassDescription.type_url_suffix d))
       [description_A; description_A'] classes.
Proof.
  apply (build_classes_one_per_description accept_all). reflexivity.
Defined.

(** Built from A then A', the list holds two classes named A, and the one
    found first still has the segment of A. *)
Lemma build_classes_keeps_both :
  exists first second,
    ClassDescription.build_classes accept_all [description_A; description_A']
    = Ok [first; second]
    /\ length (classes_named "A" [first; second]) = 2%nat
    /\ type_url_suffix first = Ok "/a/"
    /\ type_url_suffix second = Ok "/a-prime/".
Proof. eexists _, _. repeat split; reflexivity. Qed.

(** The descriptions of the module itself declare Company twice, and both
    classes are in the list that [build_classes] returns. *)
Lemma build_classes_two_companies :
  exists classes,
    ClassDescription.build_classes accept_all CLASS_DESCRIPTIONS = Ok classes
    /\ length classes = 22%nat
    /\ length (classes_named "Company" classes) = 2%nat.
Proof. eexists. repeat split; vm_compute; reflexivity. Qed.

Section EmptySegment.

Context (type_error : string -> list string -> gmap string value -> option exn).


End EmptySegment.



(** ** Single requests *)

Section Requests.

Context (COMPANY_DOMAIN access_token : string).
Context (repr_container : value -> string).
Context (set_order : gset string -> list string).
Context {server : Type}.
Context (serve : request -> server -> option response * server).

Local Abbreviation type_url := (type_url COMPANY_DOMAIN repr_container).
Local Abbreviation post_request := (post_request access_token).
Local Abbreviation get_request := (get_request access_token).
Local Abbreviation create := (create COMPANY_DOMAIN access_token repr_container serve).
Local Abbreviation retrieve :=
  (retrieve COMPANY_DOMAIN access_token repr_container set_order serve).

Lemma send_reply (r : request) (w : world) reply s :
  serve r (srv w) = (reply, s) ->
  send serve r w
  = (match reply with Some resp => Ok resp | None => Raise ConnectionError end,
     sent w s r).
Proof. intros H. unfold send. rewrite H. now destruct reply. Qed.

Lemma raise_for_status_error (resp : response) :
  ok resp = false -> raise_for_status resp = Raise (HTTPError (status_code resp)).
Proof. intros H. unfold raise_for_status. now rewrite H. Qed.

Lemma raise_for_status_ok (resp : response) :
  ok resp = true -> raise_for_status resp = Ok tt.
Proof. intros H. unfold raise_for_status. now rewrite H. Qed.

Lemma create_plain cls parent attributes :
  plain cls = true ->
  create cls parent attributes
  = SimProObject__create COMPANY_DOMAIN access_token repr_container serve
      cls parent (match attributes with None => ∅ | Some a => a end).
Proof.
  intros Hp. unfold create, SimProObject_create, _create. now unshadow Hp.
Qed.

Lemma decode_plain cls parent (d : gmap string value) i :
  plain cls = true ->
  d !! "ID" = Some i ->
  decode cls parent (VDict d) = Ok (built cls i parent (delete "ID" d)).
Proof.
  intros Hp Hd. unfold decode. simpl. rewrite Hd. simpl. now apply new_plain.
Qed.

Lemma create_no_reply cls parent attributes u w s :
  plain cls = true ->
  type_url cls parent = Ok (VStr u) ->
  serve (post_request u attributes) (srv w) = (None, s) ->
  create cls parent (Some attributes) w
  = (Raise ConnectionError, sent w s (post_request u attributes)).
Proof.
  intros Hp Hu Hs. rewrite (create_plain _ _ _ Hp).
  unfold SimProObject__create, bind, lift, requests_post.
  rewrite Hu. simpl str. now rewrite (send_reply _ _ _ _ Hs).
Qed.

Lemma create_http_error cls parent attributes u w resp s :
  plain cls = true ->
  type_url cls parent = Ok (VStr u) ->
  serve (post_request u attributes) (srv w) = (Some resp, s) ->
  ok resp = false ->
  create cls parent (Some attributes) w
  = (Raise (HTTPError (status_code resp)), sent w s (post_request u attributes)).
Proof.
  intros Hp Hu Hs Hok. rewrite (create_plain _ _ _ Hp).
  unfold SimProObject__create, bind, lift, requests_post.
  rewrite Hu. simpl str.
  rewrite (send_reply _ _ _ _ Hs). now rewrite (raise_for_status_error _ Hok).
Qed.

Lemma create_decoded cls parent attributes u w resp s :
  plain cls = true ->
  type_url cls parent = Ok (VStr u) ->
  serve (post_request u attributes) (srv w) = (Some resp, s) ->
  ok resp = true ->
  create cls parent (Some attributes) w
  = (res_bind (response_json resp) (decode cls parent),
     sent w s (post_request u attributes)).
Proof.
  intros Hp Hu Hs Hok. rewrite (create_plain _ _ _ Hp).
  unfold SimProObject__create, bind, lift, requests_post.
  rewrite Hu. simpl str.
  rewrite (send_reply _ _ _ _ Hs), (raise_for_status_ok _ Hok).
  destruct (response_json resp); simpl; [| reflexivity ..].
  now destruct (decode cls parent a).
Qed.

(** C7, as amended.  When the server answers a retrieve with any 4xx or
    5xx status, 404 for an unknown id included, [retrieve] of a class
    that takes it from [SimProObject] raises [HTTPError] with that status
    after the one request.  The exception class is the same for every
    such status; only the status code carried by the error tells a
    missing record from another failure. *)
Theorem retrieve_raises_HTTPError cls record_id parent columns u w resp s :
  plain cls = true ->
  type_url cls parent = Ok (VStr u) ->
  let columns_param :=
    (_columns_to_params set_order
       (Some (match columns with None => [] | Some l => l end))).1 in
  let r := get_request (u +:+ str repr_container record_id)
             {[ "columns" := VStr columns_param ]} in
  serve r (srv w) = (Some resp, s) ->
  ok resp = false ->
  (retrieve cls record_id parent columns).2 w
  = (Raise (HTTPError (status_code resp)), sent w s r)
  /\ class_of (HTTPError (status_code resp)) = ClsHTTPError.
Proof.
  intros Hp Hu columns_param r Hs Hok. split; [| reflexivity].
  subst r columns_param. simpl in Hs.
  rewrite (retrieve_plain COMPANY_DOMAIN access_token repr_container set_order
             serve cls record_id parent columns Hp).
  unfold SimProObject__retrieve. unshadow Hp. simpl.
  unfold bind, lift, requests_get. rewrite Hu. simpl.
  rewrite (send_reply _ _ _ _ Hs). now rewrite (raise_for_status_error _ Hok).
Qed.

End Requests.

Lemma retrieve_raises_HTTPError_witness :
  (retrieve example_domain example_token example_repr example_set_order
     scripted_serve example_Job (VInt 99) example_company None).2
    (scripted_world [http_reply 404 None])
  = (Raise (HTTPError 404),
     {| srv := [];
        log := [get_request example_token
                  "https://acme.simprosuite.com/api/v1.0/companies/0/jobs/99"
                  {[ "columns" := VStr "ID" ]}] |})
  /\ class_of (HTTPError 404) = ClsHTTPError.
Proof.
  exact (retrieve_raises_HTTPError example_domain example_token example_repr
           example_set_order scripted_serve example_Job (VInt 99)
           example_company None
           "https://acme.simprosuite.com/api/v1.0/companies/0/jobs/"
           (scripted_world [http_reply 404 None])
           {| status_code := 404; body := None; links := ∅ |} []
           eq_refl eq_refl eq_refl eq_refl).
Defined.

(** A retrieve answered with 404 and one answered with 500 raise
    exceptions of one and the same class. *)
Lemma retrieve_not_found_same_class :
  exists e_missing e_other,
    ((retrieve example_domain example_token example_repr example_set_order
        scripted_serve example_Job (VInt 99) example_company None).2
       (scripted_world [http_reply 404 None])).1 = Raise e_missing
    /\ ((retrieve example_domain example_token example_repr example_set_order
           scripted_serve example_Job (VInt 99) example_company None).2
          (scripted_world [http_reply 500 None])).1 = Raise e_other
    /\ class_of e_missing = class_of e_other.
Proof. eexists _, _. repeat split; vm_compute; reflexivity. Qed.

(** ** Creating a site *)

Section CreateSite.

Context (COMPANY_DOMAIN access_token : string).
Context (repr_container : value -> string).
Context {server : Type}.
Context (serve : request -> server -> option response * server).
Context (Site : PyClass).

Local Abbreviation type_url := (type_url COMPANY_DOMAIN repr_container).
Local Abbreviation post_request := (post_request access_token).
Local Abbreviation create := (create COMPANY_DOMAIN access_token repr_container serve).
Local Abbreviation create_site :=
  (create_site COMPANY_DOMAIN access_token repr_container serve Site).
Local Abbreviation create_site_attempts :=
  (create_site_attempts COMPANY_DOMAIN access_token repr_container serve Site).

Lemma create_site_unfold customer site_attributes record_attributes w :
  site_record_attributes site_attributes = Ok record_attributes ->
  create_site customer site_attributes w
  = create_site_attempts 3 customer record_attributes w.
Proof. intros H. unfold create_site, bind, lift. now rewrite H. Qed.

Lemma attempts_S n customer record_attributes w :
  create_site_attempts (S n) customer record_attributes w
  = match create Site customer (Some record_attributes) w with
    | (Raise (HTTPError _), w') =>
        create_site_attempts n customer record_attributes w'
    | other => other
    end.
Proof. reflexivity. Qed.

Lemma attempt_retried n customer record_attributes u w resp s :
  plain Site = true ->
  type_url Site customer = Ok (VStr u) ->
  serve (post_request u record_attributes) (srv w) = (Some resp, s) ->
  ok resp = false ->
  create_site_attempts (S n) customer record_attributes w
  = create_site_attempts n customer record_attributes
      (sent w s (post_request u record_attributes)).
Proof.
  intros Hp Hu Hs Hok. rewrite attempts_S.
  now rewrite (create_http_error _ _ _ _ _ _ _ _ _ _ _ Hp Hu Hs Hok).
Qed.

Lemma sent_sent_sent (w : world) (s1 s2 s3 : server) (r : request) :
  sent (sent (sent w s1 r) s2 r) s3 r
  = {| srv := s3; log := log w ++ [r; r; r] |}.
Proof. unfold sent. simpl. now rewrite <- !app_assoc. Qed.

(** C3, as amended.  With a [Site] class that takes [create] from
    [SimProObject], [create_site] tries the create request up to three
    times.  Every [HTTPError], that is every 4xx or 5xx answer, validation
    and not-found answers included, uses up one attempt and is retried:
    two such answers and then a success return the site after exactly
    three requests, and three such answers raise [JobRecordCreationError]
    after exactly three requests.  Only an exception that is not an
    [HTTPError] (no response at all, a body that is not JSON) ends the
    call at once, after exactly one request. *)
Theorem create_site_attempts_three_times customer site_attributes record_attributes u :
  plain Site = true ->
  site_record_attributes site_attributes = Ok record_attributes ->
  type_url Site customer = Ok (VStr u) ->
  let attempt := post_request u record_attributes in
  (forall w r1 s1 r2 s2 r3 s3 v site,
      serve attempt (srv w) = (Some r1, s1) -> ok r1 = false ->
      serve attempt s1 = (Some r2, s2) -> ok r2 = false ->
      serve attempt s2 = (Some r3, s3) -> ok r3 = true ->
      body r3 = Some v -> decode Site customer v = Ok site ->
      create_site customer site_attributes w
      = (Ok site, {| srv := s3; log := log w ++ [attempt; attempt; attempt] |}))
  /\ (forall w r1 s1 r2 s2 r3 s3,
        serve attempt (srv w) = (Some r1, s1) -> ok r1 = false ->
        serve attempt s1 = (Some r2, s2) -> ok r2 = false ->
        serve attempt s2 = (Some r3, s3) -> ok r3 = false ->
        create_site customer site_attributes w
        = (Raise JobRecordCreationError,
           {| srv := s3; log := log w ++ [attempt; attempt; attempt] |}))
  /\ (forall w s1,
        serve attempt (srv w) = (None, s1) ->
        create_site customer site_attributes w
        = (Raise ConnectionError, {| srv := s1; log := log w ++ [attempt] |}))
  /\ (forall w r1 s1,
        serve attempt (srv w) = (Some r1, s1) -> ok r1 = true ->
        body r1 = None ->
        create_site customer site_attributes w
        = (Raise JSONDecodeError, {| srv := s1; log := log w ++ [attempt] |})).
Proof.
  intros Hp Hrec Hu attempt. subst attempt. repeat split.
  - intros w r1 s1 r2 s2 r3 s3 v site H1 E1 H2 E2 H3 E3 Hb Hd.
    rewrite (create_site_unfold _ _ _ _ Hrec).
    rewrite (attempt_retried _ _ _ _ _ _ _ Hp Hu H1 E1).
    rewrite (attempt_retried _ _ _ _ (sent w s1 _) _ _ Hp Hu H2 E2).
    rewrite attempts_S.
    rewrite (create_decoded _ _ _ _ _ _ _ _ (sent (sent w s1 _) s2 _)
               _ _ Hp Hu H3 E3).
    unfold response_json. rewrite Hb. simpl. rewrite Hd.
    now rewrite sent_sent_sent.
  - intros w r1 s1 r2 s2 r3 s3 H1 E1 H2 E2 H3 E3.
    rewrite (create_site_unfold _ _ _ _ Hrec).
    rewrite (attempt_retried _ _ _ _ _ _ _ Hp Hu H1 E1).
    rewrite (attempt_retried _ _ _ _ (sent w s1 _) _ _ Hp Hu H2 E2).
    rewrite (attempt_retried _ _ _ _ (sent (sent w s1 _) s2 _) _ _ Hp Hu H3 E3).
    unfold create_site_attempts, raise, lift. now rewrite sent_sent_sent.
  - intros w s1 H1.
    rewrite (create_site_unfold _ _ _ _ Hrec).
    rewrite attempts_S.
    now rewrite (create_no_reply _ _ _ _ _ _ _ _ _ _ Hp Hu H1).
  - intros w r1 s1 H1 E1 Hb.
    rewrite (create_site_unfold _ _ _ _ Hrec).
    rewrite attempts_S.
    rewrite (create_decoded _ _ _ _ _ _ _ _ _ _ _ Hp Hu H1 E1).
    unfold response_json. now rewrite Hb.
Qed.

End CreateSite.

Lemma create_site_attempts_three_times_witness :
  create_site example_domain example_token example_repr scripted_serve
    example_Site example_customer example_site_attributes
    (scripted_world [http_reply 500 None; http_reply 503 None; created_reply 5])
  = (Ok (Obj example_Site (VInt 5) example_customer ∅),
     {| srv := [];
        log := let attempt :=
                 post_request example_token
                   "https://acme.simprosuite.com/api/v1.0/companies/0/customers/companies/7/sites/"
                   (example_site_attributes ∪ {[ "Name" := VStr "Line1Extra spaces" ]}) in
               [attempt; attempt; attempt] |}).
Proof.
  apply (proj1 (create_site_attempts_three_times example_domain example_token
                  example_repr scripted_serve example_Site example_customer
                  example_site_attributes
                  (example_site_attributes ∪ {[ "Name" := VStr "Line1Extra spaces" ]})
                  "https://acme.simprosuite.com/api/v1.0/companies/0/customers/companies/7/sites/"
                  eq_refl eq_refl eq_refl)
           (scripted_world [http_reply 500 None; http_reply 503 None; created_reply 5])
           {| status_code := 500; body := None; links := ∅ |}
           [http_reply 503 None; created_reply 5]
           {| status_code := 503; body := None; links := ∅ |}
           [created_reply 5]
           {| status_code := 201; body := Some (VDict {[ "ID" := VInt 5 ]}); links := ∅ |}
           []
           (VDict {[ "ID" := VInt 5 ]}));
    reflexivity.
Defined.

(** A validation error (status 422) on the first attempt is retried: the
    call goes on to a second request and returns the site. *)
Lemma create_site_retries_validation_error :
  exists site w,
    create_site example_domain example_token example_repr scripted_serve
      example_Site example_customer example_site_attributes
      (scripted_world [http_reply 422 None; created_reply 5])
    = (Ok site, w)
    /\ length (log w) = 2%nat.
Proof. eexists _, _. split; vm_compute; reflexivity. Qed.

(** A [Site] class built with data under [create] cannot create anything:
    [create] and [create_site] raise [TypeError], which the loop does not
    catch, and no request is sent. *)
Example create_of_shadowing_class :
  let w := scripted_world [created_reply 5] in
  create example_domain example_token example_repr scripted_serve
    example_without_create example_customer None w = (Raise TypeError, w)
  /\ create_site example_domain example_token example_repr scripted_serve
       example_without_create example_customer example_site_attributes w
     = (Raise TypeError, w).
Proof. split; reflexivity. Qed.

(** ** Listing *)

Lemma ceiling_250 (n : nat) :
  exists q r : nat, ((n + 249) / 250 = q /\ n + 249 = 250 * q + r /\ r < 250)%nat.
Proof.
  exists ((n + 249) / 250)%nat, ((n + 249) mod 250)%nat.
  split; [reflexivity | split].
  - apply Nat.div_mod_eq.
  - apply Nat.mod_upper_bound. lia.
Qed.

Lemma page_count_small (n : nat) : (n <= 250)%nat -> page_count n = 1%nat.
Proof.
  intros H. unfold page_count.
  destruct (ceiling_250 n) as (q & r & -> & E & B). lia.
Qed.

Lemma page_count_large (n : nat) :
  (250 < n)%nat -> page_count n = S (page_count (n - 250)).
Proof.
  intros H. unfold page_count.
  destruct (ceiling_250 n) as (q & r & -> & E & B).
  destruct (ceiling_250 (n - 250)) as (q' & r' & -> & E' & B'). lia.
Qed.

Lemma page_count_is_ceiling (n : nat) :
  (n = 0%nat -> page_count n = 1%nat)
  /\ ((0 < n)%nat ->
      (250 * (page_count n - 1) < n /\ n <= 250 * page_count n)%nat)
  /\ Z.of_nat (page_count n) = Z.max 1 ((Z.of_nat n + 249) / 250).
Proof.
  assert (Z.of_nat ((n + 249) / 250) = (Z.of_nat n + 249) / 250) as EZ.
  { rewrite Nat2Z.inj_div. f_equal. lia. }
  unfold page_count. rewrite <- EZ.
  destruct (ceiling_250 n) as (q & r & -> & E & B).
  repeat split; intros; lia.
Qed.

Lemma decode_each_records cls parent (records : list (gmap string value)) acc :
  plain cls = true ->
  Forall has_ID records ->
  decode_each cls parent (VDict <$> records) acc
  = Ok (acc ++ (instance_of cls parent <$> records)).
Proof.
  intros Hp HF. revert acc. induction HF as [|r records [i Hi] HF IH]; intros acc.
  - simpl. now rewrite app_nil_r.
  - simpl. unfold decode at 1. simpl. rewrite Hi. simpl.
    rewrite (new_plain _ _ _ _ Hp). simpl.
    rewrite IH. unfold instance_of at 2. rewrite Hi. simpl.
    now rewrite <- app_assoc.
Qed.

Section Pages.

Context (access_token : string).
Context {server : Type}.
Context (serve : request -> server -> option response * server).

Local Abbreviation list_pages := (list_pages access_token serve).
Local Abbreviation get_request := (get_request access_token).

Lemma list_pages_done fuel cls parent url columns_param acc (w : @world server) :
  list_pages fuel cls parent url columns_param None acc w = (Ok acc, w).
Proof. now destruct fuel. Qed.

Lemma list_pages_step fuel cls parent url columns_param page acc w
    resp s v items acc' :
  serve (get_request url (list_params columns_param page)) (srv w) = (Some resp, s) ->
  ok resp = true ->
  body resp = Some v ->
  iterate v = Ok items ->
  decode_each cls parent items acc = Ok acc' ->
  list_pages (S fuel) cls parent url columns_param (Some page) acc w
  = list_pages fuel cls parent url columns_param
      (if bool_decide ("next" ∈ links resp) then Some (page + 1) else None)
      acc' (sent w s (get_request url (list_params columns_param page))).
Proof.
  intros Hs Hok Hb Hi Hd. simpl. unfold bind, requests_get, lift.
  rewrite (send_reply _ _ _ _ _ Hs), (raise_for_status_ok _ Hok).
  unfold response_json. rewrite Hb. simpl. rewrite Hi, Hd. reflexivity.
Qed.

End Pages.

Section SimulatedListing.

Context (COMPANY_DOMAIN access_token : string).
Context (repr_container : value -> string).
Context (set_order : gset string -> list string).

Local Abbreviation type_url := (type_url COMPANY_DOMAIN repr_container).
Local Abbreviation get_request := (get_request access_token).
Local Abbreviation page_requests := (page_requests access_token).
Local Abbreviation list_pages := (list_pages access_token simulated_serve).
Local Abbreviation _list_all :=
  (_list_all COMPANY_DOMAIN access_token repr_container set_order simulated_serve).
Local Abbreviation list_all :=
  (list_all COMPANY_DOMAIN access_token repr_container set_order simulated_serve).

Lemma simulated_get address columns_param (p : nat) (s : simulated) :
  simulated_serve (get_request address (list_params columns_param (Z.of_nat p + 1))) s
  = (Some {| status_code := 200;
             body := Some (VList (VDict <$> take 250 (drop (250 * p) (records_at s address))));
             links := if (Z.of_nat p + 1) * 250 <? Z.of_nat (length (records_at s address))
                      then {[ "next" ]} else ∅ |}, s).
Proof.
  unfold simulated_serve. simpl method. simpl params. simpl url.
  change (list_params columns_param (Z.of_nat p + 1) !! "page")
    with (Some (VInt (Z.of_nat p + 1))).
  change (list_params columns_param (Z.of_nat p + 1) !! "pageSize")
    with (Some (VInt 250)).
  cbv beta iota.
  replace (1 <=? Z.of_nat p + 1) with true by (symmetry; apply Z.leb_le; lia).
  simpl andb. cbv iota.
  replace (Z.to_nat ((Z.of_nat p + 1 - 1) * 250)) with (250 * p)%nat by lia.
  reflexivity.
Qed.

Lemma page_requests_cons url columns_param (first : Z) (count : nat) :
  page_requests url columns_param first (S count)
  = get_request url (list_params columns_param first)
    :: page_requests url columns_param (first + 1) count.
Proof.
  unfold page_requests. simpl. rewrite Z.add_0_r. f_equal.
  rewrite <- seq_shift, <- list_fmap_compose.
  apply list_fmap_ext. intros _ i _. simpl. do 2 f_equal. lia.
Qed.

Lemma list_pages_simulated cls parent url columns_param (s : simulated) :
  plain cls = true ->
  Forall has_ID (records_at s url) ->
  forall (fuel p : nat) acc lg,
    (page_count (length (drop (250 * p) (records_at s url))) <= fuel)%nat ->
    list_pages fuel cls parent url columns_param (Some (Z.of_nat p + 1)) acc
      {| srv := s; log := lg |}
    = (Ok (acc ++ (instance_of cls parent <$> drop (250 * p) (records_at s url))),
       {| srv := s;
          log := lg ++ page_requests url columns_param (Z.of_nat p + 1)
                         (page_count (length (drop (250 * p) (records_at s url)))) |}).
Proof.
  intros Hp Hids fuel.
  induction fuel as [|fuel IH]; intros p acc lg Hfuel.
  - unfold page_count in Hfuel. lia.
  - set (rest := drop (250 * p) (records_at s url)) in *.
    assert (Forall has_ID (take 250 rest)) as Hshown.
    { apply Forall_take. now apply Forall_drop. }
    erewrite list_pages_step;
      [ | apply simulated_get | reflexivity | reflexivity | reflexivity
        | apply (decode_each_records cls parent _ acc Hp Hshown) ].
    fold rest. simpl links. unfold sent. simpl srv. simpl log.
    assert (length rest = length (records_at s url) - 250 * p)%nat as Hlen
      by apply length_drop.
    destruct (Z.ltb_spec ((Z.of_nat p + 1) * 250)
                (Z.of_nat (length (records_at s url)))) as [Hmore|Hlast].
    + change (bool_decide ("next" ∈ ({[ "next" ]} : gset string))) with true.
      cbv iota.
      assert (250 < length rest)%nat as Hlong by lia.
      rewrite (page_count_large _ Hlong) in Hfuel |- *.
      replace (Z.of_nat p + 1 + 1) with (Z.of_nat (S p) + 1) by lia.
      assert (drop (250 * S p) (records_at s url) = drop 250 rest) as Hdrop.
      { unfold rest. rewrite drop_drop. f_equal. lia. }
      rewrite IH; rewrite Hdrop, length_drop; [| lia].
      rewrite page_requests_cons.
      replace (Z.of_nat (S p) + 1) with (Z.of_nat p + 1 + 1) by lia.
      rewrite <- !app_assoc, <- fmap_app, take_drop. reflexivity.
    + change (bool_decide ("next" ∈ (∅ : gset string))) with false.
      cbv iota. rewrite list_pages_done.
      assert (length rest <= 250)%nat as Hshort by lia.
      rewrite (page_count_small _ Hshort).
      rewrite take_ge by lia.
      unfold page_requests. simpl. rewrite Z.add_0_r. reflexivity.
Qed.

End SimulatedListing.

Lemma _list_all_simulated COMPANY_DOMAIN access_token repr_container set_order
    fuel cls parent columns url (s : simulated) lg :
  plain cls = true ->
  plain_instance parent = true ->
  type_url COMPANY_DOMAIN repr_container cls parent = Ok (VStr url) ->
  Forall has_ID (records_at s url) ->
  (page_count (length (records_at s url)) <= fuel)%nat ->
  (_list_all COMPANY_DOMAIN access_token repr_container set_order simulated_serve
     fuel cls parent columns).2 {| srv := s; log := lg |}
  = (Ok (instance_of cls parent <$> records_at s url),
     {| srv := s;
        log := lg ++ page_requests access_token url
                       (_columns_to_params set_order (Some columns)).1 1
                       (page_count (length (records_at s url))) |}).
Proof.
  intros Hp Hparent Hu Hids Hfuel. rewrite _list_all_plain by exact Hp.
  simpl. unfold bind, lift. rewrite Hu.
  destruct (class_name_of_plain parent Hparent) as [name ->].
  exact (list_pages_simulated access_token cls parent url _ s Hp Hids fuel 0 []
           lg Hfuel).
Qed.

(** C1.  The loop of [_list_all] starts at page 1 and, after each page,
    goes on to the next one exactly when the response has a [next] link,
    whatever the number of records in it; it stops otherwise.  Against a
    server that holds N records of the parent and serves them 250 to a
    page, [_list_all] and [list_all] of a class that takes them from
    [SimProObject], under a parent of such a class, send exactly one
    request for each of the pages 1 to ceil(N / 250), a single request
    when N = 0, and return the N decoded instances in page order. *)
Theorem list_all_drains_pages :
  (forall access_token (server : Type)
          (serve : request -> server -> option response * server)
          fuel cls parent url columns_param page acc w resp s v items acc',
      serve (get_request access_token url (list_params columns_param page)) (srv w)
      = (Some resp, s) ->
      ok resp = true -> body resp = Some v -> iterate v = Ok items ->
      decode_each cls parent items acc = Ok acc' ->
      list_pages access_token serve (S fuel) cls parent url columns_param
        (Some page) acc w
      = list_pages access_token serve fuel cls parent url columns_param
          (if bool_decide ("next" ∈ links resp) then Some (page + 1) else None)
          acc' (sent w s (get_request access_token url
                            (list_params columns_param page))))
  /\ (forall access_token (server : Type)
             (serve : request -> server -> option response * server)
             fuel cls parent url columns_param acc (w : @world server),
        list_pages access_token serve fuel cls parent url columns_param None acc w
        = (Ok acc, w))
  /\ (forall COMPANY_DOMAIN access_token repr_container set_order
             fuel cls parent url (s : simulated) lg,
        plain cls = true ->
        plain_instance parent = true ->
        type_url COMPANY_DOMAIN repr_container cls parent = Ok (VStr url) ->
        Forall has_ID (records_at s url) ->
        let N := length (records_at s url) in
        (page_count N <= fuel)%nat ->
        (forall columns,
            (_list_all COMPANY_DOMAIN access_token repr_container set_order
               simulated_serve fuel cls parent columns).2 {| srv := s; log := lg |}
            = (Ok (instance_of cls parent <$> records_at s url),
               {| srv := s;
                  log := lg ++ page_requests access_token url
                                 (_columns_to_params set_order (Some columns)).1 1
                                 (page_count N) |}))
        /\ (forall columns,
              (list_all COMPANY_DOMAIN access_token repr_container set_order
                 simulated_serve fuel cls parent columns).2 {| srv := s; log := lg |}
              = (Ok (instance_of cls parent <$> records_at s url),
                 {| srv := s;
                    log := lg ++ page_requests access_token url
                                   (_columns_to_params set_order
                                      (Some (listed_columns cls columns))).1 1
                                   (page_count N) |}))
        /\ length (instance_of cls parent <$> records_at s url) = N
        /\ (forall columns_param,
              length (page_requests access_token url columns_param 1 (page_count N))
              = page_count N)
        /\ (N = 0%nat -> page_count N = 1%nat)
        /\ ((0 < N)%nat ->
            (250 * (page_count N - 1) < N /\ N <= 250 * page_count N)%nat)
        /\ Z.of_nat (page_count N) = Z.max 1 ((Z.of_nat N + 249) / 250)).
Proof.
  split; [| split].
  - intros. now apply list_pages_step with (v := v) (items := items).
  - intros. apply list_pages_done.
  - intros dom tok rc so fuel cls parent url s lg Hp Hparent Hu Hids N Hfuel.
    split; [| split; [| split; [| split]]].
    + intros columns. now apply _list_all_simulated.
    + intros columns. rewrite list_all_plain by exact Hp. simpl.
      now apply _list_all_simulated.
    + apply length_fmap.
    + intros cp. unfold page_requests. now rewrite length_fmap, length_seq.
    + apply page_count_is_ceiling.
Qed.

Lemma example_jobs_have_ID : Forall has_ID example_jobs.
Proof.
  apply Forall_fmap, Forall_forall. intros i _. eexists.
  apply lookup_singleton_eq.
Qed.

Lemma list_all_drains_pages_witness :
  (list_all example_domain example_token example_repr example_set_order
     simulated_serve 2 example_Job example_company None).2
    {| srv := example_store; log := [] |}
  = (Ok (instance_of example_Job example_company <$> example_jobs),
     {| srv := example_store;
        log := page_requests example_token example_jobs_url "ID" 1 2 |}).
Proof.
  refine (proj1 (proj2 (proj2 (proj2 list_all_drains_pages) example_domain
            example_token example_repr example_set_order 2%nat example_Job
            example_company example_jobs_url example_store [] eq_refl eq_refl
            eq_refl example_jobs_have_ID _)) None).
  vm_compute. lia.
Defined.

(** ** The log only grows *)

Create HintDb appends discriminated.

Section Appends.

Context (COMPANY_DOMAIN access_token : string).
Context (repr_container : value -> string).
Context (set_order : gset string -> list string).
Context {server : Type}.
Context (serve : request -> server -> option response * server).

Lemma appends_lift {A} (r : res A) : appends_to_log (server := server) (lift r).
Proof. intros w. exists []. simpl. now rewrite app_nil_r. Qed.

Lemma appends_ret {A} (a : A) : appends_to_log (server := server) (ret a).
Proof. intros w. exists []. simpl. now rewrite app_nil_r. Qed.

Lemma appends_bind {A B} (m : M A) (k : A -> M B) :
  appends_to_log (server := server) m ->
  (forall a, appends_to_log (k a)) ->
  appends_to_log (bind m k).
Proof.
  intros Hm Hk w. unfold bind. destruct (Hm w) as [added Hadded].
  destruct (m w) as [[a|e|] w']; simpl in *.
  - destruct (Hk a w') as [added' Hadded']. exists (added ++ added').
    now rewrite Hadded', Hadded, app_assoc.
  - now exists added.
  - now exists added.
Qed.

Lemma appends_send (r : request) : appends_to_log (send serve r).
Proof.
  intros w. exists [r]. unfold send.
  destruct (serve r (srv w)) as [[resp|] s]; reflexivity.
Qed.

Hint Resolve appends_lift appends_ret appends_send : appends.

Lemma appends_list_pages fuel cls parent url columns_param page acc :
  appends_to_log
    (list_pages access_token serve fuel cls parent url columns_param page acc).
Proof.
  revert page acc. induction fuel as [|fuel IH]; intros [p|] acc; simpl;
    auto with appends.
  unfold requests_get.
  repeat (apply appends_bind; [auto with appends | intros ?]).
  apply IH.
Qed.

Lemma appends_list_all fuel cls parent columns :
  appends_to_log
    (list_all COMPANY_DOMAIN access_token repr_container set_order serve
       fuel cls parent columns).2.
Proof.
  assert (forall cls columns,
             appends_to_log
               (_list_all COMPANY_DOMAIN access_token repr_container set_order
                  serve fuel cls parent columns).2) as H_list_all.
  { intros c l. unfold _list_all, SimProObject__list_all, raise.
    destruct (shadows c "_list_all"); simpl; [auto with appends |].
    destruct (shadows c "_columns_to_params"); simpl; [auto with appends |].
    repeat (apply appends_bind; [auto with appends | intros ?]).
    apply appends_list_pages. }
  unfold list_all, Company_list_all, SimProObject_list_all, raise.
  destruct cls as [|name bases definitions].
  - specialize (H_list_all Company
                  ("Name" :: match columns with None => [] | Some l => l end)).
    now destruct (_list_all _ _ _ _ _ _ _ _ _).
  - destruct (shadows _ "list_all"); simpl; [auto with appends |].
    specialize (H_list_all (Generated name bases definitions)
                  (match columns with None => [] | Some l => l end)).
    now destruct (_list_all _ _ _ _ _ _ _ _ _).
Qed.

Lemma appends_create cls parent attributes :
  appends_to_log
    (create COMPANY_DOMAIN access_token repr_container serve cls parent attributes).
Proof.
  unfold create, SimProObject_create, _create, SimProObject__create,
    requests_post, raise.
  destruct (shadows cls "create"); [auto with appends |].
  destruct (shadows cls "_create"); [auto with appends |].
  repeat (apply appends_bind; [auto with appends | intros ?]).
  auto with appends.
Qed.

Hint Resolve appends_list_all appends_create : appends.

Lemma appends_ensure_default_children Section JobCostCenter fuel job :
  appends_to_log
    (ensure_default_children COMPANY_DOMAIN access_token repr_container
       set_order serve Section JobCostCenter fuel job).
Proof.
  unfold ensure_default_children, ensure_section, ensure_cost_center.
  apply appends_bind.
  - apply appends_bind; [auto with appends | intros sections].
    destruct sections; auto with appends.
  - intros section.
    apply appends_bind; [auto with appends | intros [|c l]]; [| auto with appends].
    apply appends_bind; auto with appends.
Qed.

End Appends.

(** ** Creating a job *)

Section CreateJob.

Context (COMPANY_DOMAIN access_token : string).
Context (repr_container : value -> string).
Context (set_order : gset string -> list string).
Context {server : Type}.
Context (serve : request -> server -> option response * server).
Context (Site Job Section JobCostCenter : PyClass).

Local Abbreviation type_url := (type_url COMPANY_DOMAIN repr_container).
Local Abbreviation post_request := (post_request access_token).
Local Abbreviation create := (create COMPANY_DOMAIN access_token repr_container serve).
Local Abbreviation create_site :=
  (create_site COMPANY_DOMAIN access_token repr_container serve Site).
Local Abbreviation create_site_attempts :=
  (create_site_attempts COMPANY_DOMAIN access_token repr_container serve Site).
Local Abbreviation ensure_default_children :=
  (ensure_default_children COMPANY_DOMAIN access_token repr_container set_order
     serve Section JobCostCenter).
Local Abbreviation create_job_record :=
  (create_job_record COMPANY_DOMAIN access_token repr_container set_order
     serve Job Section JobCostCenter).
Local Abbreviation create_job :=
  (create_job COMPANY_DOMAIN access_token repr_container set_order
     serve Site Job Section JobCostCenter).

Lemma built_has_record_id cls i parent attributes :
  plain cls = true ->
  exists j, record_id (built cls i parent attributes) = Ok j.
Proof.
  intros Hp. destruct cls; simpl; [eexists; reflexivity |].
  unshadow Hp. eexists; reflexivity.
Qed.

Lemma decode_has_record_id cls parent v o :
  plain cls = true ->
  decode cls parent v = Ok o -> exists j, record_id o = Ok j.
Proof.
  intros Hp. unfold decode.
  destruct (pop_ID v) as [[i d]| |]; simpl; try discriminate.
  rewrite (new_plain _ _ _ _ Hp). intros [= <-].
  now apply built_has_record_id.
Qed.

Lemma create_has_record_id cls parent attributes w o w' :
  plain cls = true ->
  create cls parent attributes w = (Ok o, w') -> exists j, record_id o = Ok j.
Proof.
  intros Hp. rewrite create_plain by exact Hp.
  unfold SimProObject__create, bind, lift, requests_post, send.
  destruct (type_url cls parent); try discriminate.
  destruct (serve _ (srv w)) as [[resp|] s]; try discriminate.
  destruct (raise_for_status resp); try discriminate.
  destruct (response_json resp) as [v| |]; try discriminate.
  destruct (decode cls parent v) as [o'| |] eqn:Hd; try discriminate.
  intros [= <- _]. eapply decode_has_record_id, Hd. exact Hp.
Qed.

Lemma create_site_attempts_has_record_id n customer record_attributes w site w' :
  plain Site = true ->
  create_site_attempts n customer record_attributes w = (Ok site, w') ->
  exists j, record_id site = Ok j.
Proof.
  intros Hp. revert w. induction n as [|n IH]; intros w; [discriminate |].
  rewrite attempts_S.
  destruct (create Site customer (Some record_attributes) w) as [[o|e|] w1] eqn:Hc.
  - intros [= <- _]. eapply create_has_record_id, Hc. exact Hp.
  - destruct e; try discriminate. apply IH.
  - discriminate.
Qed.

Lemma create_site_has_record_id customer site_attributes w site w' :
  plain Site = true ->
  create_site customer site_attributes w = (Ok site, w') ->
  exists j, record_id site = Ok j.
Proof.
  intros Hp. unfold create_site, bind, lift.
  destruct (site_record_attributes site_attributes); try discriminate.
  now apply create_site_attempts_has_record_id.
Qed.

Lemma job_record_attributes_no_site customer_id (job_attributes : gmap string value) :
  job_attributes !! "Site" = None ->
  job_record_attributes customer_id job_attributes !! "Site" = None.
Proof.
  intros H. unfold job_record_attributes.
  apply lookup_union_None. split; [exact H | reflexivity].
Qed.

Lemma create_job_record_log fuel company record_attributes u w :
  plain Job = true ->
  type_url Job company = Ok (VStr u) ->
  exists added,
    log (create_job_record fuel company record_attributes w).2
    = log w ++ post_request u record_attributes :: added.
Proof.
  intros Hp Hu. unfold create_job_record, bind.
  destruct (serve (post_request u record_attributes) (srv w)) as [[resp|] s] eqn:Hs.
  - destruct (ok resp) eqn:Hok.
    + rewrite (create_decoded _ _ _ _ _ _ _ _ _ _ _ Hp Hu Hs Hok).
      destruct (res_bind _ _) as [job| |]; try (now exists []).
      destruct (appends_ensure_default_children COMPANY_DOMAIN access_token
                  repr_container set_order serve Section JobCostCenter fuel job
                  (sent w s (post_request u record_attributes))) as [added Ha].
      exists added.
      destruct (ensure_default_children fuel job _) as [[[]|e|] w2];
        simpl in *; rewrite Ha; now rewrite <- app_assoc.
    + rewrite (create_http_error _ _ _ _ _ _ _ _ _ _ _ Hp Hu Hs Hok). now exists [].
  - rewrite (create_no_reply _ _ _ _ _ _ _ _ _ _ Hp Hu Hs). now exists [].
Qed.

(** C9.  With [Site] and [Job] classes that take their members from
    [SimProObject]: when the merged record attributes have no ["Site"],
    the site made by [create_site] is linked only in the caller's
    [job_attributes]: its id is stored there after [record_attributes] was
    built, and the record that [Job.create] is given, which is the body of
    the request it sends right after the site's, has no ["Site"] key. *)
Theorem create_job_site_not_in_body fuel company customer job_attributes
    customer_id w :
  plain Site = true ->
  plain Job = true ->
  record_id customer = Ok customer_id ->
  job_attributes !! "Site" = None ->
  let record_attributes := job_record_attributes customer_id job_attributes in
  record_attributes !! "Site" = None
  /\ (forall site w1,
        create_site customer job_attributes w = (Ok site, w1) ->
        exists site_id,
          record_id site = Ok site_id
          /\ create_job fuel company customer job_attributes w
             = (let '(r, w2) := create_job_record fuel company record_attributes w1 in
                (r, <["Site" := site_id]> job_attributes, w2))
          /\ forall u, type_url Job company = Ok (VStr u) ->
               exists added,
                 log (create_job fuel company customer job_attributes w).2
                 = log w1 ++ post_request u record_attributes :: added
                 /\ json (post_request u record_attributes) = Some record_attributes)
  /\ (forall e w1,
        create_site customer job_attributes w = (Raise e, w1) ->
        create_job fuel company customer job_attributes w
        = (Raise e, job_attributes, w1)).
Proof.
  intros HSite HJob Hc Hs record_attributes. subst record_attributes.
  pose proof (job_record_attributes_no_site customer_id _ Hs) as Hno.
  split; [exact Hno | split].
  - intros site w1 Hsite.
    destruct (create_site_has_record_id _ _ _ _ _ HSite Hsite) as [site_id Hid].
    exists site_id. split; [exact Hid |].
    assert (create_job fuel company customer job_attributes w
            = (let '(r, w2) :=
                 create_job_record fuel company
                   (job_record_attributes customer_id job_attributes) w1 in
               (r, <["Site" := site_id]> job_attributes, w2))) as Heq.
    { unfold create_job, create_job_site, bind, lift, ret. rewrite Hc.
      rewrite Hno.
      rewrite bool_decide_eq_true_2 by reflexivity.
      rewrite Hsite, Hid. reflexivity. }
    split; [exact Heq |].
    intros u Hu. rewrite Heq.
    destruct (create_job_record_log fuel company
                (job_record_attributes customer_id job_attributes) u w1 HJob Hu)
      as [added Ha].
    exists added. split; [| reflexivity].
    destruct (create_job_record fuel company _ w1). exact Ha.
  - intros e w1 Hsite.
    unfold create_job, create_job_site, bind, lift, ret. rewrite Hc.
    rewrite Hno.
    rewrite bool_decide_eq_true_2 by reflexivity.
    now rewrite Hsite.
Qed.

End CreateJob.

Lemma create_job_site_not_in_body_witness :
  exists site_id,
    record_id example_site = Ok site_id
    /\ create_job example_domain example_token example_repr example_set_order
         simulated_serve example_Site example_Job example_Section
         example_JobCostCenter 1 example_company example_customer
         example_site_attributes {| srv := empty_store; log := [] |}
       = (let '(r, w2) :=
            create_job_record example_domain example_token example_repr
              example_set_order simulated_serve example_Job example_Section
              example_JobCostCenter 1 example_company
              (job_record_attributes (VInt 7) example_site_attributes)
              example_world_with_site in
          (r, <["Site" := site_id]> example_site_attributes, w2))
    /\ forall u,
         type_url example_domain example_repr example_Job example_company
         = Ok (VStr u) ->
         exists added,
           log (create_job example_domain example_token example_repr
                  example_set_order simulated_serve example_Site example_Job
                  example_Section example_JobCostCenter 1 example_company
                  example_customer example_site_attributes
                  {| srv := empty_store; log := [] |}).2
           = log example_world_with_site
             ++ post_request example_token u
                  (job_record_attributes (VInt 7) example_site_attributes)
                :: added
           /\ json (post_request example_token u
                      (job_record_attributes (VInt 7) example_site_attributes))
              = Some (job_record_attributes (VInt 7) example_site_attributes).
Proof.
  apply (proj1 (proj2 (create_job_site_not_in_body example_domain example_token
                         example_repr example_set_order simulated_serve
                         example_Site example_Job example_Section
                         example_JobCostCenter 1 example_company example_customer
                         example_site_attributes (VInt 7)
                         {| srv := empty_store; log := [] |}
                         eq_refl eq_refl eq_refl eq_refl))
           example_site example_world_with_site).
  vm_compute. reflexivity.
Defined.

(** ** The simulated server *)

Lemma records_at_stored s u record u' :
  records_at (stored s u record) u'
  = if decide (u = u') then records_at s u ++ [record] else records_at s u'.
Proof.
  unfold records_at at 1. unfold stored. simpl.
  destruct (decide (u = u')) as [<-|Hne].
  - now rewrite lookup_insert_eq.
  - now rewrite lookup_insert_ne.
Qed.

Lemma well_formed_stored s u record :
  well_formed s -> has_ID record -> well_formed (stored s u record).
Proof.
  intros Hwf Hid u'. rewrite records_at_stored.
  destruct (decide (u = u')); [| apply Hwf].
  apply Forall_app. split; [apply Hwf | now constructor].
Qed.

Lemma has_room_stored s u record fuel k :
  has_room s fuel (S k) -> has_room (stored s u record) fuel k.
Proof.
  intros H u'. rewrite records_at_stored. specialize (H u') as H'.
  destruct (decide (u = u')) as [<-|]; [| lia].
  rewrite length_app. simpl. lia.
Qed.

Lemma has_room_less s fuel k : has_room s fuel (S k) -> has_room s fuel k.
Proof. intros H u. specialize (H u). lia. Qed.

Lemma page_count_fits (n fuel : nat) :
  (n <= 250 * fuel)%nat -> (1 <= fuel)%nat -> (page_count n <= fuel)%nat.
Proof.
  intros Hn Hf. unfold page_count.
  destruct (ceiling_250 n) as (q & r & -> & E & B). lia.
Qed.

Lemma page_requests_read_only access_token url columns_param first count :
  Forall read_only (page_requests access_token url columns_param first count).
Proof. apply Forall_fmap, Forall_forall. intros i _. reflexivity. Qed.

Section Simulated.

Context (COMPANY_DOMAIN access_token : string).
Context (repr_container : value -> string).
Context (set_order : gset string -> list string).

Local Abbreviation type_url := (type_url COMPANY_DOMAIN repr_container).
Local Abbreviation post_request := (post_request access_token).
Local Abbreviation create :=
  (create COMPANY_DOMAIN access_token repr_container simulated_serve).
Local Abbreviation list_all :=
  (list_all COMPANY_DOMAIN access_token repr_container set_order simulated_serve).

Lemma list_all_simulated fuel cls parent u (s : simulated) lg :
  plain cls = true ->
  plain_instance parent = true ->
  type_url cls parent = Ok (VStr u) ->
  well_formed s -> has_room s fuel 0 -> (1 <= fuel)%nat ->
  exists added,
    (list_all fuel cls parent None).2 {| srv := s; log := lg |}
    = (Ok (instance_of cls parent <$> records_at s u),
       {| srv := s; log := lg ++ added |})
    /\ Forall read_only added.
Proof.
  intros Hp Hparent Hu Hwf Hroom Hfuel. eexists. split.
  - rewrite list_all_plain by exact Hp. simpl.
    apply _list_all_simulated; [exact Hp | exact Hparent | exact Hu | apply Hwf |].
    apply page_count_fits; [| exact Hfuel]. specialize (Hroom u). lia.
  - apply page_requests_read_only.
Qed.

Lemma create_simulated cls parent attributes u (s : simulated) lg :
  plain cls = true ->
  type_url cls parent = Ok (VStr u) ->
  let sent_attributes := match attributes with None => ∅ | Some a => a end in
  let record := <["ID" := VInt (next_id s)]> sent_attributes in
  create cls parent attributes {| srv := s; log := lg |}
  = (Ok (instance_of cls parent record),
     {| srv := stored s u record;
        log := lg ++ [post_request u sent_attributes] |}).
Proof.
  intros Hp Hu sent_attributes record. rewrite create_plain by exact Hp.
  unfold SimProObject__create, bind, lift, requests_post, send. rewrite Hu. simpl.
  unfold decode, instance_of. simpl. fold sent_attributes. fold record.
  assert (record !! "ID" = Some (VInt (next_id s))) as ->
    by apply lookup_insert_eq.
  simpl. now rewrite (new_plain _ _ _ _ Hp).
Qed.

Lemma built_is_instance cls i parent a :
  exists j, built cls i parent a = Obj cls j parent a.
Proof. destruct cls; eexists; reflexivity. Qed.

Lemma plain_instance_of cls parent record :
  plain_instance (instance_of cls parent record) = plain cls.
Proof.
  unfold instance_of.
  now destruct (built_is_instance cls (default VNone (record !! "ID")) parent
                  (delete "ID" record)) as [j ->].
Qed.

Lemma type_url_instance cls parent u record cls' suffix :
  plain cls = true ->
  type_url cls parent = Ok (VStr u) ->
  type_url_suffix cls' = Ok suffix ->
  exists u', type_url cls' (instance_of cls parent record) = Ok (VStr u').
Proof.
  intros Hc Hu Hs. unfold instance_of.
  destruct (built_is_instance cls (default VNone (record !! "ID")) parent
              (delete "ID" record)) as [j ->].
  unfold type_url in *. simpl.
  rewrite (plain_shadows cls "__getattribute__" Hc) by reflexivity.
  pose proof (plain_shadows cls "obj_url" Hc eq_refl) as Ho.
  unfold shadows in Ho. destruct (data_entry cls "obj_url"); [discriminate |].
  destruct (obj_url _ _ parent) as [pu| |]; try discriminate.
  simpl in *. rewrite Hu. simpl.
  rewrite add_type_url_suffix_str, Hs. simpl. eexists. reflexivity.
Qed.

End Simulated.

(** ** The default section and cost center *)

Section EnsureChildren.

Context (COMPANY_DOMAIN access_token : string).
Context (repr_container : value -> string).
Context (set_order : gset string -> list string).
Context (Section JobCostCenter : PyClass).

Local Abbreviation type_url := (type_url COMPANY_DOMAIN repr_container).
Local Abbreviation ensure_section :=
  (ensure_section COMPANY_DOMAIN access_token repr_container set_order
     simulated_serve Section).
Local Abbreviation ensure_cost_center :=
  (ensure_cost_center COMPANY_DOMAIN access_token repr_container set_order
     simulated_serve JobCostCenter).
Local Abbreviation ensure_default_children :=
  (ensure_default_children COMPANY_DOMAIN access_token repr_container set_order
     simulated_serve Section JobCostCenter).

Lemma ensure_section_simulated fuel job u (s : simulated) lg :
  plain Section = true ->
  plain_instance job = true ->
  type_url Section job = Ok (VStr u) ->
  well_formed s -> has_room s fuel 0 -> (1 <= fuel)%nat ->
  exists record s' added,
    ensure_section fuel job {| srv := s; log := lg |}
    = (Ok (instance_of Section job record), {| srv := s'; log := lg ++ added |})
    /\ head (records_at s' u) = Some record
    /\ has_ID record
    /\ (records_at s u = [] -> s' = stored s u record)
    /\ (records_at s u <> [] -> s' = s /\ Forall read_only added).
Proof.
  intros Hp Hjob Hu Hwf Hroom Hfuel.
  destruct (list_all_simulated COMPANY_DOMAIN access_token repr_container
              set_order fuel Section job u s lg Hp Hjob Hu Hwf Hroom Hfuel)
    as (gets & Hlist & Hgets).
  unfold ensure_section, bind. rewrite Hlist.
  destruct (records_at s u) as [|record rest] eqn:Hrecords; simpl.
  - rewrite (create_simulated COMPANY_DOMAIN access_token repr_container
               Section job None u s (lg ++ gets) Hp Hu).
    eexists _, _, _. split; [rewrite <- app_assoc; reflexivity |].
    split; [| split; [| split]].
    + rewrite records_at_stored, decide_True by reflexivity.
      now rewrite Hrecords.
    + eexists. apply lookup_insert_eq.
    + reflexivity.
    + intros Hne. now contradiction Hne.
  - exists record, s, gets. split; [reflexivity |].
    split; [| split; [| split]].
    + now rewrite Hrecords.
    + specialize (Hwf u). rewrite Hrecords in Hwf. now inversion Hwf.
    + discriminate.
    + intros _. split; [reflexivity | exact Hgets].
Qed.

Lemma ensure_cost_center_simulated fuel section u (s : simulated) lg :
  plain JobCostCenter = true ->
  plain_instance section = true ->
  type_url JobCostCenter section = Ok (VStr u) ->
  well_formed s -> has_room s fuel 0 -> (1 <= fuel)%nat ->
  exists s' added,
    ensure_cost_center fuel section {| srv := s; log := lg |}
    = (Ok tt, {| srv := s'; log := lg ++ added |})
    /\ records_at s' u <> []
    /\ (records_at s u = [] -> exists record, has_ID record /\ s' = stored s u record)
    /\ (records_at s u <> [] -> s' = s /\ Forall read_only added).
Proof.
  intros Hp Hsection Hu Hwf Hroom Hfuel.
  destruct (list_all_simulated COMPANY_DOMAIN access_token repr_container
              set_order fuel JobCostCenter section u s lg Hp Hsection Hu Hwf
              Hroom Hfuel)
    as (gets & Hlist & Hgets).
  unfold ensure_cost_center, bind. rewrite Hlist.
  destruct (records_at s u) as [|record rest] eqn:Hrecords; simpl.
  - rewrite (create_simulated COMPANY_DOMAIN access_token repr_container
               JobCostCenter section (Some _) u s (lg ++ gets) Hp Hu).
    unfold ret. eexists _, _. split; [rewrite <- app_assoc; reflexivity |].
    split; [| split].
    + rewrite records_at_stored, decide_True by reflexivity.
      rewrite Hrecords. discriminate.
    + intros _. eexists. split; [| reflexivity].
      eexists. apply lookup_insert_eq.
    + intros Hne. now contradiction Hne.
  - exists s, gets. split; [reflexivity |]. split; [| split].
    + rewrite Hrecords. discriminate.
    + discriminate.
    + intros _. split; [reflexivity | exact Hgets].
Qed.

(** C8.  With [Section] and [JobCostCenter] classes that take their
    members from [SimProObject], run against a job on the simulated
    server, the block succeeds, and running it again afterwards succeeds
    too, sends list requests only and leaves the server as the first run
    left it.  After either run the job has a first section, and that
    section has a cost center: the job's sections are those it had
    before, exactly one when it had none, and the cost centers of the
    section are those it had before, exactly one when it had none. *)
Theorem ensure_default_children_idempotent fuel job u suffix (s : simulated) lg :
  plain Section = true ->
  plain JobCostCenter = true ->
  plain_instance job = true ->
  type_url Section job = Ok (VStr u) ->
  type_url_suffix JobCostCenter = Ok suffix ->
  well_formed s -> has_room s fuel 2 -> (1 <= fuel)%nat ->
  exists w1 added section cu,
    ensure_default_children fuel job {| srv := s; log := lg |} = (Ok tt, w1)
    /\ ensure_default_children fuel job w1
       = (Ok tt, {| srv := srv w1; log := log w1 ++ added |})
    /\ Forall read_only added
    /\ head (records_at (srv w1) u) = Some section
    /\ (records_at s u = [] -> length (records_at (srv w1) u) = 1%nat)
    /\ (records_at s u <> [] -> records_at (srv w1) u = records_at s u)
    /\ type_url JobCostCenter (instance_of Section job section) = Ok (VStr cu)
    /\ records_at (srv w1) cu <> []
    /\ (records_at s cu = [] -> length (records_at (srv w1) cu) = 1%nat)
    /\ (records_at s cu <> [] -> records_at (srv w1) cu = records_at s cu).
Proof.
  intros HS HC Hjob Hu Hsuffix Hwf Hroom Hfuel.
  (* first run: the section *)
  destruct (ensure_section_simulated fuel job u s lg HS Hjob Hu Hwf
              (has_room_less _ _ _ (has_room_less _ _ _ Hroom)) Hfuel)
    as (record & s1 & added1 & Hsec & Hhead1 & Hid & Hnew1 & Hold1).
  assert (well_formed s1 /\ has_room s1 fuel 1) as [Hwf1 Hroom1].
  { destruct (records_at s u) eqn:E.
    - rewrite (Hnew1 eq_refl). split;
        [now apply well_formed_stored | now apply has_room_stored].
    - destruct Hold1 as [-> _]; [discriminate |].
      split; [exact Hwf | now apply has_room_less]. }
  (* first run: the cost center *)
  destruct (type_url_instance COMPANY_DOMAIN repr_container Section job u record
              JobCostCenter suffix HS Hu Hsuffix) as [cu Hcu].
  assert (plain_instance (instance_of Section job record) = true) as Hsection
    by now rewrite plain_instance_of.
  destruct (ensure_cost_center_simulated fuel _ cu s1 (lg ++ added1) HC Hsection
              Hcu Hwf1 (has_room_less _ _ _ Hroom1) Hfuel)
    as (s2 & added2 & Hcc & Hfilled & Hnew2 & Hold2).
  assert (well_formed s2 /\ has_room s2 fuel 0 /\ records_at s2 u = records_at s1 u)
    as (Hwf2 & Hroom2 & Hsame).
  { destruct (records_at s1 cu) eqn:E.
    - destruct (Hnew2 eq_refl) as (cc & Hcc_id & ->).
      split; [now apply well_formed_stored |].
      split; [now apply has_room_stored |].
      rewrite records_at_stored. destruct (decide (cu = u)) as [->|]; [| reflexivity].
      rewrite E in Hhead1. discriminate Hhead1.
    - destruct Hold2 as [-> _]; [discriminate |].
      split; [exact Hwf1 |]. split; [now apply has_room_less | reflexivity]. }
  assert (records_at s2 u <> []) as Hsections.
  { rewrite Hsame. intros E. rewrite E in Hhead1. discriminate Hhead1. }
  (* second run *)
  destruct (ensure_section_simulated fuel job u s2 ((lg ++ added1) ++ added2)
              HS Hjob Hu Hwf2 Hroom2 Hfuel)
    as (record' & s3 & added3 & Hsec' & Hhead3 & _ & _ & Hold3).
  destruct (Hold3 Hsections) as [-> Hread3].
  assert (record' = record) as ->.
  { rewrite Hsame, Hhead1 in Hhead3. now inversion Hhead3. }
  destruct (ensure_cost_center_simulated fuel _ cu s2
              (((lg ++ added1) ++ added2) ++ added3) HC Hsection Hcu Hwf2 Hroom2
              Hfuel)
    as (s4 & added4 & Hcc' & _ & _ & Hold4).
  destruct (Hold4 Hfilled) as [-> Hread4].
  exists {| srv := s2; log := (lg ++ added1) ++ added2 |}, (added3 ++ added4),
    record, cu.
  split; [| split; [| split; [| split; [| split; [| split; [| split;
    [| split; [| split]]]]]]]].
  - unfold ensure_default_children, bind. now rewrite Hsec, Hcc.
  - unfold ensure_default_children, bind. simpl srv. simpl log.
    rewrite Hsec', Hcc'. now rewrite <- app_assoc.
  - apply Forall_app. now split.
  - simpl. now rewrite Hsame.
  - intros E. simpl. rewrite Hsame, (Hnew1 E), records_at_stored.
    rewrite decide_True by reflexivity. rewrite E. reflexivity.
  - intros Hne. simpl. rewrite Hsame. now destruct (Hold1 Hne) as [-> _].
  - exact Hcu.
  - exact Hfilled.
  - intros E. simpl.
    destruct (records_at s1 cu) as [|c l] eqn:E1.
    + destruct (Hnew2 eq_refl) as (cc & _ & ->).
      rewrite records_at_stored, decide_True by reflexivity.
      now rewrite E1.
    + destruct Hold2 as [-> _]; [discriminate |].
      destruct (records_at s u) as [|r l'] eqn:Eu.
      * rewrite (Hnew1 eq_refl), records_at_stored in E1 |- *.
        destruct (decide (u = cu)) as [<-|]; [| rewrite E in E1; discriminate E1].
        now rewrite Eu.
      * destruct Hold1 as [-> _]; [discriminate |].
        rewrite E in E1. discriminate E1.
  - intros Hne. simpl.
    assert (records_at s1 cu = records_at s cu) as E1.
    { destruct (records_at s u) as [|r l'] eqn:Eu.
      - rewrite (Hnew1 eq_refl), records_at_stored.
        destruct (decide (u = cu)) as [<-|]; [| reflexivity].
        now contradiction Hne.
      - now destruct Hold1 as [-> _]. }
    destruct Hold2 as [-> _]; [now rewrite E1 | exact E1].
Qed.

End EnsureChildren.

Lemma empty_store_well_formed : well_formed empty_store.
Proof. intros u. unfold records_at. simpl. rewrite lookup_empty. constructor. Qed.

Lemma empty_store_has_room : has_room empty_store 1 2.
Proof. intros u. unfold records_at. simpl. rewrite lookup_empty. simpl. lia. Qed.

Lemma ensure_default_children_idempotent_witness :
  exists w1 added section cu,
    ensure_default_children example_domain example_token example_repr
      example_set_order simulated_serve example_Section example_JobCostCenter
      1 example_job {| srv := empty_store; log := [] |} = (Ok tt, w1)
    /\ ensure_default_children example_domain example_token example_repr
         example_set_order simulated_serve example_Section example_JobCostCenter
         1 example_job w1
       = (Ok tt, {| srv := srv w1; log := log w1 ++ added |})
    /\ Forall read_only added
    /\ head (records_at (srv w1) example_sections_url) = Some section
    /\ (records_at empty_store example_sections_url = [] ->
        length (records_at (srv w1) example_sections_url) = 1%nat)
    /\ (records_at empty_store example_sections_url <> [] ->
        records_at (srv w1) example_sections_url
        = records_at empty_store example_sections_url)
    /\ type_url example_domain example_repr example_JobCostCenter
         (instance_of example_Section example_job section) = Ok (VStr cu)
    /\ records_at (srv w1) cu <> []
    /\ (records_at empty_store cu = [] ->
        length (records_at (srv w1) cu) = 1%nat)
    /\ (records_at empty_store cu <> [] ->
        records_at (srv w1) cu = records_at empty_store cu).
Proof.
  apply (ensure_default_children_idempotent example_domain example_token
           example_repr example_set_order example_Section example_JobCostCenter
           1 example_job example_sections_url "/costCenters/" empty_store []);
    [reflexivity | reflexivity | reflexivity | reflexivity | reflexivity
     | exact empty_store_well_formed | exact empty_store_has_room | lia].
Defined.

(** Two runs from the empty server: one section and one cost center exist
    after the first run and after the second. *)
Example ensure_default_children_twice :
  let run := ensure_default_children example_domain example_token example_repr
               example_set_order simulated_serve example_Section
               example_JobCostCenter 1 example_job in
  let w1 := (run {| srv := empty_store; log := [] |}).2 in
  let w2 := (run w1).2 in
  length (records_at (srv w1) example_sections_url) = 1%nat
  /\ length (records_at (srv w1) example_cost_centers_url) = 1%nat
  /\ length (records_at (srv w2) example_sections_url) = 1%nat
  /\ length (records_at (srv w2) example_cost_centers_url) = 1%nat
  /\ srv w2 = srv w1.
Proof. vm_compute. repeat split. Qed.

(** * Further properties *)

(** ** Addresses *)

Lemma type_url_suffix_cases (cls : PyClass) :
  has_suffix cls \/ (type_url_suffix cls = Raise TypeError /\ ~ has_suffix cls).
Proof.
  unfold has_suffix. destruct cls as [|name bases definitions]; simpl.
  - left. eexists. reflexivity.
  - destruct (definitions !! "type_url_suffix") as [[]|];
      try (right; split; [reflexivity | intros [s Hs]; discriminate Hs]).
    left. eexists. reflexivity.
Qed.

Lemma str_int_inj (i j : Z) : str_int i = str_int j -> i = j.
Proof.
  unfold str_int. intros H. apply DecimalZ.to_int_inj.
  assert (forall z, NilZero.int_of_string (NilZero.string_of_int (Z.to_int z))
                    = Some (Z.to_int z)) as Hparse.
  { intros z. apply NilZero.isi; destruct z as [|p|p]; simpl; try discriminate;
      intros [= Hp]; now apply (DecimalPos.Unsigned.to_uint_nonnil p). }
  pose proof (Hparse i) as Hi. rewrite H, Hparse in Hi. now inversion Hi.
Qed.

Section AddressFacts.

Context (COMPANY_DOMAIN access_token : string).
Context (repr_container : value -> string).
Context (set_order : gset string -> list string).
Context {server : Type}.
Context (serve : request -> server -> option response * server).

Local Abbreviation obj_url := (obj_url COMPANY_DOMAIN repr_container).
Local Abbreviation type_url := (type_url COMPANY_DOMAIN repr_container).

Lemma py_add_outcome (a b : value) :
  (exists v, py_add a b = Ok v) \/ py_add a b = Raise TypeError.
Proof. destruct a, b; simpl; (now right) || (left; eexists; reflexivity). Qed.

Lemma add_type_url_suffix_outcome (address : value) (cls : PyClass) :
  (exists v, add_type_url_suffix address cls = Ok v)
  \/ add_type_url_suffix address cls = Raise TypeError.
Proof.
  unfold add_type_url_suffix.
  destruct (data_entry cls "type_url_suffix"); [apply py_add_outcome | now right].
Qed.

Lemma obj_url_outcome (o : obj) :
  (exists v, obj_url o = Ok v) \/ obj_url o = Raise TypeError.
Proof.
  induction o as [|cls i parent IH attributes]; simpl.
  - left. eexists. reflexivity.
  - destruct (shadows cls "__getattribute__"); [now right |].
    destruct (data_entry cls "obj_url"); [left; eexists; reflexivity |].
    destruct IH as [[pu ->] | ->]; simpl; [| now right].
    destruct (add_type_url_suffix_outcome pu cls) as [[t ->] | ->]; simpl;
      [| now right].
    apply py_add_outcome.
Qed.

Lemma type_url_outcome cls parent :
  (exists v, type_url cls parent = Ok v) \/ type_url cls parent = Raise TypeError.
Proof.
  unfold type_url. destruct (obj_url_outcome parent) as [[pu ->] | ->]; simpl;
    [apply add_type_url_suffix_outcome | now right].
Qed.

Lemma obj_url_cases (o : obj) :
  forallb plain (class_chain o) = true ->
  ((exists u, obj_url o = Ok (VStr u)) /\ Forall has_suffix (class_chain o))
  \/ (obj_url o = Raise TypeError /\ ~ Forall has_suffix (class_chain o)).
Proof.
  induction o as [|cls i parent IH attributes].
  - intros _. left. split; [eexists; reflexivity | constructor].
  - simpl class_chain. rewrite forallb_app. simpl forallb.
    intros Hplain. apply andb_true_iff in Hplain as [Hparent Hc].
    apply andb_true_iff in Hc as [Hc _].
    destruct (IH Hparent) as [[[pu Hp] Hchain] | [Hp Hchain]].
    + destruct (type_url_suffix_cases cls) as [[s Hs] | [Hs Hno]].
      * left. rewrite (obj_url_step _ _ cls i parent attributes pu s Hc Hp Hs).
        split; [eexists; reflexivity |].
        apply Forall_app. split; [exact Hchain |].
        constructor; [now exists s | constructor].
      * right. split.
        -- simpl. rewrite (plain_shadows cls "__getattribute__" Hc) by reflexivity.
           pose proof (plain_shadows cls "obj_url" Hc eq_refl) as Ho.
           unfold shadows in Ho.
           destruct (data_entry cls "obj_url"); [discriminate |].
           rewrite Hp. simpl. now rewrite add_type_url_suffix_str, Hs.
        -- intros HF. apply Forall_app in HF as [_ HF]. now inversion HF.
    + right. split.
      * simpl. rewrite (plain_shadows cls "__getattribute__" Hc) by reflexivity.
        pose proof (plain_shadows cls "obj_url" Hc eq_refl) as Ho.
        unfold shadows in Ho.
        destruct (data_entry cls "obj_url"); [discriminate |].
        now rewrite Hp.
      * intros HF. apply Forall_app in HF as [HF _]. now apply Hchain.
Qed.

(** X1.  When the classes on the parent chain of an instance, its own
    included, take [obj_url] from [SimProObject], [obj_url] gives an
    address, a string, exactly when each of them has a string
    [type_url_suffix]; otherwise it raises [TypeError], and it raises
    nothing else. *)
Theorem obj_url_defined_iff_suffixes (o : obj) :
  forallb plain (class_chain o) = true ->
  ((exists u, obj_url o = Ok (VStr u)) <-> Forall has_suffix (class_chain o))
  /\ (forall v, obj_url o = Ok v -> exists u, v = VStr u)
  /\ (forall e, obj_url o = Raise e -> e = TypeError)
  /\ obj_url o <> Diverge.
Proof.
  intros Hplain.
  destruct (obj_url_cases o Hplain) as [[[u Hu] Hchain] | [Hu Hchain]].
  - split; [split; [intros _; exact Hchain | intros _; now exists u] |].
    rewrite Hu. split; [| split; [discriminate | discriminate]].
    intros v [= <-]. now exists u.
  - split; [split; [intros [u Hu']; congruence | intros HF; contradiction] |].
    rewrite Hu. split; [discriminate | split; [now intros e [= <-] | discriminate]].
Qed.

Lemma type_url_error cls parent e :
  type_url cls parent = Raise e -> e = TypeError.
Proof.
  destruct (type_url_outcome cls parent) as [[v ->] | ->];
    [discriminate | now intros [= <-]].
Qed.

(** X2.  When the address of a collection cannot be formed, listing,
    creating and retrieving raise [TypeError] without sending anything:
    the log and the server are as before. *)
Theorem address_error_sends_nothing fuel cls parent columns attributes
    record_id e (w : @world server) :
  type_url cls parent = Raise e ->
  e = TypeError
  /\ (list_all COMPANY_DOMAIN access_token repr_container set_order serve
        fuel cls parent columns).2 w = (Raise TypeError, w)
  /\ create COMPANY_DOMAIN access_token repr_container serve
       cls parent attributes w = (Raise TypeError, w)
  /\ (retrieve COMPANY_DOMAIN access_token repr_container set_order serve
        cls record_id parent columns).2 w = (Raise TypeError, w).
Proof.
  intros Hu. pose proof (type_url_error _ _ _ Hu) as ->.
  split; [reflexivity | split; [| split]].
  - assert (forall l,
               (_list_all COMPANY_DOMAIN access_token repr_container set_order
                  serve fuel cls parent l).2 w = (Raise TypeError, w)) as H_list_all.
    { intros l. unfold _list_all, SimProObject__list_all.
      destruct (shadows cls "_list_all"); [reflexivity |].
      destruct (shadows cls "_columns_to_params"); [reflexivity |].
      simpl. unfold bind, lift. now rewrite Hu. }
    unfold list_all, Company_list_all, SimProObject_list_all.
    destruct cls as [|name bases definitions].
    + specialize (H_list_all
                    ("Name" :: match columns with None => [] | Some l => l end)).
      now destruct (_list_all _ _ _ _ _ _ _ _ _).
    + destruct (shadows _ "list_all"); [reflexivity |].
      specialize (H_list_all (match columns with None => [] | Some l => l end)).
      now destruct (_list_all _ _ _ _ _ _ _ _ _).
  - unfold create, SimProObject_create, _create, SimProObject__create.
    destruct (shadows cls "create"); [reflexivity |].
    destruct (shadows cls "_create"); [reflexivity |].
    unfold bind, lift. now rewrite Hu.
  - unfold retrieve, SimProObject_retrieve, _retrieve, SimProObject__retrieve.
    destruct (shadows cls "retrieve"); [reflexivity |].
    destruct (shadows cls "_retrieve"); [reflexivity |].
    destruct (shadows cls "_columns_to_params"); [reflexivity |].
    simpl. unfold bind, lift. now rewrite Hu.
Qed.

(** X3.  Two instances of one class that takes [obj_url] from
    [SimProObject], under one parent and with different integer ids,
    never have the same address. *)
Theorem sibling_addresses_differ cls parent (i j : Z) a b u :
  plain cls = true ->
  obj_url (Obj cls (VInt i) parent a) = Ok u ->
  obj_url (Obj cls (VInt j) parent b) = Ok u ->
  i = j.
Proof.
  intros Hc. simpl.
  rewrite (plain_shadows cls "__getattribute__" Hc) by reflexivity.
  pose proof (plain_shadows cls "obj_url" Hc eq_refl) as Ho.
  unfold shadows in Ho. destruct (data_entry cls "obj_url"); [discriminate |].
  destruct (obj_url parent) as [pu| |]; simpl; try discriminate.
  destruct (add_type_url_suffix pu cls) as [t| |]; simpl; try discriminate.
  destruct t; simpl; try discriminate.
  intros [= <-] [= H].
  apply String.app_inj in H.
  symmetry. now apply str_int_inj.
Qed.

(** X4.  A company decoded from a record whose id is falsy ([None], [0],
    [False], an empty string or container) gets the id 0, and its address
    is the parent's followed by /companies/0. *)
Theorem company_falsy_id_is_zero (d : gmap string value) (i : value) parent pu :
  d !! "ID" = Some i ->
  truthy i = false ->
  obj_url parent = Ok (VStr pu) ->
  decode Company parent (VDict d)
  = Ok (Obj Company (VInt 0) parent (delete "ID" d))
  /\ obj_url (Obj Company (VInt 0) parent (delete "ID" d))
     = Ok (VStr (pu +:+ "/companies/" +:+ "0")).
Proof.
  intros Hd Hi Hp. split.
  - unfold decode. simpl. rewrite Hd. simpl. unfold new. simpl. now rewrite Hi.
  - apply (obj_url_step _ _ Company (VInt 0) parent _ pu "/companies/");
      [reflexivity | exact Hp | reflexivity].
Qed.

End AddressFacts.

Lemma obj_url_defined_iff_suffixes_witness :
  Forall has_suffix (class_chain example_customer).
Proof.
  exact (proj1 (proj1 (obj_url_defined_iff_suffixes example_domain example_repr
                         example_customer eq_refl))
           (ex_intro _
              "https://acme.simprosuite.com/api/v1.0/companies/0/customers/companies/7"
              eq_refl)).
Defined.

Lemma address_error_sends_nothing_witness :
  TypeError = TypeError
  /\ (list_all example_domain example_token example_repr example_set_order
        scripted_serve 1 (Generated "Broken" [] ∅) example_company None).2
       (scripted_world []) = (Raise TypeError, scripted_world [])
  /\ create example_domain example_token example_repr scripted_serve
       (Generated "Broken" [] ∅) example_company None (scripted_world [])
     = (Raise TypeError, scripted_world [])
  /\ (retrieve example_domain example_token example_repr example_set_order
        scripted_serve (Generated "Broken" [] ∅) (VInt 1) example_company None).2
       (scripted_world []) = (Raise TypeError, scripted_world []).
Proof.
  apply (address_error_sends_nothing example_domain example_token example_repr
           example_set_order scripted_serve 1 (Generated "Broken" [] ∅)
           example_company None None (VInt 1) TypeError (scripted_world [])).
  reflexivity.
Defined.

Lemma sibling_addresses_differ_witness : 12 = 12.
Proof.
  apply (sibling_addresses_differ example_domain example_repr example_Site
           example_customer 12 12 ∅ ∅
           (VStr "https://acme.simprosuite.com/api/v1.0/companies/0/customers/companies/7/sites/12"));
    reflexivity.
Defined.

Lemma company_falsy_id_is_zero_witness :
  decode Company Parentless (VDict {[ "ID" := VNone; "Name" := VStr "Head office" ]})
  = Ok (Obj Company (VInt 0) Parentless
          (delete "ID" {[ "ID" := VNone; "Name" := VStr "Head office" ]}))
  /\ obj_url example_domain example_repr
       (Obj Company (VInt 0) Parentless
          (delete "ID" {[ "ID" := VNone; "Name" := VStr "Head office" ]}))
     = Ok (VStr ("https://acme.simprosuite.com/api/v1.0" +:+ "/companies/" +:+ "0")).
Proof.
  apply (company_falsy_id_is_zero example_domain example_repr
           {[ "ID" := VNone; "Name" := VStr "Head office" ]} VNone Parentless
           "https://acme.simprosuite.com/api/v1.0");
    reflexivity.
Defined.

(** ** Columns *)

(** X5.  Whenever a set is iterated without repeating or dropping elements,
    the [columns] parameter is the comma-joined list of the requested
    columns and ["ID"], each name once, however often the caller listed
    it. *)
Theorem columns_param_has_ID_once (set_order : gset string -> list string)
    (columns : option (list string)) :
  (forall s, set_order s ≡ₚ elements s) ->
  exists names,
    (_columns_to_params set_order columns).1 = str_join "," names
    /\ NoDup names
    /\ "ID" ∈ names
    /\ forall x, x ∈ names
                 <-> x = "ID" \/ x ∈ match columns with None => [] | Some l => l end.
Proof.
  intros Hperm.
  set (l := match columns with None => [] | Some l => l end).
  exists (set_order (list_to_set (l ++ ["ID"]))).
  assert (forall x, x ∈ set_order (list_to_set (l ++ ["ID"])) <-> x = "ID" \/ x ∈ l)
    as Hmem.
  { intros x. rewrite (Hperm _), elem_of_elements, elem_of_list_to_set,
      elem_of_app, list_elem_of_singleton. tauto. }
  split; [destruct columns; reflexivity |].
  split; [rewrite (Hperm _); apply NoDup_elements |].
  split; [apply Hmem; now left | exact Hmem].
Qed.

Lemma columns_param_has_ID_once_witness :
  exists names,
    (_columns_to_params example_set_order (Some ["Name"; "ID"; "Name"])).1
    = str_join "," names
    /\ NoDup names
    /\ "ID" ∈ names
    /\ forall x, x ∈ names <-> x = "ID" \/ x ∈ ["Name"; "ID"; "Name"].
Proof.
  apply (columns_param_has_ID_once example_set_order (Some ["Name"; "ID"; "Name"])).
  intros s. reflexivity.
Defined.

(** ** Decoding *)

(** X6.  For a class that takes its constructor from [SimProObject] (or
    is [Company]), decoding succeeds exactly on a JSON object with an
    ["ID"].  The instance belongs to the class and parent asked for, its
    attributes are the object without ["ID"], and for a generated class
    putting the id back gives the object the server sent.  An object
    without ["ID"] raises [KeyError]. *)
Theorem decode_round_trip (cls : PyClass) (parent : obj) (v : value) :
  plain cls = true ->
  (forall (d : gmap string value) i,
      v = VDict d -> d !! "ID" = Some i ->
      exists j,
        decode cls parent v = Ok (Obj cls j parent (delete "ID" d))
        /\ (delete "ID" d : gmap string value) !! "ID" = None
        /\ (cls <> Company -> j = i /\ <["ID" := j]> (delete "ID" d) = d)
        /\ (cls = Company -> j = if truthy i then i else VInt 0))
  /\ (forall o, decode cls parent v = Ok o ->
        exists (d : gmap string value) i, v = VDict d /\ d !! "ID" = Some i)
  /\ (forall d : gmap string value,
        v = VDict d -> d !! "ID" = None ->
        decode cls parent v = Raise (KeyError "ID")).
Proof.
  intros Hp. split; [| split].
  - intros d i -> Hi. rewrite (decode_plain cls parent d i Hp Hi).
    destruct cls as [|name bases definitions]; simpl.
    + eexists. split; [reflexivity |]. split; [apply lookup_delete_eq |].
      split; [intros H; now contradiction H | reflexivity].
    + exists i. split; [reflexivity |]. split; [apply lookup_delete_eq |].
      split; [| discriminate].
      intros _. split; [reflexivity |].
      rewrite insert_delete_eq. now apply insert_id.
  - intros o. unfold decode. destruct v as [| | | | |d]; simpl; try discriminate.
    destruct (d !! "ID") as [i|] eqn:Hi; simpl; [| discriminate].
    intros _. now exists d, i.
  - intros d -> Hd. unfold decode. simpl. now rewrite Hd.
Qed.

Lemma decode_round_trip_witness :
  exists j,
    decode example_Site example_customer (VDict example_depot_record)
    = Ok (Obj example_Site j example_customer (delete "ID" example_depot_record))
    /\ delete "ID" example_depot_record !! "ID" = None
    /\ (example_Site <> Company ->
        j = VInt 5
        /\ <["ID" := j]> (delete "ID" example_depot_record) = example_depot_record)
    /\ (example_Site = Company -> j = if truthy (VInt 5) then VInt 5 else VInt 0).
Proof.
  apply (proj1 (decode_round_trip example_Site example_customer
                  (VDict example_depot_record) eq_refl));
    reflexivity.
Defined.

(** A class built with data under [__init__] cannot be instantiated: a
    record with an ["ID"] raises [TypeError], one without still raises
    [KeyError]. *)
Example decode_with_shadowed_init :
  let cls := Generated "Site" [] {[ "type_url_suffix" := VStr "/sites/";
                                    "__init__" := VNone ]} in
  decode cls example_customer (VDict {[ "ID" := VInt 5 ]}) = Raise TypeError
  /\ decode cls example_customer (VDict ∅) = Raise (KeyError "ID").
Proof. split; reflexivity. Qed.

Lemma decode_each_missing_ID cls parent (records : list (gmap string value)) acc :
  plain cls = true ->
  ~ Forall has_ID records ->
  decode_each cls parent (VDict <$> records) acc = Raise (KeyError "ID").
Proof.
  intros Hp. revert acc. induction records as [|r records IH]; intros acc Hnot.
  - contradiction Hnot. constructor.
  - simpl. unfold decode at 1. simpl.
    destruct (r !! "ID") as [i|] eqn:Hi; simpl; [| reflexivity].
    rewrite (new_plain _ _ _ _ Hp). simpl.
    apply IH. intros HF. apply Hnot. constructor; [now exists i | exact HF].
Qed.

(** X7.  For a class that takes its constructor from [SimProObject], a
    page of records is decoded as a whole or not at all: when every record
    has an ["ID"] the instances come out in the order of the records,
    after those already collected; when one record lacks it the loop
    raises [KeyError] and nothing is returned. *)
Theorem decode_each_all_or_nothing cls parent
    (records : list (gmap string value)) acc :
  plain cls = true ->
  (Forall has_ID records ->
   decode_each cls parent (VDict <$> records) acc
   = Ok (acc ++ (instance_of cls parent <$> records)))
  /\ (~ Forall has_ID records ->
      decode_each cls parent (VDict <$> records) acc = Raise (KeyError "ID")).
Proof.
  intros Hp.
  split; [now apply decode_each_records | now apply decode_each_missing_ID].
Qed.

Lemma decode_each_all_or_nothing_witness :
  decode_each example_Job example_company
    (VDict <$> [ {[ "ID" := VInt 1 ]}; {[ "Name" := VStr "no id" ]} ]) []
  = Raise (KeyError "ID").
Proof.
  apply (proj2 (decode_each_all_or_nothing example_Job example_company
                  [ {[ "ID" := VInt 1 ]}; {[ "Name" := VStr "no id" ]} ] []
                  eq_refl)).
  intros HF. inversion HF as [|? ? _ HF']. inversion HF' as [|? ? [i Hi] _].
  discriminate Hi.
Defined.

(** ** Requests *)

Section RequestFacts.

Context (COMPANY_DOMAIN access_token : string).
Context (repr_container : value -> string).
Context (set_order : gset string -> list string).
Context {server : Type}.
Context (serve : request -> server -> option response * server).

Local Abbreviation obj_url := (obj_url COMPANY_DOMAIN repr_container).
Local Abbreviation type_url := (type_url COMPANY_DOMAIN repr_container).
Local Abbreviation post_request := (post_request access_token).
Local Abbreviation get_request := (get_request access_token).
Local Abbreviation page_requests := (page_requests access_token).
Local Abbreviation create := (create COMPANY_DOMAIN access_token repr_container serve).
Local Abbreviation retrieve :=
  (retrieve COMPANY_DOMAIN access_token repr_container set_order serve).
Local Abbreviation list_pages := (list_pages access_token serve).

(** X8.  [create] of a class that takes it from [SimProObject] sends
    exactly one request whatever the server answers: a POST to the
    collection's address whose JSON body is the attributes given, the
    empty object when none are given.  It never retries. *)
Theorem create_sends_one_request cls parent attributes u (w : @world server) :
  plain cls = true ->
  type_url cls parent = Ok (VStr u) ->
  exists outcome s,
    create cls parent attributes w
    = (outcome,
       sent w s (post_request u match attributes with None => ∅ | Some a => a end)).
Proof.
  intros Hp Hu.
  set (a := match attributes with None => ∅ | Some a => a end).
  assert (create cls parent attributes w = create cls parent (Some a) w) as ->
    by (now rewrite !create_plain by exact Hp).
  destruct (serve (post_request u a) (srv w)) as [[resp|] s] eqn:Hs.
  - destruct (ok resp) eqn:Hok.
    + eexists _, s.
      apply (create_decoded _ _ _ _ _ _ _ _ _ _ _ Hp Hu Hs Hok).
    + eexists _, s.
      apply (create_http_error _ _ _ _ _ _ _ _ _ _ _ Hp Hu Hs Hok).
  - eexists _, s. apply (create_no_reply _ _ _ _ _ _ _ _ _ _ Hp Hu Hs).
Qed.

Lemma obj_url_as_type_url cls i parent a u :
  plain cls = true ->
  obj_url (Obj cls i parent a) = Ok u ->
  exists collection,
    type_url cls parent = Ok collection
    /\ py_add collection (VStr (str repr_container i)) = Ok u.
Proof.
  intros Hc. unfold type_url. simpl.
  rewrite (plain_shadows cls "__getattribute__" Hc) by reflexivity.
  pose proof (plain_shadows cls "obj_url" Hc eq_refl) as Ho.
  unfold shadows in Ho. destruct (data_entry cls "obj_url"); [discriminate |].
  destruct (obj_url parent) as [pu| |]; simpl; try discriminate.
  destruct (add_type_url_suffix pu cls) as [t| |]; simpl; try discriminate.
  intros H. now exists t.
Qed.

(** X9.  [retrieve] with the id and parent of an instance, of a class
    that takes [retrieve] and [obj_url] from [SimProObject], sends its one
    request to the address that [obj_url] gives that instance. *)
Theorem retrieve_requests_obj_url cls i parent a columns u (w : @world server) :
  plain cls = true ->
  obj_url (Obj cls i parent a) = Ok (VStr u) ->
  exists outcome s columns_param,
    (retrieve cls i parent columns).2 w
    = (outcome, sent w s (get_request u {[ "columns" := VStr columns_param ]})).
Proof.
  intros Hp Hu. destruct (obj_url_as_type_url _ _ _ _ _ Hp Hu) as (c & Hc & Hadd).
  rewrite (retrieve_plain COMPANY_DOMAIN access_token repr_container set_order
             serve cls i parent columns Hp).
  unfold SimProObject__retrieve. unshadow Hp. simpl.
  unfold bind, lift, requests_get, send.
  rewrite Hc. simpl. rewrite Hadd. simpl.
  destruct (serve _ (srv w)) as [[resp|] s]; [| eexists _, s, _; reflexivity].
  destruct (raise_for_status resp); simpl; try (eexists _, s, _; reflexivity).
  destruct (response_json resp) as [v| |]; simpl;
    eexists _, s, _; reflexivity.
Qed.

(** X10.  The instance that [retrieve] returns, for a class that takes
    [retrieve] and its constructor from [SimProObject], takes its id from
    the ["ID"] of the record in the response, not from the id that was
    asked for. *)
Theorem retrieve_takes_id_from_response cls record_id parent columns u
    (w : @world server) resp s (d : gmap string value) j :
  plain cls = true ->
  type_url cls parent = Ok (VStr u) ->
  let columns_param :=
    (_columns_to_params set_order
       (Some (match columns with None => [] | Some l => l end))).1 in
  let r := get_request (u +:+ str repr_container record_id)
             {[ "columns" := VStr columns_param ]} in
  serve r (srv w) = (Some resp, s) ->
  ok resp = true ->
  body resp = Some (VDict d) ->
  d !! "ID" = Some j ->
  (retrieve cls record_id parent columns).2 w
  = (Ok (built cls j parent (delete "ID" d)), sent w s r).
Proof.
  intros Hp Hu columns_param r Hs Hok Hb Hj.
  subst r columns_param. simpl in Hs.
  rewrite (retrieve_plain COMPANY_DOMAIN access_token repr_container set_order
             serve cls record_id parent columns Hp).
  unfold SimProObject__retrieve. unshadow Hp. simpl.
  unfold bind, lift, requests_get. rewrite Hu. simpl.
  rewrite (send_reply _ _ _ _ _ Hs), (raise_for_status_ok _ Hok).
  unfold response_json. rewrite Hb. simpl.
  now rewrite (decode_plain cls parent d j Hp Hj).
Qed.

Lemma list_pages_http_error fuel cls parent url columns_param page acc
    (w : @world server) resp s :
  serve (get_request url (list_params columns_param page)) (srv w) = (Some resp, s) ->
  ok resp = false ->
  list_pages (S fuel) cls parent url columns_param (Some page) acc w
  = (Raise (HTTPError (status_code resp)),
     sent w s (get_request url (list_params columns_param page))).
Proof.
  intros Hs Hok. simpl. unfold bind, requests_get, lift.
  rewrite (send_reply _ _ _ _ _ Hs). now rewrite (raise_for_status_error _ Hok).
Qed.

(** X11.  Listing is all or nothing: when a page is read and announces a
    next one, and the next request is answered with a 4xx or 5xx status,
    [HTTPError] is raised after these two requests and the instances of
    the first page are not returned. *)
Theorem list_pages_fails_as_a_whole fuel cls parent url columns_param page acc
    (w : @world server) resp1 s1 v items acc' resp2 s2 :
  let r1 := get_request url (list_params columns_param page) in
  let r2 := get_request url (list_params columns_param (page + 1)) in
  serve r1 (srv w) = (Some resp1, s1) ->
  ok resp1 = true -> body resp1 = Some v -> iterate v = Ok items ->
  decode_each cls parent items acc = Ok acc' ->
  "next" ∈ links resp1 ->
  serve r2 s1 = (Some resp2, s2) ->
  ok resp2 = false ->
  list_pages (S (S fuel)) cls parent url columns_param (Some page) acc w
  = (Raise (HTTPError (status_code resp2)),
     {| srv := s2; log := log w ++ [r1; r2] |}).
Proof.
  intros r1 r2 H1 Hok1 Hb Hi Hd Hnext H2 Hok2. subst r1 r2.
  rewrite (list_pages_step access_token serve (S fuel) cls parent url
             columns_param page acc w resp1 s1 v items acc' H1 Hok1 Hb Hi Hd).
  rewrite bool_decide_eq_true_2 by exact Hnext.
  rewrite (list_pages_http_error fuel cls parent url columns_param (page + 1)
             acc' (sent w s1 _) resp2 s2 H2 Hok2).
  unfold sent. simpl. now rewrite <- app_assoc.
Qed.

Lemma log_sent_requests url columns_param p k (w w' : @world server) s :
  log w' = log (sent w s (get_request url (list_params columns_param p)))
           ++ page_requests url columns_param (p + 1) k ->
  log w' = log w ++ page_requests url columns_param p (S k).
Proof.
  intros H. rewrite H, page_requests_cons. unfold sent. simpl.
  now rewrite <- app_assoc.
Qed.

(** X12.  Whatever the server does, the requests of the loop are list
    requests for consecutive pages of one collection with one [columns]
    value, starting at the page the loop starts from; there are at most
    as many as the loop has iterations. *)
Theorem list_pages_requests_consecutive fuel cls parent url columns_param page
    acc (w : @world server) :
  exists k,
    (k <= fuel)%nat
    /\ log (list_pages fuel cls parent url columns_param (Some page) acc w).2
       = log w ++ page_requests url columns_param page k.
Proof.
  revert page acc w. induction fuel as [|fuel IH]; intros page acc w.
  - exists 0%nat. split; [lia |]. simpl. now rewrite app_nil_r.
  - assert (forall (o : res (list obj)) s,
               exists k, (k <= S fuel)%nat
                 /\ log (o, sent w s (get_request url (list_params columns_param page))).2
                    = log w ++ page_requests url columns_param page k) as Hstop.
    { intros o s. exists 1%nat. split; [lia |].
      apply (log_sent_requests url columns_param page 0 w _ s).
      simpl. now rewrite app_nil_r. }
    simpl. unfold bind, requests_get, send, lift.
    destruct (serve _ (srv w)) as [[resp|] s]; [| apply Hstop].
    destruct (raise_for_status resp); [| apply Hstop ..].
    destruct (res_bind (response_json resp) iterate) as [items| |];
      [| apply Hstop ..].
    destruct (decode_each cls parent items acc) as [acc'| |]; [| apply Hstop ..].
    destruct (bool_decide ("next" ∈ links resp)).
    + destruct (IH (page + 1) acc' (sent w s (get_request url
                                               (list_params columns_param page))))
        as (k & Hk & Hlog).
      exists (S k). split; [lia |].
      now apply (log_sent_requests url columns_param page k w _ s).
    + rewrite list_pages_done. apply Hstop.
Qed.

(** X13.  The loop has no page limit of its own: against a server that
    answers every list request with a readable page and a [next] link, it
    is still running after any number of iterations. *)
Theorem list_pages_never_stops_by_itself cls parent url columns_param :
  (forall page (s : server),
      exists resp s' v items,
        serve (get_request url (list_params columns_param page)) s = (Some resp, s')
        /\ ok resp = true /\ "next" ∈ links resp
        /\ body resp = Some v /\ iterate v = Ok items
        /\ forall acc, exists acc', decode_each cls parent items acc = Ok acc') ->
  forall fuel page acc (w : @world server),
    (list_pages fuel cls parent url columns_param (Some page) acc w).1 = Diverge.
Proof.
  intros Hserve fuel. induction fuel as [|fuel IH]; intros page acc w.
  - reflexivity.
  - destruct (Hserve page (srv w)) as (resp & s' & v & items & Hs & Hok & Hnext
                                        & Hb & Hi & Hd).
    destruct (Hd acc) as [acc' Hacc].
    rewrite (list_pages_step access_token serve fuel cls parent url
               columns_param page acc w resp s' v items acc' Hs Hok Hb Hi Hacc).
    rewrite bool_decide_eq_true_2 by exact Hnext. apply IH.
Qed.

End RequestFacts.

Lemma create_sends_one_request_witness :
  exists outcome s,
    create example_domain example_token example_repr scripted_serve
      example_Site example_customer None (scripted_world [created_reply 5])
    = (outcome,
       sent (scripted_world [created_reply 5]) s
         (post_request example_token example_sites_url ∅)).
Proof.
  apply (create_sends_one_request example_domain example_token example_repr
           scripted_serve example_Site example_customer None example_sites_url
           (scripted_world [created_reply 5]));
    reflexivity.
Defined.

Lemma retrieve_requests_obj_url_witness :
  exists outcome s columns_param,
    (retrieve example_domain example_token example_repr example_set_order
       scripted_serve example_Job (VInt 99) example_company None).2
      (scripted_world [http_reply 404 None])
    = (outcome,
       sent (scripted_world [http_reply 404 None]) s
         (get_request example_token
            "https://acme.simprosuite.com/api/v1.0/companies/0/jobs/99"
            {[ "columns" := VStr columns_param ]})).
Proof.
  apply (retrieve_requests_obj_url example_domain example_token example_repr
           example_set_order scripted_serve example_Job (VInt 99)
           example_company ∅ None
           "https://acme.simprosuite.com/api/v1.0/companies/0/jobs/99"
           (scripted_world [http_reply 404 None]));
    reflexivity.
Defined.

Lemma retrieve_takes_id_from_response_witness :
  (retrieve example_domain example_token example_repr example_set_order
     scripted_serve example_Job (VInt 99) example_company None).2
    (scripted_world [created_reply 42])
  = (Ok (built example_Job (VInt 42) example_company (delete "ID" {[ "ID" := VInt 42 ]})),
     sent (scripted_world [created_reply 42]) []
       (get_request example_token
          ("https://acme.simprosuite.com/api/v1.0/companies/0/jobs/"
           +:+ str example_repr (VInt 99))
          {[ "columns" := VStr "ID" ]})).
Proof.
  exact (retrieve_takes_id_from_response example_domain example_token
           example_repr example_set_order scripted_serve example_Job (VInt 99)
           example_company None
           "https://acme.simprosuite.com/api/v1.0/companies/0/jobs/"
           (scripted_world [created_reply 42])
           {| status_code := 201; body := Some (VDict {[ "ID" := VInt 42 ]});
              links := ∅ |}
           [] {[ "ID" := VInt 42 ]} (VInt 42)
           eq_refl eq_refl eq_refl eq_refl eq_refl eq_refl).
Defined.

Lemma list_pages_fails_as_a_whole_witness :
  list_pages example_token scripted_serve 2 example_Job example_company
    example_jobs_url "ID" (Some 1) []
    (scripted_world [Some first_page_reply; http_reply 500 None])
  = (Raise (HTTPError 500),
     {| srv := [];
        log := [] ++ [get_request example_token example_jobs_url (list_params "ID" 1);
                      get_request example_token example_jobs_url
                        (list_params "ID" (1 + 1))] |}).
Proof.
  apply (list_pages_fails_as_a_whole example_token scripted_serve 0 example_Job
           example_company example_jobs_url "ID" 1 []
           (scripted_world [Some first_page_reply; http_reply 500 None])
           first_page_reply [http_reply 500 None]
           (VList [VDict {[ "ID" := VInt 1 ]}]) [VDict {[ "ID" := VInt 1 ]}]
           [Obj example_Job (VInt 1) example_company ∅]
           {| status_code := 500; body := None; links := ∅ |} []);
    reflexivity.
Defined.

Lemma list_pages_never_stops_by_itself_witness :
  (list_pages example_token endless_serve 100 example_Job example_company
     example_jobs_url "ID" (Some 1) [] {| srv := tt; log := [] |}).1 = Diverge.
Proof.
  apply (list_pages_never_stops_by_itself example_token endless_serve
           example_Job example_company example_jobs_url "ID").
  intros page s. eexists _, _, _, _.
  split; [reflexivity |].
  split; [reflexivity |]. split; [reflexivity |].
  split; [reflexivity |]. split; [reflexivity |].
  intros acc. eexists. reflexivity.
Defined.

(** ** Sites *)

Lemma decode_raises cls parent v :
  (forall e, decode cls parent v = Raise e -> e <> JobRecordCreationError)
  /\ decode cls parent v <> Diverge.
Proof.
  unfold decode, new.
  destruct v as [| | | | |d]; simpl;
    try (split; [intros e [= <-]; discriminate | discriminate]).
  destruct (d !! "ID"); simpl;
    [| split; [intros e [= <-]; discriminate | discriminate]].
  destruct (_ || _); split; try discriminate; intros e [= <-]; discriminate.
Qed.

Section SiteFacts.

Context (COMPANY_DOMAIN access_token : string).
Context (repr_container : value -> string).
Context {server : Type}.
Context (serve : request -> server -> option response * server).
Context (Site : PyClass).

Local Abbreviation type_url := (type_url COMPANY_DOMAIN repr_container).
Local Abbreviation post_request := (post_request access_token).
Local Abbreviation create := (create COMPANY_DOMAIN access_token repr_container serve).
Local Abbreviation create_site :=
  (create_site COMPANY_DOMAIN access_token repr_container serve Site).
Local Abbreviation create_site_attempts :=
  (create_site_attempts COMPANY_DOMAIN access_token repr_container serve Site).

Lemma create_one_post cls parent a u (w : @world server) :
  plain cls = true ->
  type_url cls parent = Ok (VStr u) ->
  exists outcome s,
    create cls parent (Some a) w = (outcome, sent w s (post_request u a))
    /\ outcome <> Raise JobRecordCreationError
    /\ outcome <> Diverge.
Proof.
  intros Hp Hu.
  destruct (serve (post_request u a) (srv w)) as [[resp|] s] eqn:Hs.
  - destruct (ok resp) eqn:Hok.
    + eexists _, s.
      split; [apply (create_decoded _ _ _ _ _ _ _ _ _ _ _ Hp Hu Hs Hok) |].
      unfold response_json. destruct (body resp) as [v|]; simpl;
        [| split; discriminate].
      destruct (decode_raises cls parent v) as [Hraise Hdiverge].
      destruct (decode cls parent v) as [o|e|].
      * split; discriminate.
      * split; [| discriminate]. intros [= ->]. now apply (Hraise _ eq_refl).
      * now contradiction Hdiverge.
    + eexists _, s.
      split; [apply (create_http_error _ _ _ _ _ _ _ _ _ _ _ Hp Hu Hs Hok) |].
      split; discriminate.
  - eexists _, s. split; [apply (create_no_reply _ _ _ _ _ _ _ _ _ _ Hp Hu Hs) |].
    split; discriminate.
Qed.

Lemma create_site_attempts_bounded n customer record_attributes u :
  plain Site = true ->
  type_url Site customer = Ok (VStr u) ->
  forall w : @world server,
  exists k,
    (k <= n)%nat /\ ((1 <= n)%nat -> (1 <= k)%nat)
    /\ log (create_site_attempts n customer record_attributes w).2
       = log w ++ replicate k (post_request u record_attributes)
    /\ (forall status,
          (create_site_attempts n customer record_attributes w).1
          <> Raise (HTTPError status))
    /\ ((create_site_attempts n customer record_attributes w).1
        = Raise JobRecordCreationError -> k = n)
    /\ (create_site_attempts n customer record_attributes w).1 <> Diverge.
Proof.
  intros Hp Hu. induction n as [|n IH]; intros w.
  - exists 0%nat. simpl. rewrite app_nil_r.
    repeat split; try lia; discriminate.
  - rewrite (attempts_S COMPANY_DOMAIN access_token repr_container serve Site).
    destruct (create_one_post Site customer record_attributes u w Hp Hu)
      as (outcome & s & -> & Hnot & Hdiv).
    assert (forall o : res obj,
               o <> Raise JobRecordCreationError -> o <> Diverge ->
               (forall st, o <> Raise (HTTPError st)) ->
               exists k, (k <= S n)%nat /\ ((1 <= S n)%nat -> (1 <= k)%nat)
                 /\ log (o, sent w s (post_request u record_attributes)).2
                    = log w ++ replicate k (post_request u record_attributes)
                 /\ (forall status, (o, sent w s (post_request u record_attributes)).1
                                    <> Raise (HTTPError status))
                 /\ ((o, sent w s (post_request u record_attributes)).1
                     = Raise JobRecordCreationError -> k = S n)
                 /\ (o, sent w s (post_request u record_attributes)).1 <> Diverge)
      as Hstop.
    { intros o H1 H2 H3. exists 1%nat. simpl.
      repeat split; try lia; try assumption. intros E. contradiction. }
    destruct outcome as [site|e|]; [apply Hstop; try discriminate; assumption | |
                                    contradiction].
    destruct e; try (apply Hstop; try discriminate; assumption).
    destruct (IH (sent w s (post_request u record_attributes)))
      as (k & Hk & Hk1 & Hlog & Hnever & Hexhausted & Hdiverge).
    exists (S k). split; [lia |]. split; [lia |].
    split; [| split; [exact Hnever | split; [| exact Hdiverge]]].
    + rewrite Hlog. unfold sent. simpl. now rewrite <- app_assoc.
    + intros E. f_equal. now apply Hexhausted.
Qed.

(** X14.  With a [Site] class that takes [create] from [SimProObject],
    [create_site] never lets an [HTTPError] out, whatever the server
    does.  It sends between one and three requests, all the same POST to
    the customer's sites, and it raises [JobRecordCreationError] only
    after exactly three. *)
Theorem create_site_never_raises_HTTPError customer site_attributes
    record_attributes u (w : @world server) :
  plain Site = true ->
  site_record_attributes site_attributes = Ok record_attributes ->
  type_url Site customer = Ok (VStr u) ->
  exists k,
    (1 <= k <= 3)%nat
    /\ log (create_site customer site_attributes w).2
       = log w ++ replicate k (post_request u record_attributes)
    /\ (forall status,
          (create_site customer site_attributes w).1 <> Raise (HTTPError status))
    /\ ((create_site customer site_attributes w).1 = Raise JobRecordCreationError
        -> k = 3%nat).
Proof.
  intros Hp Hrec Hu.
  rewrite (create_site_unfold COMPANY_DOMAIN access_token repr_container serve
             Site customer site_attributes record_attributes w Hrec).
  destruct (create_site_attempts_bounded 3 customer record_attributes u Hp Hu w)
    as (k & Hk & Hk1 & Hlog & Hnever & Hexhausted & _).
  exists k. split; [lia |]. now repeat split.
Qed.

(** X15.  The record sent for a site always has a ["Name"], and every
    attribute the caller gave is in it unchanged; only ["Name"] can be
    added. *)
Theorem site_record_keeps_caller_attributes
    (site_attributes record_attributes : gmap string value) :
  site_record_attributes site_attributes = Ok record_attributes ->
  is_Some (record_attributes !! "Name")
  /\ (forall k v, site_attributes !! k = Some v -> record_attributes !! k = Some v)
  /\ (forall k, k <> "Name" -> record_attributes !! k = site_attributes !! k).
Proof.
  unfold site_record_attributes.
  destruct (set_name site_attributes) as [name| |] eqn:Hn; simpl; try discriminate.
  intros [= <-]. split; [| split].
  - destruct (site_attributes !! "Name") as [v|] eqn:Hv.
    + exists v. apply lookup_union_Some_raw. now left.
    + exists name. apply lookup_union_Some_raw. right.
      split; [exact Hv | apply lookup_singleton_eq].
  - intros k v Hk. apply lookup_union_Some_raw. now left.
  - intros k Hk. destruct (site_attributes !! k) as [v|] eqn:Hv.
    + apply lookup_union_Some_raw. now left.
    + apply lookup_union_None. split; [exact Hv |].
      now apply lookup_singleton_ne.
Qed.

(** X16.  Without a ["Name"], an ["Address"] that is neither [None] nor a
    dict, or a nested street address that is neither [None] nor a string,
    makes [create_site] raise [AttributeError] before any request is
    sent. *)
Theorem create_site_bad_address customer (site_attributes : gmap string value)
    (w : @world server) :
  site_attributes !! "Name" = None ->
  (exists v, site_attributes !! "Address" = Some v
             /\ match v with VNone | VDict _ => False | _ => True end)
  \/ (exists (address : gmap string value) v,
         site_attributes !! "Address" = Some (VDict address)
         /\ address !! "Address" = Some v
         /\ match v with VNone | VStr _ => False | _ => True end) ->
  create_site customer site_attributes w = (Raise AttributeError, w).
Proof.
  intros Hname Hbad.
  assert (set_name site_attributes = Raise AttributeError) as Hn.
  { unfold set_name. rewrite Hname.
    destruct Hbad as [(v & -> & Hv) | (address & v & -> & -> & Hv)];
      destruct v; try contradiction; reflexivity. }
  unfold create_site, site_record_attributes, bind, lift. now rewrite Hn.
Qed.

End SiteFacts.

Lemma create_site_never_raises_HTTPError_witness :
  exists k,
    (1 <= k <= 3)%nat
    /\ log (create_site example_domain example_token example_repr scripted_serve
              example_Site example_customer example_site_attributes
              (scripted_world [http_reply 500 None; created_reply 5])).2
       = log (scripted_world [http_reply 500 None; created_reply 5])
         ++ replicate k (post_request example_token example_sites_url
                           example_site_record)
    /\ (forall status,
          (create_site example_domain example_token example_repr scripted_serve
             example_Site example_customer example_site_attributes
             (scripted_world [http_reply 500 None; created_reply 5])).1
          <> Raise (HTTPError status))
    /\ ((create_site example_domain example_token example_repr scripted_serve
           example_Site example_customer example_site_attributes
           (scripted_world [http_reply 500 None; created_reply 5])).1
        = Raise JobRecordCreationError -> k = 3%nat).
Proof.
  apply (create_site_never_raises_HTTPError example_domain example_token
           example_repr scripted_serve example_Site example_customer
           example_site_attributes example_site_record example_sites_url
           (scripted_world [http_reply 500 None; created_reply 5]));
    reflexivity.
Defined.

Lemma site_record_keeps_caller_attributes_witness :
  is_Some (example_site_record !! "Name")
  /\ (forall k v, example_site_attributes !! k = Some v ->
                  example_site_record !! k = Some v)
  /\ (forall k, k <> "Name" ->
                example_site_record !! k = example_site_attributes !! k).
Proof.
  apply (site_record_keeps_caller_attributes example_site_attributes
           example_site_record).
  reflexivity.
Defined.

Lemma create_site_bad_address_witness :
  create_site example_domain example_token example_repr scripted_serve
    example_Site example_customer {[ "Address" := VStr "12 High Street" ]}
    (scripted_world [created_reply 5])
  = (Raise AttributeError, scripted_world [created_reply 5]).
Proof.
  apply (create_site_bad_address example_domain example_token example_repr
           scripted_serve example_Site example_customer
           {[ "Address" := VStr "12 High Street" ]}
           (scripted_world [created_reply 5])); [reflexivity |].
  left. exists (VStr "12 High Street"). split; [reflexivity | exact I].
Defined.

(** ** Names derived from street addresses *)

Lemma chars_app (a b : string) :
  list_ascii_of_string (a +:+ b)
  = list_ascii_of_string a ++ list_ascii_of_string b.
Proof.
  induction a as [|c a IH]; [reflexivity |].
  change (c :: list_ascii_of_string (a +:+ b)
          = c :: (list_ascii_of_string a ++ list_ascii_of_string b)).
  now rewrite IH.
Qed.

Lemma flush_words (word : string) :
  word = EmptyString \/ is_word word -> Forall is_word (flush word).
Proof.
  intros [-> | Hw]; [constructor |].
  destruct word; simpl; [constructor | constructor; [exact Hw | constructor]].
Qed.

Lemma split_from_words (s word : string) :
  word = EmptyString \/ is_word word -> Forall is_word (split_from word s).
Proof.
  revert word. induction s as [|c s IH]; intros word Hword; simpl.
  - now apply flush_words.
  - destruct (is_space c) eqn:Hc.
    + apply Forall_app. split; [now apply flush_words | apply IH; now left].
    + apply IH. right. split.
      * destruct word; discriminate.
      * rewrite chars_app. apply Forall_app. split.
        -- destruct Hword as [-> | [_ Hw]]; [constructor | exact Hw].
        -- now repeat constructor.
Qed.

Lemma split_from_word_prefix (x : string) :
  Forall (fun c => is_space c = false) (list_ascii_of_string x) ->
  forall word rest, split_from word (x +:+ rest) = split_from (word +:+ x) rest.
Proof.
  induction x as [|c x IH]; intros Hx word rest.
  - now rewrite string_app_empty_r.
  - change (String c x +:+ rest) with (String c (x +:+ rest)).
    change (list_ascii_of_string (String c x))
      with (c :: list_ascii_of_string x) in Hx.
    inversion Hx as [|? ? Hc Hx']; subst.
    simpl. rewrite Hc. rewrite (IH Hx').
    now rewrite string_app_assoc.
Qed.

Lemma split_from_space (word rest : string) :
  split_from word (String " " rest) = flush word ++ split_from EmptyString rest.
Proof. reflexivity. Qed.

Lemma split_join_words (ws : list string) :
  Forall is_word ws -> str_split (str_join " " ws) = ws.
Proof.
  unfold str_split, str_join.
  induction ws as [|x ws IH]; intros HF; [reflexivity |].
  inversion HF as [|? ? [Hne Hx] HF']; subst.
  destruct ws as [|y ws].
  - simpl. rewrite <- (string_app_empty_r x) at 1.
    rewrite (split_from_word_prefix x Hx). simpl.
    destruct x; [contradiction | reflexivity].
  - change (String.concat " " (x :: y :: ws))
      with (x +:+ String " " (String.concat " " (y :: ws))).
    rewrite (split_from_word_prefix x Hx), split_from_space.
    rewrite (IH HF'). destruct x; [contradiction | reflexivity].
Qed.

Lemma join_words_chars (ws : list string) :
  Forall is_word ws ->
  Forall (fun c => c = " "%char \/ is_space c = false)
    (list_ascii_of_string (str_join " " ws)).
Proof.
  unfold str_join. induction ws as [|x ws IH]; intros HF; [constructor |].
  inversion HF as [|? ? [_ Hx] HF']; subst.
  assert (Forall (fun c => c = " "%char \/ is_space c = false)
            (list_ascii_of_string x)) as Hx'
    by (eapply Forall_impl; [exact Hx | intros c Hc; now right]).
  destruct ws as [|y ws]; [exact Hx' |].
  change (String.concat " " (x :: y :: ws))
    with (x +:+ String " " (String.concat " " (y :: ws))).
  rewrite chars_app. apply Forall_app. split; [exact Hx' |].
  constructor; [now left | now apply IH].
Qed.

(** X17.  A name derived from a street address is made of words separated
    by single spaces: it has no line feed and no other whitespace than
    those spaces, none at either end, and deriving a name from it again
    changes nothing. *)
Theorem derived_name_is_normalised (site_attributes address : gmap string value)
    (street : string) :
  site_attributes !! "Name" = None ->
  site_attributes !! "Address" = Some (VDict address) ->
  address !! "Address" = Some (VStr street) ->
  exists name words,
    set_name site_attributes = Ok (VStr name)
    /\ name = str_join " " words
    /\ Forall is_word words
    /\ str_join " " (str_split (str_replace LF EmptyString name)) = name
    /\ Forall (fun c => c = " "%char \/ is_space c = false)
         (list_ascii_of_string name)
    /\ LF ∉ list_ascii_of_string name.
Proof.
  intros H1 H2 H3.
  set (words := str_split (str_replace LF EmptyString street)).
  assert (Forall is_word words) as Hwords
    by (apply split_from_words; now left).
  pose proof (join_words_chars words Hwords) as Hchars.
  assert (LF ∉ list_ascii_of_string (str_join " " words)) as Hlf.
  { intros Hin. rewrite Forall_forall in Hchars.
    destruct (Hchars _ Hin) as [E | E]; discriminate E. }
  assert (str_replace LF EmptyString (str_join " " words) = str_join " " words)
    as Hkeep.
  { clear -Hlf. induction (str_join " " words) as [|c s IH]; [reflexivity |].
    simpl. destruct (Ascii.eqb_spec c LF) as [-> | Hne].
    - contradiction Hlf. simpl. left.
    - f_equal. apply IH. intros Hin. apply Hlf. simpl. now right. }
  exists (str_join " " words), words.
  split; [now apply set_name_street with (address := address) |].
  split; [reflexivity |]. split; [exact Hwords |].
  split; [rewrite Hkeep; now rewrite split_join_words |].
  split; [exact Hchars | exact Hlf].
Qed.

Lemma derived_name_is_normalised_witness :
  exists name words,
    set_name example_site_attributes = Ok (VStr name)
    /\ name = str_join " " words
    /\ Forall is_word words
    /\ str_join " " (str_split (str_replace LF EmptyString name)) = name
    /\ Forall (fun c => c = " "%char \/ is_space c = false)
         (list_ascii_of_string name)
    /\ LF ∉ list_ascii_of_string name.
Proof.
  apply (derived_name_is_normalised example_site_attributes
           {[ "Address" := VStr example_street_address ]}
           example_street_address);
    reflexivity.
Defined.

(** ** Jobs *)

Section JobFacts.

Context (COMPANY_DOMAIN access_token : string).
Context (repr_container : value -> string).
Context (set_order : gset string -> list string).
Context {server : Type}.
Context (serve : request -> server -> option response * server).
Context (Site Job Section JobCostCenter : PyClass).

Local Abbreviation type_url := (type_url COMPANY_DOMAIN repr_container).
Local Abbreviation post_request := (post_request access_token).
Local Abbreviation create_job_record :=
  (create_job_record COMPANY_DOMAIN access_token repr_container set_order
     serve Job Section JobCostCenter).
Local Abbreviation create_job :=
  (create_job COMPANY_DOMAIN access_token repr_container set_order
     serve Site Job Section JobCostCenter).

Lemma create_job_with_site fuel company customer (job_attributes : gmap string value)
    customer_id v (w : @world server) :
  record_id customer = Ok customer_id ->
  job_attributes !! "Site" = Some v ->
  create_job fuel company customer job_attributes w
  = (let '(r, w2) :=
       create_job_record fuel company
         (job_record_attributes customer_id job_attributes) w in
     (r, job_attributes, w2)).
Proof.
  intros Hc Hs.
  assert (job_record_attributes customer_id job_attributes !! "Site" = Some v)
    as Hsite by (apply lookup_union_Some_raw; now left).
  unfold create_job, create_job_site, bind, lift, ret. rewrite Hc, Hsite.
  rewrite bool_decide_eq_false_2 by discriminate. reflexivity.
Qed.

(** X18.  With a [Job] class that takes [create] from [SimProObject]:
    when the caller's attributes already have a ["Site"], no site is
    created: the first request of [create_job] is the POST of the job,
    whose body carries that ["Site"], and the caller's dict is left as it
    was. *)
Theorem create_job_uses_given_site fuel company customer
    (job_attributes : gmap string value) customer_id v u (w : @world server) :
  plain Job = true ->
  record_id customer = Ok customer_id ->
  job_attributes !! "Site" = Some v ->
  type_url Job company = Ok (VStr u) ->
  let record_attributes := job_record_attributes customer_id job_attributes in
  record_attributes !! "Site" = Some v
  /\ (create_job fuel company customer job_attributes w).1.2 = job_attributes
  /\ exists added,
       log (create_job fuel company customer job_attributes w).2
       = log w ++ post_request u record_attributes :: added.
Proof.
  intros Hp Hc Hs Hu record_attributes. subst record_attributes.
  split; [apply lookup_union_Some_raw; now left |].
  rewrite (create_job_with_site fuel company customer job_attributes
             customer_id v w Hc Hs).
  destruct (create_job_record_log COMPANY_DOMAIN access_token repr_container
              set_order serve Job Section JobCostCenter fuel company
              (job_record_attributes customer_id job_attributes) u w Hp Hu)
    as [added Ha].
  destruct (create_job_record fuel company _ w) as [r w2].
  split; [reflexivity | now exists added].
Qed.

(** X19.  With [Site] and [Job] classes that take their members from
    [SimProObject], the job itself is created with a single attempt: when
    the server answers the job's POST with a 4xx or 5xx status,
    [create_job] raises that [HTTPError] after this one request and asks
    for no sections or cost centers.  This is so when the caller gave a
    ["Site"], and also when a site was created first; the caller's dict
    then already holds the id of that site. *)
Theorem create_job_does_not_retry_job fuel company customer
    (job_attributes : gmap string value) customer_id u (w : @world server) :
  plain Site = true ->
  plain Job = true ->
  record_id customer = Ok customer_id ->
  type_url Job company = Ok (VStr u) ->
  let record_attributes := job_record_attributes customer_id job_attributes in
  let attempt := post_request u record_attributes in
  (forall v resp s,
      job_attributes !! "Site" = Some v ->
      serve attempt (srv w) = (Some resp, s) ->
      ok resp = false ->
      create_job fuel company customer job_attributes w
      = (Raise (HTTPError (status_code resp)), job_attributes, sent w s attempt))
  /\ (forall site w1 resp s,
        job_attributes !! "Site" = None ->
        create_site COMPANY_DOMAIN access_token repr_container serve Site
          customer job_attributes w = (Ok site, w1) ->
        serve attempt (srv w1) = (Some resp, s) ->
        ok resp = false ->
        exists site_id,
          record_id site = Ok site_id
          /\ create_job fuel company customer job_attributes w
             = (Raise (HTTPError (status_code resp)),
                <["Site" := site_id]> job_attributes, sent w1 s attempt)).
Proof.
  intros HSite HJob Hc Hu record_attributes attempt.
  subst attempt record_attributes. split.
  - intros v resp s Hs Hserve Hok.
    rewrite (create_job_with_site fuel company customer job_attributes
               customer_id v w Hc Hs).
    unfold create_job_record, bind.
    now rewrite (create_http_error _ _ _ _ _ _ _ _ _ _ _ HJob Hu Hserve Hok).
  - intros site w1 resp s Hs Hsite Hserve Hok.
    destruct (create_site_has_record_id COMPANY_DOMAIN access_token
                repr_container serve Site customer job_attributes w site w1
                HSite Hsite) as [site_id Hid].
    exists site_id. split; [exact Hid |].
    pose proof (job_record_attributes_no_site customer_id _ Hs) as Hno.
    unfold create_job, create_job_site, bind, lift, ret. rewrite Hc, Hno.
    rewrite bool_decide_eq_true_2 by reflexivity.
    rewrite Hsite, Hid.
    unfold create_job_record, bind.
    now rewrite (create_http_error _ _ _ _ _ _ _ _ _ _ _ HJob Hu Hserve Hok).
Qed.

End JobFacts.

Lemma create_job_uses_given_site_witness :
  let record_attributes :=
    job_record_attributes (VInt 7) {[ "Site" := VInt 31 ]} in
  record_attributes !! "Site" = Some (VInt 31)
  /\ (create_job example_domain example_token example_repr example_set_order
        simulated_serve example_Site example_Job example_Section
        example_JobCostCenter 1 example_company example_customer
        {[ "Site" := VInt 31 ]} {| srv := empty_store; log := [] |}).1.2
     = {[ "Site" := VInt 31 ]}
  /\ exists added,
       log (create_job example_domain example_token example_repr
              example_set_order simulated_serve example_Site example_Job
              example_Section example_JobCostCenter 1 example_company
              example_customer {[ "Site" := VInt 31 ]}
              {| srv := empty_store; log := [] |}).2
       = log {| srv := empty_store; log := [] |}
         ++ post_request example_token example_jobs_url record_attributes :: added.
Proof.
  apply (create_job_uses_given_site example_domain example_token example_repr
           example_set_order simulated_serve example_Site example_Job
           example_Section example_JobCostCenter 1 example_company
           example_customer {[ "Site" := VInt 31 ]} (VInt 7) (VInt 31)
           example_jobs_url {| srv := empty_store; log := [] |});
    reflexivity.
Defined.

Lemma create_job_does_not_retry_job_witness :
  exists site_id,
    record_id (Obj example_Site (VInt 5) example_customer ∅) = Ok site_id
    /\ create_job example_domain example_token example_repr example_set_order
         scripted_serve example_Site example_Job example_Section
         example_JobCostCenter 1 example_company example_customer
         example_site_attributes
         (scripted_world [created_reply 5; http_reply 503 None; created_reply 9])
       = (Raise (HTTPError 503),
          <["Site" := site_id]> example_site_attributes,
          sent {| srv := [http_reply 503 None; created_reply 9];
                  log := [post_request example_token example_sites_url
                            example_site_record] |}
            [created_reply 9]
            (post_request example_token example_jobs_url
               (job_record_attributes (VInt 7) example_site_attributes))).
Proof.
  apply (proj2 (create_job_does_not_retry_job example_domain example_token
                  example_repr example_set_order scripted_serve example_Site
                  example_Job example_Section example_JobCostCenter 1
                  example_company example_customer example_site_attributes
                  (VInt 7) example_jobs_url
                  (scripted_world [created_reply 5; http_reply 503 None;
                                   created_reply 9])
                  eq_refl eq_refl eq_refl eq_refl)
           (Obj example_Site (VInt 5) example_customer ∅)
           {| srv := [http_reply 503 None; created_reply 9];
              log := [post_request example_token example_sites_url
                        example_site_record] |}
           {| status_code := 503; body := None; links := ∅ |} [created_reply 9]);
    reflexivity.
Defined.

Lemma record_id_instance cls parent (a : gmap string value) (n : Z) :
  plain cls = true ->
  record_id (instance_of cls parent (<["ID" := VInt n]> a)) = Ok (VInt n).
Proof.
  intros Hp. unfold instance_of. rewrite lookup_insert_eq. simpl.
  destruct cls; simpl; [| now unshadow Hp].
  destruct (n =? 0) eqn:E; simpl; [| reflexivity].
  apply Z.eqb_eq in E. now subst.
Qed.

Section JobOnSimulated.

Context (COMPANY_DOMAIN access_token : string).
Context (repr_container : value -> string).
Context (set_order : gset string -> list string).
Context (Site Job Section JobCostCenter : PyClass).

Local Abbreviation type_url := (type_url COMPANY_DOMAIN repr_container).
Local Abbreviation post_request := (post_request access_token).
Local Abbreviation create_site :=
  (create_site COMPANY_DOMAIN access_token repr_container simulated_serve Site).
Local Abbreviation ensure_default_children :=
  (ensure_default_children COMPANY_DOMAIN access_token repr_container set_order
     simulated_serve Section JobCostCenter).
Local Abbreviation create_job_record :=
  (create_job_record COMPANY_DOMAIN access_token repr_container set_order
     simulated_serve Job Section JobCostCenter).
Local Abbreviation create_job :=
  (create_job COMPANY_DOMAIN access_token repr_container set_order
     simulated_serve Site Job Section JobCostCenter).

Lemma create_site_simulated customer site_attributes record_attributes u
    (s : simulated) lg :
  plain Site = true ->
  site_record_attributes site_attributes = Ok record_attributes ->
  type_url Site customer = Ok (VStr u) ->
  create_site customer site_attributes {| srv := s; log := lg |}
  = (Ok (instance_of Site customer (<["ID" := VInt (next_id s)]> record_attributes)),
     {| srv := stored s u (<["ID" := VInt (next_id s)]> record_attributes);
        log := lg ++ [post_request u record_attributes] |}).
Proof.
  intros Hp Hrec Hu.
  rewrite (create_site_unfold COMPANY_DOMAIN access_token repr_container
             simulated_serve Site customer site_attributes record_attributes _ Hrec).
  rewrite (attempts_S COMPANY_DOMAIN access_token repr_container simulated_serve Site).
  now rewrite (create_simulated COMPANY_DOMAIN access_token repr_container
                 Site customer (Some record_attributes) u s lg Hp Hu).
Qed.

Lemma ensure_default_children_succeeds fuel job u suffix (s : simulated) lg :
  plain Section = true ->
  plain JobCostCenter = true ->
  plain_instance job = true ->
  type_url Section job = Ok (VStr u) ->
  type_url_suffix JobCostCenter = Ok suffix ->
  well_formed s -> has_room s fuel 1 -> (1 <= fuel)%nat ->
  exists w1,
    ensure_default_children fuel job {| srv := s; log := lg |} = (Ok tt, w1).
Proof.
  intros HS HC Hjob Hu Hsuffix Hwf Hroom Hfuel.
  destruct (ensure_section_simulated COMPANY_DOMAIN access_token repr_container
              set_order Section fuel job u s lg HS Hjob Hu Hwf
              (has_room_less _ _ _ Hroom) Hfuel)
    as (record & s1 & added1 & Hsec & _ & Hid & Hnew1 & Hold1).
  assert (well_formed s1 /\ has_room s1 fuel 0) as [Hwf1 Hroom1].
  { destruct (records_at s u) eqn:E.
    - rewrite (Hnew1 eq_refl). split;
        [now apply well_formed_stored | now apply has_room_stored].
    - destruct Hold1 as [-> _]; [discriminate |].
      split; [exact Hwf | now apply has_room_less]. }
  destruct (type_url_instance COMPANY_DOMAIN repr_container Section job u record
              JobCostCenter suffix HS Hu Hsuffix) as [cu Hcu].
  assert (plain_instance (instance_of Section job record) = true) as Hsection
    by now rewrite plain_instance_of.
  destruct (ensure_cost_center_simulated COMPANY_DOMAIN access_token
              repr_container set_order JobCostCenter fuel _ cu s1 (lg ++ added1)
              HC Hsection Hcu Hwf1 Hroom1 Hfuel)
    as (s2 & added2 & Hcc & _).
  eexists. unfold ensure_default_children, bind. rewrite Hsec, Hcc. reflexivity.
Qed.

(** X20.  With [Site], [Job], [Section] and [JobCostCenter] classes that
    take their members from [SimProObject], on the simulated server, whose
    creates always succeed, [create_job] without a ["Site"] returns the
    job: the site gets the next free id, the job the one after it, the
    caller's dict gains ["Site"], and the job record that was sent, and
    that the returned job is built from, has no ["Site"]. *)
Theorem create_job_succeeds_on_simulated fuel company customer
    (job_attributes site_record : gmap string value) customer_id
    site_url job_url section_suffix cost_center_suffix (s : simulated) lg :
  plain Site = true -> plain Job = true ->
  plain Section = true -> plain JobCostCenter = true ->
  record_id customer = Ok customer_id ->
  job_attributes !! "Site" = None ->
  site_record_attributes job_attributes = Ok site_record ->
  type_url Site customer = Ok (VStr site_url) ->
  type_url Job company = Ok (VStr job_url) ->
  type_url_suffix Section = Ok section_suffix ->
  type_url_suffix JobCostCenter = Ok cost_center_suffix ->
  well_formed s -> has_room s fuel 3 -> (1 <= fuel)%nat ->
  let job_record :=
    <["ID" := VInt (next_id s + 1)]>
      (job_record_attributes customer_id job_attributes) in
  exists w',
    create_job fuel company customer job_attributes {| srv := s; log := lg |}
    = (Ok (instance_of Job company job_record),
       <["Site" := VInt (next_id s)]> job_attributes, w')
    /\ record_id (instance_of Job company job_record) = Ok (VInt (next_id s + 1))
    /\ job_record !! "Site" = None.
Proof.
  intros HSite HJob HSection HCenter Hc Hsite Hrec Hsu Hju Hss Hcs Hwf Hroom
    Hfuel job_record.
  pose proof (job_record_attributes_no_site customer_id _ Hsite) as Hno.
  set (site := <["ID" := VInt (next_id s)]> site_record).
  assert (has_ID site) as Hsite_id by (eexists; apply lookup_insert_eq).
  assert (has_ID job_record) as Hjob_id by (eexists; apply lookup_insert_eq).
  set (s1 := stored s site_url site).
  set (s2 := stored s1 job_url job_record).
  assert (well_formed s2) as Hwf2
    by (apply well_formed_stored; [now apply well_formed_stored | exact Hjob_id]).
  assert (has_room s2 fuel 1) as Hroom2
    by (apply has_room_stored; now apply has_room_stored).
  destruct (type_url_instance COMPANY_DOMAIN repr_container Job company job_url
              job_record Section section_suffix HJob Hju Hss)
    as [sections_url Hsections].
  assert (plain_instance (instance_of Job company job_record) = true) as Hjob
    by now rewrite plain_instance_of.
  destruct (ensure_default_children_succeeds fuel
              (instance_of Job company job_record) sections_url cost_center_suffix
              s2 ((lg ++ [post_request site_url site_record])
                  ++ [post_request job_url
                        (job_record_attributes customer_id job_attributes)])
              HSection HCenter Hjob Hsections Hcs Hwf2 Hroom2 Hfuel)
    as [w' Hensure].
  exists w'. split; [| split].
  - unfold create_job, create_job_site, bind, lift, ret. rewrite Hc, Hno.
    rewrite bool_decide_eq_true_2 by reflexivity.
    rewrite (create_site_simulated customer job_attributes site_record site_url
               s lg HSite Hrec Hsu).
    rewrite record_id_instance by exact HSite.
    unfold create_job_record, bind, ret.
    rewrite (create_simulated COMPANY_DOMAIN access_token repr_container
               Job company (Some _) job_url _ _ HJob Hju).
    change (next_id (stored s site_url (<["ID" := VInt (next_id s)]> site_record)))
      with (next_id s + 1).
    fold site. fold s1. fold job_record. fold s2.
    now rewrite Hensure.
  - now apply record_id_instance.
  - unfold job_record. rewrite lookup_insert_ne by discriminate. exact Hno.
Qed.

End JobOnSimulated.

Lemma create_job_succeeds_on_simulated_witness :
  let job_record :=
    <["ID" := VInt (next_id empty_store + 1)]>
      (job_record_attributes (VInt 7) example_site_attributes) in
  exists w',
    create_job example_domain example_token example_repr example_set_order
      simulated_serve example_Site example_Job example_Section
      example_JobCostCenter 1 example_company example_customer
      example_site_attributes {| srv := empty_store; log := [] |}
    = (Ok (instance_of example_Job example_company job_record),
       <["Site" := VInt (next_id empty_store)]> example_site_attributes, w')
    /\ record_id (instance_of example_Job example_company job_record)
       = Ok (VInt (next_id empty_store + 1))
    /\ job_record !! "Site" = None.
Proof.
  apply (create_job_succeeds_on_simulated example_domain example_token
           example_repr example_set_order example_Site example_Job
           example_Section example_JobCostCenter 1 example_company
           example_customer example_site_attributes example_site_record (VInt 7)
           example_sites_url example_jobs_url "/sections/" "/costCenters/"
           empty_store []);
    try reflexivity; [exact empty_store_well_formed |].
  intros u. unfold records_at. simpl. rewrite lookup_empty. simpl. lia.
Defined.

(** ** The class factory, continued *)

Section FactoryMore.

Context (type_error : string -> list string -> gmap string value -> option exn).

Lemma build_classes_from_built (ds : list ClassDescription.t)
    (acc built : list PyClass) :
  Forall2 (fun d c => ClassDescription.build_class type_error d = Ok c) ds built ->
  ClassDescription.build_classes_from type_error ds acc = Ok (acc ++ built).
Proof.
  intros HF. revert acc. induction HF as [|d c ds built Hd HF IH]; intros acc.
  - simpl. now rewrite app_nil_r.
  - simpl. rewrite Hd. simpl. rewrite IH. now rewrite <- app_assoc.
Qed.

Lemma build_classes_from_refused (before : list ClassDescription.t)
    (d : ClassDescription.t) (after : list ClassDescription.t) (e : exn)
    (acc : list PyClass) :
  Forall (fun d' => exists c, ClassDescription.build_class type_error d' = Ok c)
    before ->
  ClassDescription.build_class type_error d = Raise e ->
  ClassDescription.build_classes_from type_error (before ++ d :: after) acc
  = Raise e.
Proof.
  intros HF Hd. revert acc. induction HF as [|d' before [c Hc] HF IH]; intros acc.
  - simpl. now rewrite Hd.
  - simpl. rewrite Hc. simpl. apply IH.
Qed.

(** X21.  [build_classes] is all or nothing.  It returns classes exactly
    when Python's [type] makes a class of every description, and then one
    for each description, in their order.  When [type] refuses a
    description, with a [TypeError] or a [ValueError], the call raises
    that exception and returns no class at all, not even those of the
    descriptions before it. *)
Theorem build_classes_all_or_nothing (ds : list ClassDescription.t) :
  (forall classes,
      ClassDescription.build_classes type_error ds = Ok classes
      <-> Forall2 (fun d c => ClassDescription.build_class type_error d = Ok c)
            ds classes)
  /\ (forall before d after e,
        ds = before ++ d :: after ->
        Forall (fun d' => exists c,
                    ClassDescription.build_class type_error d' = Ok c) before ->
        ClassDescription.build_class type_error d = Raise e ->
        ClassDescription.build_classes type_error ds = Raise e)
  /\ (forall d e,
        ClassDescription.build_class type_error d = Raise e ->
        exists definitions,
          type_error (ClassDescription.name d) (ClassDescription.extra_bases d)
            definitions = Some e).
Proof.
  split; [| split].
  - intros classes. split.
    + intros H. apply build_classes_from_inv in H as (built & -> & HF). exact HF.
    + intros HF. apply (build_classes_from_built ds [] classes HF).
  - intros before d after e -> HF Hd.
    now apply build_classes_from_refused.
  - intros d e. unfold ClassDescription.build_class, ClassDescription.py_type.
    destruct (type_error _ _ _) as [e'|] eqn:He; [| discriminate].
    intros [= <-]. eexists. exact He.
Qed.

Lemma build_class_with_definitions (d : ClassDescription.t)
    (m : gmap string value) (c : PyClass) :
  ClassDescription.definitions d = Some m ->
  ClassDescription.build_class type_error d = Ok c ->
  exists own : gmap string value,
    c = Generated (ClassDescription.name d) (ClassDescription.extra_bases d)
          (m ∪ own)
    /\ own !! "type_url_suffix" = Some (VStr (ClassDescription.type_url_suffix d)).
Proof.
  intros Hm. unfold ClassDescription.build_class, ClassDescription.py_type.
  rewrite Hm. destruct (type_error _ _ _); [discriminate |].
  intros [= <-]. eexists. split; [reflexivity |].
  destruct (ClassDescription.attributes d) as [[|a l]|],
           (ClassDescription.docstring d) as [[|x y]|];
    repeat (rewrite lookup_insert_ne by discriminate);
    apply lookup_singleton_eq.
Qed.

(** X22.  The [definitions] of a description are applied last: every entry
    of it is in the class as given, so a ["type_url_suffix"] among them
    replaces the description's own segment, and one that is not a string
    leaves a class on which addresses raise [TypeError]. *)
Theorem definitions_override_description (d : ClassDescription.t)
    (m : gmap string value) (c : PyClass) :
  ClassDescription.definitions d = Some m ->
  ClassDescription.build_class type_error d = Ok c ->
  exists class_dict,
    c = Generated (ClassDescription.name d) (ClassDescription.extra_bases d) class_dict
    /\ (forall k v, m !! k = Some v -> class_dict !! k = Some v)
    /\ (forall s, m !! "type_url_suffix" = Some (VStr s) -> type_url_suffix c = Ok s)
    /\ (forall v, m !! "type_url_suffix" = Some v ->
                  match v with VStr _ => False | _ => True end ->
                  type_url_suffix c = Raise TypeError)
    /\ (m !! "type_url_suffix" = None ->
        type_url_suffix c = Ok (ClassDescription.type_url_suffix d)).
Proof.
  intros Hm Hc.
  destruct (build_class_with_definitions d m c Hm Hc) as (own & -> & Hown).
  assert (forall k v, m !! k = Some v -> (m ∪ own) !! k = Some v) as Hkeep
    by (intros k v Hk; apply lookup_union_Some_raw; now left).
  exists (m ∪ own). split; [reflexivity |].
  split; [exact Hkeep | split; [| split]].
  - intros s Hs. simpl. now rewrite (Hkeep _ _ Hs).
  - intros v Hv Hnot. simpl. rewrite (Hkeep _ _ Hv). now destruct v.
  - intros Hnone. simpl. rewrite lookup_union_r by exact Hnone.
    now rewrite Hown.
Qed.

End FactoryMore.

Lemma definitions_override_description_witness :
  exists class_dict,
    Generated "Job" [] ({[ "type_url_suffix" := VStr "/work/" ]}
                        ∪ {[ "type_url_suffix" := VStr "/jobs/" ]})
    = Generated "Job" [] class_dict
    /\ (forall k v, ({[ "type_url_suffix" := VStr "/work/" ]} : gmap string value) !! k
                    = Some v -> class_dict !! k = Some v)
    /\ (forall s, ({[ "type_url_suffix" := VStr "/work/" ]} : gmap string value)
                    !! "type_url_suffix" = Some (VStr s) ->
                  type_url_suffix
                    (Generated "Job" [] ({[ "type_url_suffix" := VStr "/work/" ]}
                                         ∪ {[ "type_url_suffix" := VStr "/jobs/" ]}))
                  = Ok s)
    /\ (forall v, ({[ "type_url_suffix" := VStr "/work/" ]} : gmap string value)
                    !! "type_url_suffix" = Some v ->
                  match v with VStr _ => False | _ => True end ->
                  type_url_suffix
                    (Generated "Job" [] ({[ "type_url_suffix" := VStr "/work/" ]}
                                         ∪ {[ "type_url_suffix" := VStr "/jobs/" ]}))
                  = Raise TypeError)
    /\ (({[ "type_url_suffix" := VStr "/work/" ]} : gmap string value)
          !! "type_url_suffix" = None ->
        type_url_suffix
          (Generated "Job" [] ({[ "type_url_suffix" := VStr "/work/" ]}
                               ∪ {[ "type_url_suffix" := VStr "/jobs/" ]}))
        = Ok "/jobs/").
Proof.
  apply (definitions_override_description accept_all
           {| ClassDescription.name := "Job"; ClassDescription.bases := None;
              ClassDescription.type_url_suffix := "/jobs/";
              ClassDescription.docstring := None;
              ClassDescription.attributes := None;
              ClassDescription.definitions :=
                Some {[ "type_url_suffix" := VStr "/work/" ]} |}
           {[ "type_url_suffix" := VStr "/work/" ]});
    reflexivity.
Defined.

Lemma build_classes_all_or_nothing_witness :
  ClassDescription.build_classes example_type_error
    [description_A; description_with_qualname]
  = Raise TypeError.
Proof.
  apply (proj1 (proj2 (build_classes_all_or_nothing example_type_error
                         [description_A; description_with_qualname]))
           [description_A] description_with_qualname [] TypeError);
    [reflexivity | | reflexivity].
  constructor; [| constructor]. eexists. reflexivity.
Defined.

(** What the three checks of [example_type_error] refuse: a base given a
    second time, a number under [__qualname__], and a name with a NUL
    character, the last with a [ValueError]. *)
Example build_classes_refusals :
  ClassDescription.build_classes example_type_error
    [description_A; description_with_mixin] = Raise TypeError
  /\ ClassDescription.build_classes example_type_error
       [description_with_qualname; description_A] = Raise TypeError
  /\ ClassDescription.build_classes example_type_error
       [ClassDescription.describe (String "000" "A") "/a/" "A name with NUL."]
     = Raise ValueError.
Proof. repeat split; reflexivity. Qed.

(** ** Authentication *)

Section AuthenticateFacts.

Context (COMPANY_DOMAIN : string).
Context (repr_container : value -> string).
Context {server : Type}.
Context (serve : request -> server -> option response * server).

Local Abbreviation authenticate := (authenticate repr_container serve).

Lemma token_url_of_domain credentials :
  url (token_request (BASE_URL COMPANY_DOMAIN) credentials)
  = "https://" +:+ COMPANY_DOMAIN +:+ ".simprosuite.com/oauth2/token".
Proof.
  unfold token_request, BASE_URL. simpl.
  rewrite !string_app_assoc. reflexivity.
Qed.

(** X23.  [authenticate] sends one POST with the credentials and no
    headers to the token address of the company's domain.  An answer with
    an ["access_token"] gives the headers that every later request
    carries; a 4xx or 5xx status raises [HTTPError], and an answer without
    the token raises [KeyError]. *)
Theorem authenticate_outcomes base_url credentials (w : @world server) reply s :
  serve (token_request base_url credentials) (srv w) = (reply, s) ->
  exists outcome,
    authenticate base_url credentials w
    = (outcome, sent w s (token_request base_url credentials))
    /\ url (token_request (BASE_URL COMPANY_DOMAIN) credentials)
       = "https://" +:+ COMPANY_DOMAIN +:+ ".simprosuite.com/oauth2/token"
    /\ (reply = None -> outcome = Raise ConnectionError)
    /\ (forall resp, reply = Some resp -> ok resp = false ->
          outcome = Raise (HTTPError (status_code resp)))
    /\ (forall resp (d : gmap string value) token,
          reply = Some resp -> ok resp = true -> body resp = Some (VDict d) ->
          d !! "access_token" = Some token ->
          outcome = Ok (AUTH_HEADERS (str repr_container token)))
    /\ (forall resp (d : gmap string value),
          reply = Some resp -> ok resp = true -> body resp = Some (VDict d) ->
          d !! "access_token" = None ->
          outcome = Raise (KeyError "access_token")).
Proof.
  intros Hs.
  exists (match reply with
          | None => Raise ConnectionError
          | Some resp =>
              res_bind (raise_for_status resp) (fun _ =>
              res_bind (res_bind (response_json resp)
                          (fun document => subscript document "access_token"))
                (fun token => Ok (AUTH_HEADERS (str repr_container token))))
          end).
  split; [| split; [apply token_url_of_domain | split; [| split; [| split]]]].
  - unfold authenticate, bind, lift, ret.
    rewrite (send_reply serve _ w reply s Hs).
    destruct reply as [resp|]; [| reflexivity].
    destruct (raise_for_status resp); simpl; try reflexivity.
    destruct (res_bind (response_json resp) _); reflexivity.
  - now intros ->.
  - intros resp -> Hok. now rewrite (raise_for_status_error _ Hok).
  - intros resp d token -> Hok Hb Hd.
    rewrite (raise_for_status_ok _ Hok). unfold response_json. rewrite Hb.
    simpl. now rewrite Hd.
  - intros resp d -> Hok Hb Hd.
    rewrite (raise_for_status_ok _ Hok). unfold response_json. rewrite Hb.
    simpl. now rewrite Hd.
Qed.

End AuthenticateFacts.

Lemma authenticate_outcomes_witness :
  exists outcome,
    authenticate example_repr scripted_serve (BASE_URL example_domain)
      (CLIENT_CREDENTIALS "client" "secret")
      (scripted_world [http_reply 200 (Some (VDict {[ "access_token" := VStr "token" ]}))])
    = (outcome,
       sent (scripted_world
               [http_reply 200 (Some (VDict {[ "access_token" := VStr "token" ]}))])
         [] (token_request (BASE_URL example_domain)
               (CLIENT_CREDENTIALS "client" "secret")))
    /\ outcome = Ok (AUTH_HEADERS example_token).
Proof.
  destruct (authenticate_outcomes example_domain example_repr scripted_serve
              (BASE_URL example_domain) (CLIENT_CREDENTIALS "client" "secret")
              (scripted_world
                 [http_reply 200 (Some (VDict {[ "access_token" := VStr "token" ]}))])
              (http_reply 200 (Some (VDict {[ "access_token" := VStr "token" ]})))
              [] eq_refl)
    as (outcome & Hrun & _ & _ & _ & Htoken & _).
  exists outcome. split; [exact Hrun |].
  apply (Htoken {| status_code := 200;
                   body := Some (VDict {[ "access_token" := VStr "token" ]});
                   links := ∅ |}
           {[ "access_token" := VStr "token" ]} (VStr "token"));
    reflexivity.
Defined.
